(** * SnP500Predictor: the return calculator and its HTTP boundary

    A shallow embedding of [backend/calculator.py] and of the
    [/calculator] endpoint of [backend/main.py].

    - Numbers are IEEE-754 binary64 values (Rocq's primitive floats).
      The prices and CPI values read from a pandas frame are
      [numpy.float64], and so is every number computed from them:
      division of such numbers never raises, [round(x, 2)] is numpy's
      and [**] is the platform's [pow], a parameter of the model.  A
      record can also hold Python's own [float] and [int]; numbers
      computed from those alone follow Python's [**] and [round].
    - A result record is a Python dict: an insertion-ordered
      association list that lives in a store of objects and is passed
      around by address, so that mutation in place and aliasing are
      visible.
    - Exceptions, the store of objects and the observable effects are
      threaded through a state-and-exception monad.  The effects are
      the lines printed and, recorded for the sake of the statements
      about what is not looked up, the accesses to the price frame for
      a range slice and to the CPI frame for an as-of lookup, whether
      they return or raise.
    - [pd.to_datetime] is a parameter: any function from strings to a
      timestamp or an exception. *)

From Stdlib Require Import ZArith Floats Lia Ascii String.
From stdpp Require Import base list strings.

Set Warnings "-inexact-float".
Open Scope Z_scope.

(** ** Timestamps *)

(** A [pandas.Timestamp]: nanoseconds since the epoch. *)
Definition Timestamp := Z.

Definition ns_per_day : Z := 86400000000000.

(** [(a - b).days]: whole days of a [Timedelta], rounded towards minus
    infinity. *)
Definition timedelta_days (a b : Timestamp) : Z := (a - b) / ns_per_day.

(** ** binary64 arithmetic *)

(** Conversion of a Python [int] to [float], rounding to nearest even. *)
Definition float_of_Z (z : Z) : float :=
  SF2Prim (binary_normalize prec emax z 0 false).

Definition two52 : float := 4503599627370496%float.

(** [numpy.rint]: the nearest integer, ties to even, with the sign of
    its argument.  Below [2^52] in magnitude, adding and subtracting
    [2^52] rounds to an integer in the default rounding mode; from
    [2^52] on every binary64 value is an integer already. *)
Definition rint (x : float) : float :=
  if (PrimFloat.abs x <? two52)%float then
    if (x <? 0)%float then (- ((- x + two52) - two52))%float
    else if (x =? 0)%float then x
    else ((x + two52) - two52)%float
  else x.

(** [round(x, 2)] on a [numpy.float64]: numpy scales by [10**2], rounds
    to the nearest integer and divides back. *)
Definition round2 (x : float) : float := (rint (x * 100) / 100)%float.

(** [pd.isna] on a float. *)
Definition isna (x : float) : bool := PrimFloat.is_nan x.

(** [(end_dt - start_dt).days / 365.25] *)
Definition years_between (start_dt end_dt : Timestamp) : float :=
  (float_of_Z (timedelta_days end_dt start_dt) / 365.25)%float.

(** ** Exceptions *)

Inductive exn_kind :=
| ValueError | KeyError | IndexError | TypeError | OverflowError
| ZeroDivisionError
| HTTPException (status_code : Z).

(** An exception object: its class and [str(e)]. *)
Record exn := mkExn { exn_class : exn_kind; exn_str : string }.

Inductive result (A : Type) :=
| Ok (a : A)
| Raised (e : exn).
Arguments Ok {A} a.
Arguments Raised {A} e.

(** ** Values and dicts *)

(** What a record holds: a [numpy.float64], a Python [float], a
    Python [int], a [str]. *)
Inductive value :=
| VFloat (f : float)
| VPyFloat (f : float)
| VInt (z : Z)
| VStr (s : string).

(** A Python dict: keys in insertion order, no key twice. *)
Definition dict := list (string * value).

Fixpoint dict_get (k : string) (d : dict) : option value :=
  match d with
  | [] => None
  | (k', v) :: d' => if String.eqb k k' then Some v else dict_get k d'
  end.

(** [k in d] *)
Definition dict_contains (k : string) (d : dict) : bool :=
  match dict_get k d with Some _ => true | None => false end.

(** [d[k] = v]: an existing key keeps its position, a new one goes last. *)
Fixpoint dict_set (k : string) (v : value) (d : dict) : dict :=
  match d with
  | [] => [(k, v)]
  | (k', v') :: d' =>
      if String.eqb k k' then (k', v) :: d' else (k', v') :: dict_set k v d'
  end.

(** [d.pop(k, None)] *)
Fixpoint dict_pop (k : string) (d : dict) : dict :=
  match d with
  | [] => []
  | (k', v') :: d' =>
      if String.eqb k k' then d' else (k', v') :: dict_pop k d'
  end.

(** ** Data frames *)

(** A frame as [fetch_fred_data] builds it: a datetime index and one
    float column ['value'] ([NaN] where the provider had no number),
    given by its rows.  The frame without rows, [[]], is
    [pd.DataFrame()], the empty frame that [fetch_fred_data] returns
    when it fails: it has no column and no index of dates (its index
    is an empty [RangeIndex]).  A frame built from observations has at
    least one row. *)
Definition DataFrame := list (Timestamp * float).

Definition df_index (df : DataFrame) : list Timestamp := map fst df.
Definition df_values (df : DataFrame) : list float := map snd df.

(** [df.empty] *)
Definition df_empty (df : DataFrame) : bool :=
  match df with [] => true | _ => false end.

(** The rows of a frame dated from [a] to [b], in their order: the
    rows that the mask [(df.index >= a) & (df.index <= b)] selects from
    a frame with an index of dates. *)
Definition df_between (a b : Timestamp) (df : DataFrame) : DataFrame :=
  List.filter (fun row => (a <=? fst row) && (fst row <=? b)) df.

(** [str(e)] of the [TypeError] of a comparison of the index of
    [pd.DataFrame()] with a timestamp. *)
Definition no_date_index : string :=
  "'>=' not supported between instances of 'numpy.ndarray' and 'Timestamp'".

(** [df[(df.index >= a) & (df.index <= b)]] (line 17).  On
    [pd.DataFrame()] the first comparison raises; on a frame with an
    index of dates the slice is the rows in range, which may be
    none. *)
Definition slice_between (a b : Timestamp) (df : DataFrame) : result DataFrame :=
  match df with
  | [] => Raised (mkExn TypeError no_date_index)
  | _ => Ok (df_between a b df)
  end.

(** [.iloc[-1]] of a non-empty list, [dflt] on the empty one. *)
Definition last_of {A} (dflt : A) (l : list A) : A := List.last l dflt.

(** ** The world: objects, output, lookups *)

(** The address of an object. *)
Abbreviation ref := nat.

Inductive event :=
| EvPrint (line : string)              (* a line on standard output *)
| EvRange (a b : Timestamp)            (* the price frame is accessed for a range slice *)
| EvAsof (t : Timestamp).              (* the CPI frame is accessed for an as-of lookup *)

Record state := mkState {
  heap : list dict;       (* the dict objects, by address *)
  trace : list event      (* what has been printed and looked up so far *)
}.

Definition M (A : Type) : Type := state -> result A * state.

Definition ret {A} (a : A) : M A := fun st => (Ok a, st).

Definition bind {A B} (m : M A) (k : A -> M B) : M B :=
  fun st =>
    match m st with
    | (Ok a, st') => k a st'
    | (Raised e, st') => (Raised e, st')
    end.

(** A computation that only returns or raises. *)
Definition lift {A} (r : result A) : M A := fun st => (r, st).

Definition raise {A} (c : exn_kind) (msg : string) : M A :=
  lift (Raised (mkExn c msg)).

(** [try: body  except Exception as e: handler e].  What [body] did to
    the world before raising stays done. *)
Definition try_except {A} (body : M A) (handler : exn -> M A) : M A :=
  fun st =>
    match body st with
    | (Ok a, st') => (Ok a, st')
    | (Raised e, st') => handler e st'
    end.

Notation "'let*' x ':=' m 'in' k" := (bind m (fun x => k))
  (at level 10, x binder, m at level 100, k at level 200,
   format "'let*'  x  ':='  m  'in'  '/' k").

Definition emit (e : event) : M unit :=
  fun st => (Ok tt, mkState (heap st) (trace st ++ [e])).

Definition print (line : string) : M unit := emit (EvPrint line).

(** A dict display [{...}]: a new object. *)
Definition new_dict (d : dict) : M ref :=
  fun st => (Ok (length (heap st)), mkState (heap st ++ [d]) (trace st)).

(** The dict at an address.  The calculator is handed dicts; the
    failure stands for a caller that hands it something else. *)
Definition deref (r : ref) : M dict :=
  fun st =>
    match heap st !! r with
    | Some d => (Ok d, st)
    | None => (Raised (mkExn TypeError "not a dict"), st)
    end.

(** [k in r] *)
Definition contains (k : string) (r : ref) : M bool :=
  let* d := deref r in ret (dict_contains k d).

(** [r[k]] *)
Definition getitem (r : ref) (k : string) : M value :=
  let* d := deref r in
  match dict_get k d with
  | Some v => ret v
  | None => raise KeyError ("'" +:+ k +:+ "'")
  end.

Definition update (r : ref) (f : dict -> dict) : M unit :=
  let* d := deref r in
  fun st => (Ok tt, mkState (<[r := f d]> (heap st)) (trace st)).

(** [r[k] = v] *)
Definition setitem (r : ref) (k : string) (v : value) : M unit :=
  update r (dict_set k v).

(** [r.pop(k, None)] *)
Definition pop (r : ref) (k : string) : M unit :=
  update r (dict_pop k).

(** ** Arithmetic on dict entries *)

(** The float a number stands for in arithmetic with a float; a [str]
    operand is a [TypeError], an [int] beyond the float range an
    [OverflowError]. *)
Definition as_float (v : value) : result float :=
  match v with
  | VFloat f => Ok f
  | VPyFloat f => Ok f
  | VInt z =>
      let f := float_of_Z z in
      if PrimFloat.is_infinity f
      then Raised (mkExn OverflowError "int too large to convert to float")
      else Ok f
  | VStr _ => Raised (mkExn TypeError "unsupported operand type(s)")
  end.

(** Whether a number is Python's own ([float], [int]) and not numpy's:
    arithmetic of such a number with Python numbers is Python's. *)
Definition is_python (v : value) : bool :=
  match v with
  | VFloat _ => false
  | _ => true
  end.

(** [a / b] on Python floats. *)
Definition py_truediv (a b : float) : result float :=
  if (b =? 0)%float then Raised (mkExn ZeroDivisionError "float division by zero")
  else Ok (a / b)%float.

(** ** Python's [**] and [round] on floats *)

(** A number as line 86 computes it: numpy's, Python's, or the
    [complex] that Python's [**] gives for a negative base and a
    fractional exponent. *)
Inductive number :=
| NumpyFloat (x : float)
| PyFloat (x : float)
| PyComplex.

(** A finite float that is an integer, and one that is an odd
    integer ([fmod(fabs(x), 2.0) == 1.0]). *)
Definition is_integer (x : float) : bool := (rint x =? x)%float.

Definition is_odd_integer (x : float) : bool :=
  is_integer x && negb (is_integer (x / 2)).

(** [v ** w] on Python floats (CPython's [float_pow]): the special
    cases are sorted out first, a negative base with a fractional
    exponent goes to [complex], and the rest is the platform's [pow],
    whose overflow is an [OverflowError].  The complex power overflows
    when its modulus [pow(|v|, w)] does. *)
Definition py_pow (pow : float -> float -> float) (v w : float) : result number :=
  if (w =? 0)%float then Ok (PyFloat 1)
  else if isna v then Ok (PyFloat v)
  else if isna w then Ok (PyFloat (if (v =? 1)%float then 1%float else w))
  else if PrimFloat.is_infinity w then
    let a := PrimFloat.abs v in
    if (a =? 1)%float then Ok (PyFloat 1)
    else if Bool.eqb (0 <? w)%float (1 <? a)%float then Ok (PyFloat infinity)
    else Ok (PyFloat 0)
  else if PrimFloat.is_infinity v then
    let odd := is_odd_integer w in
    if (0 <? w)%float then Ok (PyFloat (if odd then v else PrimFloat.abs v))
    else Ok (PyFloat (if odd && (v <? 0)%float then (-0)%float else 0%float))
  else if (v =? 0)%float then
    if (w <? 0)%float
    then Raised (mkExn ZeroDivisionError "0.0 cannot be raised to a negative power")
    else Ok (PyFloat (if is_odd_integer w then v else 0%float))
  else if (v <? 0)%float && negb (is_integer w) then
    if PrimFloat.is_infinity (pow (PrimFloat.abs v) w)
    then Raised (mkExn OverflowError "complex exponentiation")
    else Ok PyComplex
  else
    let negate := (v <? 0)%float && is_odd_integer w in
    let a := PrimFloat.abs v in
    if (a =? 1)%float then Ok (PyFloat (if negate then (-1)%float else 1%float))
    else
      let ix := pow a w in
      if PrimFloat.is_infinity ix
      then Raised (mkExn OverflowError "(34, 'Numerical result out of range')")
      else Ok (PyFloat (if negate then (- ix)%float else ix)).

(** [n / d] rounded to the nearest integer, ties to even, for [d > 0]. *)
Definition round_half_even (n d : Z) : Z :=
  let q := n / d in
  let r := n mod d in
  if 2 * r <? d then q
  else if d <? 2 * r then q + 1
  else if Z.even q then q else q + 1.

Definition two46 : float := 70368744177664%float.

(** [round(x, 2)] on a Python float: the float nearest to the exact
    value of [x] rounded to two decimals, ties to even (CPython rounds
    through a decimal string, correctly in both directions).  From
    [2^46] on, where floats are more than 0.01 apart, that is [x]
    itself; below, the exact value times 100 rounds to an integer
    below [2^53], and dividing it by 100 rounds correctly. *)
Definition py_round2 (x : float) : float :=
  match Prim2SF x with
  | S754_finite sign m e =>
      if (PrimFloat.abs x <? two46)%float then
        let q :=
          if 0 <=? e then Z.pos m * 2 ^ e * 100
          else round_half_even (Z.pos m * 100) (2 ^ (- e)) in
        let y := (float_of_Z q / 100)%float in
        if sign then (- y)%float else y
      else x
  | _ => x
  end.

(** [(n - 1) * 100] *)
Definition less_one_times_100 (n : number) : number :=
  match n with
  | NumpyFloat x => NumpyFloat ((x - 1) * 100)%float
  | PyFloat x => PyFloat ((x - 1) * 100)%float
  | PyComplex => PyComplex
  end.

(** [round(n, 2)]: numpy's on a [numpy.float64], Python's on a
    [float]; a [complex] has no [__round__]. *)
Definition round_number (n : number) : result value :=
  match n with
  | NumpyFloat x => Ok (VFloat (round2 x))
  | PyFloat x => Ok (VPyFloat (py_round2 x))
  | PyComplex =>
      Raised (mkExn TypeError "type complex doesn't define __round__ method")
  end.

(** ** [Series.asof] *)

Fixpoint is_monotonic_increasing (idx : list Timestamp) : bool :=
  match idx with
  | a :: (b :: _) as rest => (a <=? b) && is_monotonic_increasing rest
  | _ => true
  end.

(** [index.searchsorted(t, side="right")] on a sorted index. *)
Fixpoint searchsorted_right (idx : list Timestamp) (t : Timestamp) : nat :=
  match idx with
  | [] => 0%nat
  | a :: rest => if a <=? t then S (searchsorted_right rest t) else 0%nat
  end.

(** [while loc > 0 and isna(values[loc]): loc -= 1] *)
Fixpoint skip_na_back (values : list float) (loc : nat) : nat :=
  match loc with
  | O => O
  | S loc' => if isna (nth loc values nan) then skip_na_back values loc' else loc
  end.

(** [cpi_data['value'].asof(t)] for a scalar [t]: the last value that
    is not [NaN] at or before [t], [NaN] when there is none.
    [pd.DataFrame()] has no column ['value'], and pandas refuses an
    index that is not sorted. *)
Definition series_asof (cpi_data : DataFrame) (t : Timestamp) : result float :=
  match cpi_data with
  | [] => Raised (mkExn KeyError "'value'")
  | (start, _) :: _ =>
      if negb (is_monotonic_increasing (df_index cpi_data))
      then Raised (mkExn ValueError "asof requires a sorted index")
      else if t <? start then Ok nan
      else
        let loc := searchsorted_right (df_index cpi_data) t in
        let loc := if (0 <? loc)%nat then (loc - 1)%nat else loc in
        let loc := skip_na_back (df_values cpi_data) loc in
        Ok (nth loc (df_values cpi_data) nan)
  end.

(** [cpi_data['value'].asof(t)], a lookup in the CPI frame. *)
Definition asof (cpi_data : DataFrame) (t : Timestamp) : M float :=
  let* _ := emit (EvAsof t) in
  lift (series_asof cpi_data t).

(** [values.iloc[0]] and [values.iloc[-1]] *)
Definition iloc_first (values : list float) : result float :=
  match values with
  | [] => Raised (mkExn IndexError "single positional indexer is out-of-bounds")
  | v :: _ => Ok v
  end.

Definition iloc_last (values : list float) : result float :=
  match values with
  | [] => Raised (mkExn IndexError "single positional indexer is out-of-bounds")
  | _ => Ok (last_of nan values)
  end.

(** ** backend/calculator.py *)

Definition insufficient_sp500 : string :=
  "Insufficient S&P 500 data for the selected period.".
Definition insufficient_cpi : string :=
  "Insufficient CPI data for the selected period.".
Definition nominal_note : string :=
  "Simplified calculation without actual dividend reinvestment.".
Definition real_note : string :=
  "Simplified nominal return (no dividend reinvestment). Real return adjusted using CPI.".

Section Calculator.

(** [pd.to_datetime] on a string: a timestamp, or the exception the
    parser raises.  ([NaT] is left out: the endpoint passes dates that
    it has written itself.) *)
Variable to_datetime : string -> result Timestamp.

(** [x ** y] on [numpy.float64]: the platform's [pow], which returns
    a float on every input. *)
Variable pow : float -> float -> float.

(** Lines 25-49: the record computed from the rows in range. *)
Definition nominal_record (start_date end_date : string)
    (initial_investment : float) (start_dt end_dt : Timestamp)
    (relevant_data : DataFrame) : M ref :=
  let* start_price := lift (iloc_first (df_values relevant_data)) in
  let* end_price := lift (iloc_last (df_values relevant_data)) in
  let price_return := (end_price / start_price - 1)%float in
  let years := years_between start_dt end_dt in
  let estimated_total_return_factor := (1 + price_return)%float in
  let final_value := (initial_investment * estimated_total_return_factor)%float in
  let total_return_pct := (estimated_total_return_factor - 1)%float in
  new_dict
    [ ("start_date", VStr start_date);
      ("end_date", VStr end_date);
      ("initial_investment", VPyFloat initial_investment);
      ("final_nominal_value", VFloat (round2 final_value));
      ("nominal_total_return_pct", VFloat (round2 (total_return_pct * 100)));
      ("calculation_notes", VStr nominal_note) ].

(** [relevant_data.empty or relevant_data.index[0] > start_dt or
    relevant_data.index[-1] < end_dt]; the index is read only when
    the frame is not empty. *)
Definition coverage_gap (start_dt end_dt : Timestamp)
    (relevant_data : DataFrame) : bool :=
  df_empty relevant_data
  || (start_dt <? hd 0 (df_index relevant_data))
  || (last_of 0 (df_index relevant_data) <? end_dt).

(** The body of the [try] of [calculate_nominal_return]. *)
Definition nominal_return_body (start_date end_date : string)
    (initial_investment : float) (sp500_data : DataFrame) : M ref :=
  let* start_dt := lift (to_datetime start_date) in
  let* end_dt := lift (to_datetime end_date) in
  let* _ := emit (EvRange start_dt end_dt) in
  let* relevant_data := lift (slice_between start_dt end_dt sp500_data) in
  if coverage_gap start_dt end_dt relevant_data then
    let* _ := print ("Warning: Data missing for range " +:+ start_date
                     +:+ " to " +:+ end_date) in
    if df_empty relevant_data
    then new_dict [("error", VStr insufficient_sp500)]
    else nominal_record start_date end_date initial_investment
           start_dt end_dt relevant_data
  else nominal_record start_date end_date initial_investment
         start_dt end_dt relevant_data.

Definition calculate_nominal_return (start_date end_date : string)
    (initial_investment : float) (sp500_data : DataFrame) : M ref :=
  try_except
    (nominal_return_body start_date end_date initial_investment sp500_data)
    (fun e =>
       let* _ := print ("Error in nominal calculation: " +:+ exn_str e) in
       new_dict [("error", VStr ("Calculation error: " +:+ exn_str e))]).

(** [factor ** exponent] at line 86.  The nominal factor is a Python
    float when the percentage read from the record is a Python
    number, and the power is Python's; otherwise it is a
    [numpy.float64] and the power is numpy's. *)
Definition power (python : bool) (factor exponent : float) : result number :=
  if python then py_pow pow factor exponent
  else Ok (NumpyFloat (pow factor exponent)).

(** Lines 83-92: the two CAGR entries.  The real factor is a
    [numpy.float64] in every case, being a quotient by a number
    computed from the CPI frame. *)
Definition set_cagr (nominal_result : ref) (python : bool)
    (nominal_total_return_factor real_return_factor years : float) : M unit :=
  if (0 <? years)%float then
    let* e1 := lift (py_truediv 1 years) in
    let* p := lift (power python nominal_total_return_factor e1) in
    let nominal_cagr := less_one_times_100 p in
    let* e2 := lift (py_truediv 1 years) in
    let real_cagr := ((pow real_return_factor e2 - 1) * 100)%float in
    let* nominal_cagr_pct := lift (round_number nominal_cagr) in
    let* _ := setitem nominal_result "nominal_cagr_pct" nominal_cagr_pct in
    setitem nominal_result "real_cagr_pct" (VFloat (round2 real_cagr))
  else
    let* _ := setitem nominal_result "nominal_cagr_pct" (VInt 0) in
    setitem nominal_result "real_cagr_pct" (VInt 0).

(** The body of the [try] of [calculate_real_return]. *)
Definition real_return_body (nominal_result : ref)
    (start_date end_date : string) (cpi_data : DataFrame) : M ref :=
  let* start_dt := lift (to_datetime start_date) in
  let* end_dt := lift (to_datetime end_date) in
  let* cpi_start_val := asof cpi_data start_dt in
  let* cpi_end_val := asof cpi_data end_dt in
  if isna cpi_start_val || isna cpi_end_val || (cpi_start_val =? 0)%float then
    new_dict [("error", VStr insufficient_cpi)]
  else
    let inflation_rate := (cpi_end_val / cpi_start_val - 1)%float in
    let* pct_entry := getitem nominal_result "nominal_total_return_pct" in
    let* pct := lift (as_float pct_entry) in
    let nominal_total_return_factor := (1 + pct / 100)%float in
    let real_return_factor :=
      (nominal_total_return_factor / (1 + inflation_rate))%float in
    let real_total_return_pct := ((real_return_factor - 1) * 100)%float in
    let* invested := getitem nominal_result "initial_investment" in
    let* invested := lift (as_float invested) in
    let final_real_value := (invested * real_return_factor)%float in
    let* _ := setitem nominal_result "final_real_value"
                (VFloat (round2 final_real_value)) in
    let* _ := setitem nominal_result "real_total_return_pct"
                (VFloat (round2 real_total_return_pct)) in
    let* _ := setitem nominal_result "total_inflation_pct"
                (VFloat (round2 (inflation_rate * 100))) in
    let years := years_between start_dt end_dt in
    let* _ := set_cagr nominal_result (is_python pct_entry)
                nominal_total_return_factor real_return_factor years in
    let* _ := pop nominal_result "calculation_notes" in
    let* _ := setitem nominal_result "calculation_notes" (VStr real_note) in
    ret nominal_result.

Definition calculate_real_return (nominal_result : ref)
    (start_date end_date : string) (cpi_data : DataFrame) : M ref :=
  let* is_error := contains "error" nominal_result in
  if is_error then ret nominal_result
  else
    try_except
      (real_return_body nominal_result start_date end_date cpi_data)
      (fun e =>
         let* _ := print ("Error in real calculation: " +:+ exn_str e) in
         new_dict [("error", VStr ("Real return calculation error: " +:+ exn_str e))]).

(** The two stages in a row, as the endpoint runs them. *)
Definition calculate_returns (start_date end_date : string)
    (initial_investment : float) (sp500_data cpi_data : DataFrame) : M ref :=
  let* nominal_result :=
    calculate_nominal_return start_date end_date initial_investment sp500_data in
  calculate_real_return nominal_result start_date end_date cpi_data.

End Calculator.

(** ** backend/main.py: the [/calculator] endpoint *)

(** The request body.  A [datetime.date] is a day count from the epoch. *)
Record CalculatorInput := mkCalculatorInput {
  start_date : Z;
  end_date : Z;
  initial_investment : float
}.

Definition not_loaded (cache : option DataFrame) : bool :=
  match cache with None => true | Some _ => false end.

Definition cache_empty (cache : option DataFrame) : bool :=
  match cache with None => false | Some df => df_empty df end.

Section Endpoint.

Variable to_datetime : string -> result Timestamp.
Variable pow : float -> float -> float.

(** [d.strftime('%Y-%m-%d')] *)
Variable strftime : Z -> string.

(** [str] of a float and of an int, for an f-string. *)
Variable float_str : float -> string.
Variable int_str : Z -> string.

Definition format_value (v : value) : string :=
  match v with
  | VStr s => s
  | VFloat f => float_str f
  | VPyFloat f => float_str f
  | VInt z => int_str z
  end.

(** [SP500_DATA_CACHE] and [CPI_DATA_CACHE] are the module's globals:
    [None] until [load_data_caches] has run, then the fetched frames. *)
Definition calculate_returns_endpoint
    (SP500_DATA_CACHE CPI_DATA_CACHE : option DataFrame)
    (data : CalculatorInput) : M ref :=
  if not_loaded SP500_DATA_CACHE || not_loaded CPI_DATA_CACHE
     || cache_empty SP500_DATA_CACHE || cache_empty CPI_DATA_CACHE
  then raise (HTTPException 503)
         "Historical data is not available or failed to load. Please try again later."
  else if start_date data >=? end_date data
  then raise (HTTPException 400) "Start date must be before end date."
  else
    let start_date_str := strftime (start_date data) in
    let end_date_str := strftime (end_date data) in
    let* nominal_result :=
      calculate_nominal_return to_datetime start_date_str end_date_str
        (initial_investment data) (default [] SP500_DATA_CACHE) in
    let* failed := contains "error" nominal_result in
    if failed then
      let* msg := getitem nominal_result "error" in
      raise (HTTPException 400) ("Nominal calculation error: " +:+ format_value msg)
    else
      let* final_result :=
        calculate_real_return to_datetime pow nominal_result
          start_date_str end_date_str (default [] CPI_DATA_CACHE) in
      let* failed := contains "error" final_result in
      if failed then
        let* msg := getitem final_result "error" in
        raise (HTTPException 400) ("Real calculation error: " +:+ format_value msg)
      else ret final_result.

End Endpoint.

(** ** ISO calendar dates

    The endpoint hands the calculator dates written [YYYY-MM-DD].  On
    such strings [pd.to_datetime] returns midnight of that day; this
    reading of them instantiates the parser in the examples. *)
Module Iso.

(** Days from 1970-01-01 to the civil date [y]-[m]-[d]. *)
Definition days_from_civil (y m d : Z) : Z :=
  let y := if m <=? 2 then y - 1 else y in
  let era := y / 400 in
  let yoe := y - era * 400 in
  let doy := (153 * (if 2 <? m then m - 3 else m + 9) + 2) / 5 + d - 1 in
  let doe := yoe * 365 + yoe / 4 - yoe / 100 + doy in
  era * 146097 + doe - 719468.

(** The civil date of a day count. *)
Definition civil_from_days (z : Z) : Z * Z * Z :=
  let z := z + 719468 in
  let era := z / 146097 in
  let doe := z - era * 146097 in
  let yoe := (doe - doe / 1460 + doe / 36524 - doe / 146096) / 365 in
  let y := yoe + era * 400 in
  let doy := doe - (365 * yoe + yoe / 4 - yoe / 100) in
  let mp := (5 * doy + 2) / 153 in
  let d := doy - (153 * mp + 2) / 5 + 1 in
  let m := if mp <? 10 then mp + 3 else mp - 9 in
  (if m <=? 2 then y + 1 else y, m, d).

Definition digit (c : ascii) : option Z :=
  let n := Z.of_nat (nat_of_ascii c) in
  if (48 <=? n) && (n <=? 57) then Some (n - 48) else None.

Fixpoint number (acc : Z) (cs : list ascii) : option Z :=
  match cs with
  | [] => Some acc
  | c :: cs' =>
      match digit c with
      | Some n => number (10 * acc + n) cs'
      | None => None
      end
  end.

Definition parse_ymd (s : string) : option (Z * Z * Z) :=
  match String.list_ascii_of_string s with
  | [y1; y2; y3; y4; "-"%char; m1; m2; "-"%char; d1; d2] =>
      match number 0 [y1; y2; y3; y4], number 0 [m1; m2], number 0 [d1; d2] with
      | Some y, Some m, Some d =>
          let '(y', m', d') := civil_from_days (days_from_civil y m d) in
          if (1 <=? m) && (m <=? 12) && (1 <=? d)
             && (y' =? y) && (m' =? m) && (d' =? d)
          then Some (y, m, d) else None
      | _, _, _ => None
      end
  | _ => None
  end.

Definition to_datetime (s : string) : result Timestamp :=
  match parse_ymd s with
  | Some (y, m, d) => Ok (days_from_civil y m d * ns_per_day)
  | None =>
      Raised (mkExn ValueError
                ("Unknown datetime string format, unable to parse: " +:+ s))
  end.

Definition digit_char (n : Z) : ascii := ascii_of_nat (Z.to_nat (48 + n mod 10)).

Definition digits2 (n : Z) : string :=
  String (digit_char (n / 10)) (String (digit_char n) "").

Definition digits4 (n : Z) : string :=
  String (digit_char (n / 1000)) (String (digit_char (n / 100)) (digits2 n)).

(** [d.strftime('%Y-%m-%d')] for a year of four digits. *)
Definition strftime (days : Z) : string :=
  let '(y, m, d) := civil_from_days days in
  digits4 y +:+ "-" +:+ digits2 m +:+ "-" +:+ digits2 d.

(** A few values of the platform's [pow]: by square roots where the
    exponent allows it, which is what the examples need. *)
Definition pow (x y : float) : float :=
  if (y =? 1)%float then x
  else if (y =? 0.5)%float then PrimFloat.sqrt x
  else if (y =? 0.25)%float then PrimFloat.sqrt (PrimFloat.sqrt x)
  else nan.

End Iso.


(** * backend/data/data_fetcher.py: the fetch functions

    The fetch functions talk to the outside: they read an environment
    variable, send HTTP requests, call [yfinance] and print.  What the
    outside answers is a parameter of the model; what the functions do
    with the answers is translated from the source.

    - An exception is one of the classes the handlers of this file tell
      apart, with [str(e)]; every one of them is an [Exception], so
      [except Exception] catches them all.
    - The world holds the two globals of [backend/main.py] and the
      observable effects in order: the lines printed, the HTTP requests
      sent and the calls to [yfinance]. *)
Module Fetcher.

Inductive py_exception :=
| RequestException (msg : string)  (* requests.exceptions.RequestException *)
| ImportError (msg : string)
| AttributeError (msg : string)
| Exception (e : exn).             (* any other exception *)

(** [str(e)], as an f-string formats [{e}]. *)
Definition str (e : py_exception) : string :=
  match e with
  | RequestException msg | ImportError msg | AttributeError msg => msg
  | Exception e => exn_str e
  end.

Inductive answer (A : Type) :=
| Done (a : A)
| Thrown (e : py_exception).
Arguments Done {A} a.
Arguments Thrown {A} e.

Definition of_result {A} (r : result A) : answer A :=
  match r with
  | Ok a => Done a
  | Raised e => Thrown (Exception e)
  end.

Inductive effect :=
| Out (line : string)                      (* a line on standard output *)
| Get (url : string)                       (* requests.get(url) *)
| History (ticker start stop : string).    (* yf.Ticker(ticker).history(start=, end=) *)

Record world := mkWorld {
  SP500_DATA_CACHE : option DataFrame;
  CPI_DATA_CACHE : option DataFrame;
  output : list effect
}.

Definition IO (A : Type) : Type := world -> answer A * world.

Definition io_ret {A} (a : A) : IO A := fun w => (Done a, w).

Definition io_bind {A B} (m : IO A) (k : A -> IO B) : IO B :=
  fun w =>
    match m w with
    | (Done a, w') => k a w'
    | (Thrown e, w') => (Thrown e, w')
    end.

Definition io_lift {A} (r : answer A) : IO A := fun w => (r, w).

Definition io_raise {A} (e : py_exception) : IO A := io_lift (Thrown e).

(** [try: body  except ... as e: handler e], the handler choosing by
    the class of [e].  What [body] did before raising stays done. *)
Definition io_try {A} (body : IO A) (handler : py_exception -> IO A) : IO A :=
  fun w =>
    match body w with
    | (Done a, w') => (Done a, w')
    | (Thrown e, w') => handler e w'
    end.

Notation "'let!' x ':=' m 'in' k" := (io_bind m (fun x => k))
  (at level 10, x binder, m at level 100, k at level 200,
   format "'let!'  x  ':='  m  'in'  '/' k").

Definition io_emit (e : effect) : IO unit :=
  fun w =>
    (Done tt, mkWorld (SP500_DATA_CACHE w) (CPI_DATA_CACHE w) (output w ++ [e])).

Definition io_print (line : string) : IO unit := io_emit (Out line).

(** An HTTP response: its status, the text of the [HTTPError] that goes
    with a bad status, and what [response.json()] gives. *)
Record Response (Json : Type) := mkResponse {
  status_code : Z;
  http_error : string;
  json : answer Json
}.
Arguments mkResponse {Json} status_code http_error json.
Arguments status_code {Json} r.
Arguments http_error {Json} r.
Arguments json {Json} r.

(** [response.raise_for_status()]: an [HTTPError], which is a
    [RequestException], for a status from 400 to 599. *)
Definition raise_for_status {Json} (response : Response Json) : answer unit :=
  if (400 <=? status_code response) && (status_code response <? 600)
  then Thrown (RequestException (http_error response))
  else Done tt.

(** The key that [if not FRED_API_KEY] lets through: the variable is
    set, and not to the empty string. *)
Definition usable_key (key : option string) : option string :=
  match key with
  | None => None
  | Some k => if bool_decide (k = "") then None else Some k
  end.

Definition fred_url (series_id key : string) : string :=
  "https://api.stlouisfed.org/fred/series/observations?series_id=" +:+ series_id
  +:+ "&api_key=" +:+ key +:+ "&file_type=json".

Definition no_key_line : string :=
  "FRED API Key not found. Set FRED_API_KEY environment variable.".

Section Fred.

(** [os.getenv("FRED_API_KEY")] *)
Variable FRED_API_KEY : option string.

(** What a GET of a URL is answered, and the frame that lines 34 to 38
    build from the decoded answer: [data['observations']], the
    [DataFrame] of it, its [date] and [value] columns, the first parsed
    by [pd.to_datetime], the second by [pd.to_numeric], and [date] as
    the index.  Each step is pandas' and may raise. *)
Variable Json : Type.
Variable requests_get : string -> answer (Response Json).
Variable observations_frame : Json -> answer DataFrame.

Definition fetch_fred_data (series_id : string) : IO DataFrame :=
  match usable_key FRED_API_KEY with
  | None =>
      let! _ := io_print no_key_line in
      io_ret []
  | Some key =>
      let url := fred_url series_id key in
      io_try
        (let! _ := io_emit (Get url) in
         let! response := io_lift (requests_get url) in
         let! _ := io_lift (raise_for_status response) in
         let! data := io_lift (json response) in
         let! df := io_lift (observations_frame data) in
         let! _ := io_print ("Fetched " +:+ series_id +:+ " data from FRED") in
         io_ret df)
        (fun e =>
           match e with
           | RequestException _ =>
               let! _ := io_print ("Error fetching " +:+ series_id
                                   +:+ " from FRED: " +:+ str e) in
               io_ret []
           | _ =>
               let! _ := io_print ("Error processing FRED data for " +:+ series_id
                                   +:+ ": " +:+ str e) in
               io_ret []
           end)
  end.

Definition fetch_sp500_data : IO DataFrame := fetch_fred_data "SP500".

Definition fetch_cpi_data : IO DataFrame := fetch_fred_data "CPIAUCSL".

End Fred.

Definition ohlc_columns : list string := ["Open"; "High"; "Low"; "Close"; "Volume"].

Section Ohlc.

(** A frame of [yfinance]: whether it is [.empty], the frame
    [pd.DataFrame()], and the selection of columns [hist[[...]]],
    which raises when one is missing. *)
Variable Frame : Type.
Variable empty : Frame -> bool.
Variable pd_DataFrame : Frame.
Variable select_columns : Frame -> list string -> answer Frame.

(** [import yfinance], and what [history] answers.  Making the
    [Ticker] object sends nothing. *)
Variable import_yfinance : answer unit.
Variable history : string -> string -> string -> answer Frame.

(** [pd.to_datetime], [ts + pd.Timedelta(days=1)], which raises past
    the last timestamp, and [ts.strftime('%Y-%m-%d')]. *)
Variable to_datetime : string -> result Timestamp.
Variable add_one_day : Timestamp -> result Timestamp.
Variable ts_strftime : Timestamp -> string.

Definition fetch_ohlc_data (ticker start_date end_date : string) : IO Frame :=
  io_try
    (let! _ := io_lift import_yfinance in
     let! end_dt := io_lift (of_result (to_datetime end_date)) in
     let! next_dt := io_lift (of_result (add_one_day end_dt)) in
     let end_date_yf := ts_strftime next_dt in
     let! _ := io_emit (History ticker start_date end_date_yf) in
     let! hist := io_lift (history ticker start_date end_date_yf) in
     if empty hist then
       let! _ := io_print ("No data found for " +:+ ticker +:+ " between "
                           +:+ start_date +:+ " and " +:+ end_date) in
       io_ret pd_DataFrame
     else
       let! hist := io_lift (select_columns hist ohlc_columns) in
       let! _ := io_print ("Fetched OHLCV data for " +:+ ticker
                           +:+ " from yfinance") in
       io_ret hist)
    (fun e =>
       match e with
       | ImportError _ =>
           let! _ := io_print
                       "Error: yfinance library not installed. Run 'pip install yfinance'" in
           io_ret pd_DataFrame
       | _ =>
           let! _ := io_print ("Error fetching OHLCV data for " +:+ ticker
                               +:+ ": " +:+ str e) in
           io_ret pd_DataFrame
       end).

End Ohlc.

End Fetcher.

(** * backend/main.py: startup and the [/ohlc] endpoint *)
Module Main.
Import Fetcher.

Definition set_SP500_DATA_CACHE (df : DataFrame) : IO unit :=
  fun w => (Done tt, mkWorld (Some df) (CPI_DATA_CACHE w) (output w)).

Definition set_CPI_DATA_CACHE (df : DataFrame) : IO unit :=
  fun w => (Done tt, mkWorld (SP500_DATA_CACHE w) (Some df) (output w)).

Definition loading_line : string := "Loading S&P 500 and CPI data into cache...".
Definition failed_line : string :=
  "Warning: Failed to load one or both data caches on startup.".
Definition loaded_line : string := "Data caches loaded successfully.".

Section Startup.

Variable FRED_API_KEY : option string.
Variable Json : Type.
Variable requests_get : string -> answer (Response Json).
Variable observations_frame : Json -> answer DataFrame.

Definition load_data_caches : IO unit :=
  let! _ := io_print loading_line in
  let! sp := fetch_sp500_data FRED_API_KEY Json requests_get observations_frame in
  let! _ := set_SP500_DATA_CACHE sp in
  let! cpi := fetch_cpi_data FRED_API_KEY Json requests_get observations_frame in
  let! _ := set_CPI_DATA_CACHE cpi in
  if df_empty sp || df_empty cpi then io_print failed_line
  else io_print loaded_line.

Definition startup_event : IO unit := load_data_caches.

End Startup.

(** The body of an [/ohlc] request. *)
Record OHLCInput := mkOHLCInput {
  ticker : string;
  start_date : Z;
  end_date : Z
}.

(** A cell of a record of [to_dict(orient='records')]: a timestamp or a
    plain value. *)
Inductive cell :=
| CTimestamp (t : Timestamp)
| CValue (v : value).

Definition record := list (string * cell).

Fixpoint record_get (k : string) (r : record) : option cell :=
  match r with
  | [] => None
  | (k', c) :: r' => if decide (k' = k) then Some c else record_get k r'
  end.

Fixpoint record_set (k : string) (c : cell) (r : record) : record :=
  match r with
  | [] => [(k, c)]
  | (k', c') :: r' =>
      if decide (k' = k) then (k, c) :: r' else (k', c') :: record_set k c r'
  end.

(** The answer of the endpoint: [{"ticker": ..., "data": ...}]. *)
Record OHLCResponse := mkOHLCResponse {
  response_ticker : string;
  response_data : list record
}.

Definition not_found (ticker : string) : string :=
  "No OHLC data found for " +:+ ticker +:+ " in the specified date range.".

Section OhlcEndpoint.

Variable Frame : Type.
Variable empty : Frame -> bool.
Variable pd_DataFrame : Frame.
Variable select_columns : Frame -> list string -> answer Frame.
Variable import_yfinance : answer unit.
Variable history : string -> string -> string -> answer Frame.
Variable to_datetime : string -> result Timestamp.
Variable add_one_day : Timestamp -> result Timestamp.
Variable ts_strftime : Timestamp -> string.

(** [d.strftime('%Y-%m-%d')] on a [date]. *)
Variable strftime : Z -> string.

(** [ohlc_df.reset_index().to_dict(orient='records')]; and the text of
    the [AttributeError] for a cell that has no [strftime]. *)
Variable to_records : Frame -> answer (list record).
Variable no_strftime : value -> string.

(** [record['Date'] = record['Date'].strftime('%Y-%m-%d')] *)
Definition format_date (r : record) : answer record :=
  match record_get "Date" r with
  | None => Thrown (Exception (mkExn KeyError "'Date'"))
  | Some (CTimestamp t) => Done (record_set "Date" (CValue (VStr (ts_strftime t))) r)
  | Some (CValue v) => Thrown (AttributeError (no_strftime v))
  end.

(** The [for] loop over the records: it stops at the first record that
    raises. *)
Fixpoint format_dates (rs : list record) : answer (list record) :=
  match rs with
  | [] => Done []
  | r :: rs' =>
      match format_date r with
      | Thrown e => Thrown e
      | Done r1 =>
          match format_dates rs' with
          | Thrown e => Thrown e
          | Done rs1 => Done (r1 :: rs1)
          end
      end
  end.

Definition get_ohlc_data_endpoint (data : OHLCInput) : IO OHLCResponse :=
  if start_date data >=? end_date data
  then io_raise (Exception (mkExn (HTTPException 400)
                              "Start date must be before end date."))
  else
    let start_date_str := strftime (start_date data) in
    let end_date_str := strftime (end_date data) in
    let! ohlc_df :=
      fetch_ohlc_data Frame empty pd_DataFrame select_columns import_yfinance
        history to_datetime add_one_day ts_strftime
        (ticker data) start_date_str end_date_str in
    if empty ohlc_df
    then io_raise (Exception (mkExn (HTTPException 404) (not_found (ticker data))))
    else
      let! ohlc_data := io_lift (to_records ohlc_df) in
      let! ohlc_data := io_lift (format_dates ohlc_data) in
      io_ret (mkOHLCResponse (ticker data) ohlc_data).

End OhlcEndpoint.

End Main.
(** * The vocabulary of the statements

    Summaries of what the calculator reads and writes, used to state
    the lemmas below. *)

(** [d[k]] read as a number. *)
Definition read_float (k : string) (d : dict) : result float :=
  match dict_get k d with
  | Some v => as_float v
  | None => Raised (mkExn KeyError ("'" +:+ k +:+ "'"))
  end.

(** Whether the percentage of a record is a Python number, so that
    the nominal factor computed from it is a Python float. *)
Definition python_pct (d : dict) : bool :=
  match dict_get "nominal_total_return_pct" d with
  | Some v => is_python v
  | None => false
  end.

(** The nominal and the real return factor. *)
Definition nominal_factor (pct : float) : float := (1 + pct / 100)%float.

Definition real_factor (pct cpi_start cpi_end : float) : float :=
  (nominal_factor pct / (1 + (cpi_end / cpi_start - 1)))%float.

(** The nominal CAGR entry for a factor and elapsed years (lines 86
    and 88), or what computing it raises. *)
Definition nominal_cagr_entry (pow : float -> float -> float) (python : bool)
    (nf years : float) : result value :=
  match power pow python nf (1 / years) with
  | Ok p => round_number (less_one_times_100 p)
  | Raised x => Raised x
  end.

(** The two CAGR entries for given return factors and elapsed years,
    or what computing them raises. *)
Definition cagr_entries (pow : float -> float -> float) (python : bool)
    (nf rf years : float) : result (value * value) :=
  if (0 <? years)%float then
    match nominal_cagr_entry pow python nf years with
    | Ok c => Ok (c, VFloat (round2 ((pow rf (1 / years) - 1) * 100)%float))
    | Raised x => Raised x
    end
  else Ok (VInt 0, VInt 0).

Definition with_cagr (c : value * value) (d : dict) : dict :=
  dict_set "real_cagr_pct" (snd c) (dict_set "nominal_cagr_pct" (fst c) d).

(** The record [d] after lines 79-81: the three real-return figures
    are written. *)
Definition real_figures (d : dict) (pct invested cpi_start cpi_end : float) : dict :=
  let rf := real_factor pct cpi_start cpi_end in
  dict_set "total_inflation_pct"
    (VFloat (round2 ((cpi_end / cpi_start - 1) * 100)%float))
    (dict_set "real_total_return_pct" (VFloat (round2 ((rf - 1) * 100)%float))
       (dict_set "final_real_value" (VFloat (round2 (invested * rf)%float)) d)).

(** The record [d] after a successful real-return stage that wrote
    the CAGR entries [c]. *)
Definition real_record (c : value * value) (d : dict)
    (pct invested cpi_start cpi_end : float) : dict :=
  dict_set "calculation_notes" (VStr real_note)
    (dict_pop "calculation_notes"
       (with_cagr c (real_figures d pct invested cpi_start cpi_end))).

(** A record that reports a failure: it has an ["error"] entry. *)
Definition is_error (d : dict) : bool := dict_contains "error" d.

(** The test that sends the real-return stage to its CPI failure. *)
Definition cpi_unusable (cpi_start cpi_end : float) : bool :=
  isna cpi_start || isna cpi_end || (cpi_start =? 0)%float.

(** The record of the nominal stage for given first and last prices. *)
Definition price_record (start_date end_date : string)
    (initial_investment start_price end_price : float) : dict :=
  let factor := (1 + (end_price / start_price - 1))%float in
  [ ("start_date", VStr start_date);
    ("end_date", VStr end_date);
    ("initial_investment", VPyFloat initial_investment);
    ("final_nominal_value", VFloat (round2 (initial_investment * factor)%float));
    ("nominal_total_return_pct", VFloat (round2 ((factor - 1) * 100)%float));
    ("calculation_notes", VStr nominal_note) ].

(** The warning of line 20. *)
Definition coverage_warning (start_date end_date : string) : event :=
  EvPrint ("Warning: Data missing for range " +:+ start_date +:+ " to " +:+ end_date).

(** The as-of lookup of the specification, stated on the observations
    and not on the code: it is missing when no observation at or before
    [t] holds a number, and otherwise it is the number of the latest
    observation at or before [t] that holds one. *)
Definition no_observation (cpi_data : DataFrame) (t : Timestamp) : Prop :=
  forall i ts x, cpi_data !! i = Some (ts, x) -> ts <= t -> isna x = true.

Definition latest_observation (cpi_data : DataFrame) (t : Timestamp) (v : float)
  : Prop :=
  exists i ts,
    cpi_data !! i = Some (ts, v) /\ ts <= t /\ isna v = false
    /\ forall j ts' x,
         (i < j)%nat -> cpi_data !! j = Some (ts', x) -> ts' <= t ->
         isna x = true.

(** The error record of the real stage for a caught exception. *)
Definition real_failure (x : exn) : dict :=
  [("error", VStr ("Real return calculation error: " +:+ exn_str x))].

(** ** Shapes of the returned records *)

Definition nominal_keys : list string :=
  ["start_date"; "end_date"; "initial_investment"; "final_nominal_value";
   "nominal_total_return_pct"; "calculation_notes"].

Definition real_keys : list string :=
  ["final_real_value"; "real_total_return_pct"; "total_inflation_pct";
   "nominal_cagr_pct"; "real_cagr_pct"; "calculation_notes"].

(** An error record: the single entry ["error"], a message. *)
Definition error_record (d : dict) : Prop :=
  exists msg, d = [("error", VStr msg)].

(** A result record: no ["error"] entry, and every key of [keys]. *)
Definition result_record (keys : list string) (d : dict) : Prop :=
  is_error d = false /\ forallb (fun k => dict_contains k d) keys = true.

(** The entries of the nominal stage that the real stage only reads,
    and the entries it adds. *)
Definition kept_keys : list string :=
  ["start_date"; "end_date"; "initial_investment"; "final_nominal_value";
   "nominal_total_return_pct"].

Definition added_keys : list string :=
  ["final_real_value"; "real_total_return_pct"; "total_inflation_pct";
   "nominal_cagr_pct"; "real_cagr_pct"].

(** ** Running in a larger world

    The calculator allocates records and writes to the record it was
    handed; it never looks at any other object.  So a run in a world
    that holds more objects [h] below, and more past events [t], is
    the same run with every address moved up by [length h]. *)

Definition reloc (h : list dict) (t : list event) (st : state) : state :=
  mkState (h ++ heap st) (t ++ trace st).

Definition moved (h : list dict) (r1 r2 : ref) : Prop :=
  r2 = (length h + r1)%nat.

Definition simulates {A} (R : A -> A -> Prop) (h : list dict) (t : list event)
    (m1 m2 : M A) : Prop :=
  forall st,
    match m1 st with
    | (Ok a1, s1) =>
        exists a2, m2 (reloc h t st) = (Ok a2, reloc h t s1) /\ R a1 a2
    | (Raised x, s1) => m2 (reloc h t st) = (Raised x, reloc h t s1)
    end.

(** ** Sample data

    A few observations of the index and of the CPI, with the ISO
    reading of dates, for the concrete runs below. *)
Module Demo.

Definition day (n : Z) : Timestamp := n * ns_per_day.

(** The index on 2020-01-01, 2021-01-01 and 2024-01-01. *)
Definition prices : DataFrame :=
  [(day 18262, 100%float); (day 18628, 105%float); (day 19723, 121%float)].

(** The index on 2020-06-01 and 2020-09-01 only. *)
Definition summer_prices : DataFrame :=
  [(day 18414, 100%float); (day 18506, 110%float)].

(** An index that multiplies by [2^53 + 2] over 2020. *)
Definition steep_prices : DataFrame :=
  [(day 18262, 1%float); (day 18628, 9007199254740994%float)].

(** The CPI on the first of December 2019, 2020 and 2023. *)
Definition cpi : DataFrame :=
  [(day 18231, 250%float); (day 18597, 255%float); (day 19692, 275%float)].

(** A CPI that did not move. *)
Definition flat_cpi : DataFrame :=
  [(day 18231, 250%float); (day 19692, 250%float)].

Definition st0 : state := mkState [] [].

(** The world after the nominal stage over 2020-2024. *)
Definition after_nominal : state :=
  Eval vm_compute in
    snd (calculate_nominal_return Iso.to_datetime "2020-01-01" "2024-01-01"
           1000 prices st0).

(** The world after both stages over 2020-2024. *)
Definition after_real : state :=
  Eval vm_compute in
    snd (calculate_real_return Iso.to_datetime Iso.pow 0 "2020-01-01" "2024-01-01"
           cpi after_nominal).

(** A world whose only object is an error record. *)
Definition failed : state :=
  mkState [[("error", VStr insufficient_sp500)]] [].

End Demo.

(** ** More sample data *)
Module Demo2.

(** A CPI whose first observation is on 2020-12-01. *)
Definition late_cpi : DataFrame := [(Demo.day 18597, 255%float)].

(** The record of the nominal stage over 2020-2024, without its
    [nominal_total_return_pct]. *)
Definition no_pct : state :=
  mkState
    [[("start_date", VStr "2020-01-01"); ("end_date", VStr "2024-01-01");
      ("initial_investment", VPyFloat 1000);
      ("calculation_notes", VStr nominal_note)]] [].

(** A CPI that is not sorted by date: 2021-01-01, then 2020-06-01. *)
Definition unsorted_cpi : DataFrame :=
  [(Demo.day 18628, 255%float); (Demo.day 18414, 250%float)].

(** A record as a caller may hand it to the real stage, with a loss of
    150 percent written as a Python float. *)
Definition python_loss : state :=
  mkState
    [[("start_date", VStr "2020-01-01"); ("end_date", VStr "2024-01-01");
      ("initial_investment", VPyFloat 1000);
      ("final_nominal_value", VPyFloat (-500));
      ("nominal_total_return_pct", VPyFloat (-150));
      ("calculation_notes", VStr nominal_note)]] [].

(** The same with a gain of 624.0125458737273 percent. *)
Definition python_gain : state :=
  mkState
    [[("start_date", VStr "2020-01-01"); ("end_date", VStr "2024-01-01");
      ("initial_investment", VPyFloat 1000);
      ("final_nominal_value", VPyFloat 7240.13);
      ("nominal_total_return_pct", VPyFloat 624.0125458737273);
      ("calculation_notes", VStr nominal_note)]] [].

End Demo2.

(** The rows in range reach both ends of the range: there is one, the
    first is dated [s] and the last is dated [e]. *)
Definition reaches_both_ends (s e : Timestamp) (rows : DataFrame) : Prop :=
  rows <> [] /\ hd 0 (df_index rows) = s /\ last_of 0 (df_index rows) = e.

(** ** Vocabulary of the fetch functions and of the startup *)

(** The world [w] with [out] added to what has been observed. *)
Definition after (w : Fetcher.world) (out : list Fetcher.effect) : Fetcher.world :=
  Fetcher.mkWorld (Fetcher.SP500_DATA_CACHE w) (Fetcher.CPI_DATA_CACHE w)
    (Fetcher.output w ++ out).

(** The request of a URL went through and gave the frame [df]: it was
    answered, with a status that is no error, the answer decoded and
    the frame could be built from it. *)
Definition answered_with {Json : Type}
    (requests_get : string -> Fetcher.answer (Fetcher.Response Json))
    (observations_frame : Json -> Fetcher.answer DataFrame)
    (url : string) (df : DataFrame) : Prop :=
  exists response data,
    requests_get url = Fetcher.Done response
    /\ (Fetcher.status_code response < 400 \/ 600 <= Fetcher.status_code response)
    /\ Fetcher.json response = Fetcher.Done data
    /\ observations_frame data = Fetcher.Done df.

(** What one call of [fetch_fred_data] for a series returns and lets be
    observed.  Without a usable key: the empty frame and one line, no
    request.  With one: one request and one line, and the frame is
    empty unless the request went through and gave it. *)
Definition fetch_outcome {Json : Type} (FRED_API_KEY : option string)
    (requests_get : string -> Fetcher.answer (Fetcher.Response Json))
    (observations_frame : Json -> Fetcher.answer DataFrame)
    (series_id : string) (df : DataFrame) (out : list Fetcher.effect) : Prop :=
  match Fetcher.usable_key FRED_API_KEY with
  | None => df = [] /\ out = [Fetcher.Out Fetcher.no_key_line]
  | Some key =>
      exists line,
        out = [Fetcher.Get (Fetcher.fred_url series_id key); Fetcher.Out line]
        /\ (df = []
            \/ answered_with requests_get observations_frame
                 (Fetcher.fred_url series_id key) df)
  end.

(** The URLs requested, in order. *)
Fixpoint requests (out : list Fetcher.effect) : list string :=
  match out with
  | [] => []
  | Fetcher.Get url :: out' => url :: requests out'
  | _ :: out' => requests out'
  end.

(** The lines printed, in order. *)
Fixpoint printed (out : list Fetcher.effect) : list string :=
  match out with
  | [] => []
  | Fetcher.Out line :: out' => line :: printed out'
  | _ :: out' => printed out'
  end.

Definition unavailable : exn :=
  mkExn (HTTPException 503)
    "Historical data is not available or failed to load. Please try again later.".

Definition ohlc_not_found (ticker : string) : Fetcher.py_exception :=
  Fetcher.Exception (mkExn (HTTPException 404) (Main.not_found ticker)).

(** The [yfinance] calls, in order. *)
Fixpoint histories (out : list Fetcher.effect) : list (string * string * string) :=
  match out with
  | [] => []
  | Fetcher.History ticker start stop :: out' => (ticker, start, stop) :: histories out'
  | _ :: out' => histories out'
  end.

Definition fetched_line (ticker : string) : string :=
  "Fetched OHLCV data for " +:+ ticker +:+ " from yfinance".

(** The fetch of a ticker went through and gave the frame [f]:
    [yfinance] was imported, the end date parsed, [history] was called
    once, from the start date to the day after the end date, and
    returned a frame that is not empty, of which [f] is the five
    columns. *)
Definition ohlc_fetched {Frame : Type} (empty : Frame -> bool)
    (select_columns : Frame -> list string -> Fetcher.answer Frame)
    (import_yfinance : Fetcher.answer unit)
    (history : string -> string -> string -> Fetcher.answer Frame)
    (to_datetime : string -> result Timestamp)
    (add_one_day : Timestamp -> result Timestamp)
    (ts_strftime : Timestamp -> string)
    (ticker start stop : string) (f : Frame) (out : list Fetcher.effect) : Prop :=
  exists end_dt next_dt hist,
    import_yfinance = Fetcher.Done tt
    /\ to_datetime stop = Ok end_dt
    /\ add_one_day end_dt = Ok next_dt
    /\ history ticker start (ts_strftime next_dt) = Fetcher.Done hist
    /\ empty hist = false
    /\ select_columns hist Fetcher.ohlc_columns = Fetcher.Done f
    /\ out = [Fetcher.History ticker start (ts_strftime next_dt);
              Fetcher.Out (fetched_line ticker)].

(** The fetch gave up: it printed one line, which is not the line of a
    fetch that went through, called [history] at most once and sent no
    request of its own. *)
Definition ohlc_gave_up (ticker : string) (out : list Fetcher.effect) : Prop :=
  (exists line, printed out = [line] /\ line <> fetched_line ticker)
  /\ (length (histories out) <= 1)%nat
  /\ requests out = [].

(** The [Date] entry of a record is a string. *)
Definition date_is_text (r : Main.record) : Prop :=
  exists s, Main.record_get "Date" r = Some (Main.CValue (VStr s)).

(** Two records hold the same entries apart from [Date]. *)
Definition same_but_date (r r' : Main.record) : Prop :=
  map fst r' = map fst r
  /\ forall k, k <> "Date" -> Main.record_get k r' = Main.record_get k r.

(** ** A sample outside *)
Module Outside.
Import Fetcher.

Definition key : string := "0123456789abcdef".

(** A decoded answer of FRED, reduced to its observations: a date and
    a value each. *)
Definition Json : Type := list (string * float).

Fixpoint rows (data : Json) : answer DataFrame :=
  match data with
  | [] => Done []
  | (d, v) :: data' =>
      match Iso.to_datetime d, rows data' with
      | Ok t, Done df => Done ((t, v) :: df)
      | Raised e, _ => Thrown (Exception e)
      | _, Thrown e => Thrown e
      end
  end.

(** No observation: selecting the columns [date] and [value] raises. *)
Definition observations_frame (data : Json) : answer DataFrame :=
  match data with
  | [] => Thrown (Exception (mkExn KeyError "None of ['date', 'value'] are in the columns"))
  | _ => rows data
  end.

Definition requests_get (url : string) : answer (Response Json) :=
  if bool_decide (url = fred_url "SP500" key) then
    Done (mkResponse 200 ""
            (Done [("2020-01-01", 100%float); ("2021-01-01", 105%float);
                   ("2024-01-01", 121%float)]))
  else if bool_decide (url = fred_url "CPIAUCSL" key) then
    Done (mkResponse 200 ""
            (Done [("2019-12-01", 250%float); ("2020-12-01", 255%float);
                   ("2023-12-01", 275%float)]))
  else
    Done (mkResponse 404 "404 Client Error: Not Found"
            (Thrown (RequestException "Expecting value: line 1 column 1 (char 0)"))).

(** A server that answers every request with status 500. *)
Definition server_down (url : string) : answer (Response Json) :=
  Done (mkResponse 500 "500 Server Error: Internal Server Error" (Done [])).

Definition w0 : world := mkWorld None None [].

(** Frames of [yfinance]: rows of a timestamp and named values. *)
Definition Frame : Type := list (Timestamp * dict).

Definition empty (f : Frame) : bool :=
  match f with [] => true | _ => false end.

Fixpoint pick (row : dict) (names : list string) : answer dict :=
  match names with
  | [] => Done []
  | k :: names' =>
      match dict_get k row, pick row names' with
      | Some v, Done row' => Done ((k, v) :: row')
      | None, _ => Thrown (Exception (mkExn KeyError (k +:+ " not in index")))
      | _, Thrown e => Thrown e
      end
  end.

Fixpoint select_columns (f : Frame) (names : list string) : answer Frame :=
  match f with
  | [] => Done []
  | (t, row) :: f' =>
      match pick row names, select_columns f' names with
      | Done row', Done f1 => Done ((t, row') :: f1)
      | Thrown e, _ => Thrown e
      | _, Thrown e => Thrown e
      end
  end.

Definition history (ticker start stop : string) : answer Frame :=
  if bool_decide (ticker = "SPY") then
    Done [(Demo.day 19360,
           [("Open", VFloat 384.37); ("High", VFloat 386.43); ("Low", VFloat 377.83);
            ("Close", VFloat 380.82); ("Volume", VInt 74850700);
            ("Dividends", VFloat 0); ("Stock Splits", VFloat 0)]);
          (Demo.day 19361,
           [("Open", VFloat 383.18); ("High", VFloat 385.38); ("Low", VFloat 380.0);
            ("Close", VFloat 383.76); ("Volume", VInt 85934100);
            ("Dividends", VFloat 0); ("Stock Splits", VFloat 0)])]
  else Done [].

Definition add_one_day (t : Timestamp) : result Timestamp := Ok (t + ns_per_day).

Definition ts_strftime (t : Timestamp) : string := Iso.strftime (t / ns_per_day).

Definition to_records (f : Frame) : answer (list Main.record) :=
  Done (map (fun '(t, row) =>
               ("Date", Main.CTimestamp t)
               :: map (fun '(k, v) => (k, Main.CValue v)) row) f).

Definition no_strftime (v : value) : string :=
  "object has no attribute 'strftime'".

End Outside.

(** * Floats *)

Lemma positive_float_nonzero (y : float) :
  (0 <? y)%float = true -> (y =? 0)%float = false.
Proof.
  rewrite FloatAxioms.ltb_spec, FloatAxioms.eqb_spec.
  change (Prim2SF 0) with (S754_zero false).
  destruct (Prim2SF y) as [sg| sg | |sg m e]; try destruct sg; cbn; congruence.
Qed.

Lemma round_aux_not_negative mz ez lz :
  SFltb (binary_round_aux prec emax false mz ez lz) (S754_zero false) = false.
Proof.
  unfold binary_round_aux.
  destruct (shr_fexp prec emax mz ez lz) as [mrs' e'].
  destruct (shr_fexp prec emax _ e' loc_Exact) as [mrs'' e''].
  destruct (shr_m mrs''); [reflexivity| |reflexivity].
  now destruct (e'' <=? emax - prec).
Qed.

(** The inverse of a positive float is not negative. *)
Lemma positive_float_inverse (y : float) :
  (0 <? y)%float = true -> (1 / y <? 0)%float = false.
Proof.
  rewrite !FloatAxioms.ltb_spec, FloatAxioms.div_spec.
  change (Prim2SF 0) with (S754_zero false).
  change (Prim2SF 1) with (S754_finite false 4503599627370496 (-52)).
  destruct (Prim2SF y) as [sg| sg | |sg m e]; try destruct sg; cbn; try congruence.
  intros _. unfold SF64div, SFdiv.
  destruct (SFdiv_core_binary _ _ _ _ _ _) as [[mz ez] lz]. cbn [xorb].
  apply round_aux_not_negative.
Qed.

(** * Dicts *)

Lemma dict_get_set_eq k v d : dict_get k (dict_set k v d) = Some v.
Proof.
  induction d as [|[k' v'] d IH]; simpl.
  - now rewrite String.eqb_refl.
  - destruct (String.eqb k k') eqn:E; simpl; rewrite E; auto.
Qed.

Lemma dict_get_set_ne k k' v d :
  k <> k' -> dict_get k (dict_set k' v d) = dict_get k d.
Proof.
  intros Hne. induction d as [|[k2 v2] d IH]; simpl.
  - destruct (String.eqb k k') eqn:E; auto.
    apply String.eqb_eq in E. contradiction.
  - destruct (String.eqb k' k2) eqn:E; simpl.
    + apply String.eqb_eq in E. subst k2.
      destruct (String.eqb k k') eqn:E2; auto.
      apply String.eqb_eq in E2. contradiction.
    + now rewrite IH.
Qed.

Lemma dict_get_pop_ne k k' d :
  k <> k' -> dict_get k (dict_pop k' d) = dict_get k d.
Proof.
  intros Hne. induction d as [|[k2 v2] d IH]; simpl; auto.
  destruct (String.eqb k' k2) eqn:E; simpl.
  - apply String.eqb_eq in E. subst k2.
    destruct (String.eqb k k') eqn:E2; auto.
    apply String.eqb_eq in E2. contradiction.
  - now rewrite IH.
Qed.

(** Reading a key of a record built by writes and pops to other keys. *)
Ltac dict_read :=
  repeat first
    [ rewrite dict_get_set_eq
    | rewrite dict_get_set_ne by discriminate
    | rewrite dict_get_pop_ne by discriminate ].

(** * One step of the monad at a time *)

(** Unfolds the plumbing of the monad and runs it as far as the next
    access to an object. *)
Ltac mrun :=
  cbv beta iota zeta delta
    [bind lift ret raise emit print new_dict try_except asof setitem pop];
  cbn [heap trace].

Lemma deref_run r st d : heap st !! r = Some d -> deref r st = (Ok d, st).
Proof. unfold deref. now intros ->. Qed.

Lemma contains_run k r st d :
  heap st !! r = Some d -> contains k r st = (Ok (dict_contains k d), st).
Proof. intros H. unfold contains. mrun. now rewrite (deref_run _ _ _ H). Qed.

Lemma update_run r f st d :
  heap st !! r = Some d ->
  update r f st = (Ok tt, mkState (<[r := f d]> (heap st)) (trace st)).
Proof.
  intros H. unfold update. mrun. now rewrite (deref_run _ _ _ H).
Qed.

Lemma getitem_run r k st d :
  heap st !! r = Some d ->
  getitem r k st =
  (match dict_get k d with
   | Some v => Ok v
   | None => Raised (mkExn KeyError ("'" +:+ k +:+ "'"))
   end, st).
Proof.
  intros H. unfold getitem. mrun. rewrite (deref_run _ _ _ H).
  now destruct (dict_get k d).
Qed.

Lemma lookup_updated (h : list dict) r d x :
  h !! r = Some d -> <[r := x]> h !! r = Some x.
Proof. intros H. apply list_lookup_insert_eq. now apply lookup_lt_Some in H. Qed.

(** The CAGR step writes its two entries, or raises before it has
    written either. *)
Lemma set_cagr_run pow r python nf rf years st d :
  heap st !! r = Some d ->
  set_cagr pow r python nf rf years st =
  match cagr_entries pow python nf rf years with
  | Ok c => (Ok tt, mkState (<[r := with_cagr c d]> (heap st)) (trace st))
  | Raised x => (Raised x, st)
  end.
Proof.
  intros H. unfold set_cagr, cagr_entries, nominal_cagr_entry, with_cagr.
  destruct (0 <? years)%float eqn:Hy.
  - unfold py_truediv. rewrite (positive_float_nonzero _ Hy). mrun.
    destruct (power pow python nf (1 / years)) as [p|x]; [|reflexivity].
    destruct (round_number (less_one_times_100 p)) as [c|x]; [|reflexivity].
    rewrite (update_run _ _ _ _ H).
    erewrite update_run by (cbn [heap]; eauto using lookup_updated).
    cbn [heap trace fst snd]. now rewrite list_insert_insert_eq.
  - mrun. rewrite (update_run _ _ _ _ H).
    erewrite update_run by (cbn [heap]; eauto using lookup_updated).
    cbn [heap trace fst snd]. now rewrite list_insert_insert_eq.
Qed.

(** * The real-return stage, path by path *)

Section RealRun.

Variable to_datetime : string -> result Timestamp.
Variable pow : float -> float -> float.

(** Once both dates parse, the body of the [try] raises what a lookup
    raises, or reports missing CPI data in a new record, or raises
    while reading the nominal record, or writes the three real-return
    figures and then either raises in the CAGR step or finishes
    rewriting the nominal record. *)
Lemma real_return_body_run r sd ed cpi st d s e :
  heap st !! r = Some d ->
  to_datetime sd = Ok s -> to_datetime ed = Ok e ->
  real_return_body to_datetime pow r sd ed cpi st =
  match series_asof cpi s with
  | Raised x => (Raised x, mkState (heap st) (trace st ++ [EvAsof s]))
  | Ok cs =>
    let tr := trace st ++ [EvAsof s; EvAsof e] in
    match series_asof cpi e with
    | Raised x => (Raised x, mkState (heap st) tr)
    | Ok ce =>
      if cpi_unusable cs ce then
        (Ok (length (heap st)),
         mkState (heap st ++ [[("error", VStr insufficient_cpi)]]) tr)
      else
        match read_float "nominal_total_return_pct" d with
        | Raised x => (Raised x, mkState (heap st) tr)
        | Ok pct =>
          match read_float "initial_investment" d with
          | Raised x => (Raised x, mkState (heap st) tr)
          | Ok invested =>
              match cagr_entries pow (python_pct d) (nominal_factor pct)
                      (real_factor pct cs ce) (years_between s e) with
              | Raised x =>
                  (Raised x,
                   mkState (<[r := real_figures d pct invested cs ce]> (heap st)) tr)
              | Ok c =>
                  (Ok r,
                   mkState (<[r := real_record c d pct invested cs ce]> (heap st)) tr)
              end
          end
        end
    end
  end.
Proof.
  intros Hd Hs He. unfold real_return_body, cpi_unusable.
  mrun. rewrite Hs, He. mrun.
  destruct (series_asof cpi s) as [cs|x]; [|reflexivity]. mrun.
  rewrite <- app_assoc. cbn [app].
  destruct (series_asof cpi e) as [ce|x]; [|reflexivity]. mrun.
  destruct (isna cs || isna ce || (cs =? 0)%float); [reflexivity|].
  unfold read_float, python_pct.
  erewrite getitem_run by exact Hd.
  destruct (dict_get "nominal_total_return_pct" d) as [v|]; [|reflexivity].
  mrun. destruct (as_float v) as [pct|x]; [|reflexivity].
  erewrite getitem_run by exact Hd.
  destruct (dict_get "initial_investment" d) as [v'|]; [|reflexivity].
  mrun. destruct (as_float v') as [invested|x]; [|reflexivity].
  erewrite update_run by exact Hd.
  do 2 (mrun; erewrite update_run by (cbn [heap]; eauto using lookup_updated);
        cbn [heap trace]; rewrite ?list_insert_insert_eq).
  mrun. erewrite set_cagr_run by (cbn [heap]; eauto using lookup_updated).
  fold (nominal_factor pct). fold (real_factor pct cs ce).
  fold (real_figures d pct invested cs ce).
  destruct (cagr_entries pow (is_python v) (nominal_factor pct)
              (real_factor pct cs ce) (years_between s e)) as [c|x];
    [|reflexivity].
  cbn [heap trace]. rewrite ?list_insert_insert_eq.
  do 2 (mrun; erewrite update_run by (cbn [heap]; eauto using lookup_updated);
        cbn [heap trace]; rewrite ?list_insert_insert_eq).
  reflexivity.
Qed.

(** A date that does not parse ends the body before any lookup. *)
Lemma real_return_body_bad_start r sd ed cpi st x :
  to_datetime sd = Raised x ->
  real_return_body to_datetime pow r sd ed cpi st = (Raised x, st).
Proof. intros Hs. unfold real_return_body. mrun. now rewrite Hs. Qed.

Lemma real_return_body_bad_end r sd ed cpi st s x :
  to_datetime sd = Ok s -> to_datetime ed = Raised x ->
  real_return_body to_datetime pow r sd ed cpi st = (Raised x, st).
Proof. intros Hs He. unfold real_return_body. mrun. now rewrite Hs, He. Qed.

(** On [pd.DataFrame()] the slice raises. *)
Lemma nominal_return_body_no_index sd ed invested st s e :
  to_datetime sd = Ok s -> to_datetime ed = Ok e ->
  nominal_return_body to_datetime sd ed invested [] st =
  (Raised (mkExn TypeError no_date_index),
   mkState (heap st) (trace st ++ [EvRange s e])).
Proof.
  intros Hs He. unfold nominal_return_body. mrun. now rewrite Hs, He.
Qed.

(** The nominal stage once both dates parse, on a frame with rows. *)
Lemma nominal_return_body_run sd ed invested sp st s e :
  to_datetime sd = Ok s -> to_datetime ed = Ok e -> sp <> [] ->
  nominal_return_body to_datetime sd ed invested sp st =
  let rows := df_between s e sp in
  let tr :=
    trace st ++ EvRange s e ::
      (if coverage_gap s e rows then [coverage_warning sd ed] else []) in
  (Ok (length (heap st)),
   mkState
     (heap st ++
        [match rows with
         | [] => [("error", VStr insufficient_sp500)]
         | row :: _ =>
             price_record sd ed invested (snd row) (last_of nan (df_values rows))
         end]) tr).
Proof.
  intros Hs He Hsp. unfold nominal_return_body, nominal_record. mrun.
  rewrite Hs, He. mrun.
  destruct sp as [|row0 sp0]; [contradiction|]. cbn [slice_between].
  set (sp := row0 :: sp0).
  destruct (df_between s e sp) as [|row rows] eqn:Hrows.
  - cbn. now rewrite <- app_assoc.
  - unfold df_empty, iloc_first, iloc_last, df_values. cbn [map].
    destruct (coverage_gap s e (row :: rows)); cbn [heap trace];
      rewrite <- ?app_assoc; reflexivity.
Qed.

End RealRun.

(** * Shapes *)


Lemma error_record_is_error d : error_record d -> is_error d = true.
Proof. now intros [msg ->]. Qed.

Lemma real_record_is_error c d pct invested cs ce :
  is_error (real_record c d pct invested cs ce) = is_error d.
Proof.
  unfold is_error, dict_contains, real_record, with_cagr, real_figures.
  now dict_read.
Qed.

Lemma real_record_keys c d pct invested cs ce :
  forallb (fun k => dict_contains k (real_record c d pct invested cs ce))
    real_keys = true.
Proof.
  unfold real_keys, real_record, with_cagr, real_figures, dict_contains.
  cbn [forallb]. now dict_read.
Qed.

Lemma lookup_new (h : list dict) d : (h ++ [d]) !! length h = Some d.
Proof. now apply list_lookup_middle. Qed.

(** * The two stages as a whole *)

Section Stages.

Variable to_datetime : string -> result Timestamp.
Variable pow : float -> float -> float.

(** The nominal stage never touches an existing object: it allocates
    one record and returns its address. *)
Lemma calculate_nominal_return_new sd ed invested sp st :
  exists d tr,
    calculate_nominal_return to_datetime sd ed invested sp st =
      (Ok (length (heap st)), mkState (heap st ++ [d]) tr)
    /\ (error_record d \/ result_record nominal_keys d).
Proof.
  unfold calculate_nominal_return.
  destruct (to_datetime sd) as [s|x] eqn:Hs;
    [destruct (to_datetime ed) as [e|x] eqn:He|].
  - cbv beta delta [try_except]. destruct (decide (sp = [])) as [->|Hsp].
    { rewrite (nominal_return_body_no_index _ _ _ _ _ _ _ Hs He). mrun.
      eexists _, _. split; [reflexivity|]. left. now eexists. }
    rewrite (nominal_return_body_run _ _ _ _ _ _ _ _ Hs He Hsp). cbv zeta iota.
    eexists _, _. split; [reflexivity|].
    destruct (df_between s e sp); [left; now eexists | right; now split].
  - unfold nominal_return_body. mrun. rewrite Hs, He. mrun.
    eexists _, _. split; [reflexivity|]. left. now eexists.
  - unfold nominal_return_body. mrun. rewrite Hs. mrun.
    eexists _, _. split; [reflexivity|]. left. now eexists.
Qed.

(** With dates that parse and a frame with rows, the nominal stage is
    the body of its [try]. *)
Lemma calculate_nominal_return_run sd ed invested sp st s e :
  to_datetime sd = Ok s -> to_datetime ed = Ok e -> sp <> [] ->
  calculate_nominal_return to_datetime sd ed invested sp st =
  nominal_return_body to_datetime sd ed invested sp st.
Proof.
  intros Hs He Hsp. unfold calculate_nominal_return. cbv beta delta [try_except].
  now rewrite (nominal_return_body_run _ _ _ _ _ _ _ _ Hs He Hsp).
Qed.

(** An error record passes through the real stage untouched. *)
Lemma calculate_real_return_pass r sd ed cpi st d :
  heap st !! r = Some d -> is_error d = true ->
  calculate_real_return to_datetime pow r sd ed cpi st = (Ok r, st).
Proof.
  intros Hd He. unfold calculate_real_return. mrun.
  rewrite (contains_run _ _ _ _ Hd). fold (is_error d). now rewrite He.
Qed.

(** The four ways the real stage ends on a record that is no error:
    the record rewritten in place; a new record reporting missing CPI
    data; a new record reporting an exception caught before anything
    was written; or a new record reporting an exception of the CAGR
    step, caught after the three real-return figures were written. *)
Lemma calculate_real_return_outcome r sd ed cpi st d :
  heap st !! r = Some d -> is_error d = false ->
  (exists s e cs ce pct invested c,
      to_datetime sd = Ok s /\ to_datetime ed = Ok e
      /\ series_asof cpi s = Ok cs /\ series_asof cpi e = Ok ce
      /\ cpi_unusable cs ce = false
      /\ read_float "nominal_total_return_pct" d = Ok pct
      /\ read_float "initial_investment" d = Ok invested
      /\ cagr_entries pow (python_pct d) (nominal_factor pct)
           (real_factor pct cs ce) (years_between s e) = Ok c
      /\ calculate_real_return to_datetime pow r sd ed cpi st =
           (Ok r,
            mkState (<[r := real_record c d pct invested cs ce]> (heap st))
              (trace st ++ [EvAsof s; EvAsof e])))
  \/ (exists s e cs ce,
      to_datetime sd = Ok s /\ to_datetime ed = Ok e
      /\ series_asof cpi s = Ok cs /\ series_asof cpi e = Ok ce
      /\ cpi_unusable cs ce = true
      /\ calculate_real_return to_datetime pow r sd ed cpi st =
           (Ok (length (heap st)),
            mkState (heap st ++ [[("error", VStr insufficient_cpi)]])
              (trace st ++ [EvAsof s; EvAsof e])))
  \/ (exists x tr,
      calculate_real_return to_datetime pow r sd ed cpi st =
        (Ok (length (heap st)), mkState (heap st ++ [real_failure x]) tr))
  \/ (exists s e cs ce pct invested x tr,
      to_datetime sd = Ok s /\ to_datetime ed = Ok e
      /\ series_asof cpi s = Ok cs /\ series_asof cpi e = Ok ce
      /\ cpi_unusable cs ce = false
      /\ read_float "nominal_total_return_pct" d = Ok pct
      /\ read_float "initial_investment" d = Ok invested
      /\ cagr_entries pow (python_pct d) (nominal_factor pct)
           (real_factor pct cs ce) (years_between s e) = Raised x
      /\ calculate_real_return to_datetime pow r sd ed cpi st =
           (Ok (length (heap st)),
            mkState
              (<[r := real_figures d pct invested cs ce]> (heap st)
               ++ [real_failure x]) tr)).
Proof.
  intros Hd Herr. unfold calculate_real_return. mrun.
  rewrite (contains_run _ _ _ _ Hd). fold (is_error d). rewrite Herr.
  destruct (to_datetime sd) as [s|x] eqn:Hs;
    [destruct (to_datetime ed) as [e|x] eqn:He|].
  - rewrite (real_return_body_run _ _ _ _ _ _ _ _ _ _ Hd Hs He).
    destruct (series_asof cpi s) as [cs|x] eqn:Hcs;
      [|right; right; left; eexists _, _; reflexivity].
    cbv zeta.
    destruct (series_asof cpi e) as [ce|x] eqn:Hce;
      [|right; right; left; eexists _, _; reflexivity].
    destruct (cpi_unusable cs ce) eqn:Hc.
    { right; left. now exists s, e, cs, ce. }
    destruct (read_float "nominal_total_return_pct" d) as [pct|x] eqn:Hp;
      [|right; right; left; eexists _, _; reflexivity].
    destruct (read_float "initial_investment" d) as [invested|x] eqn:Hi;
      [|right; right; left; eexists _, _; reflexivity].
    destruct (cagr_entries pow (python_pct d) (nominal_factor pct)
                (real_factor pct cs ce) (years_between s e)) as [c|x] eqn:Hcagr.
    + left. now exists s, e, cs, ce, pct, invested, c.
    + right; right; right. cbn [heap trace].
      rewrite length_insert.
      eexists s, e, cs, ce, pct, invested, x, _. now repeat split.
  - rewrite (real_return_body_bad_end _ _ _ _ _ _ _ _ _ Hs He).
    right; right; left; eexists _, _; reflexivity.
  - rewrite (real_return_body_bad_start _ _ _ _ _ _ _ _ Hs).
    right; right; left; eexists _, _; reflexivity.
Qed.

(** The real stage returns the address of a record, whatever it is
    given. *)
Lemma calculate_real_return_returns r sd ed cpi st d :
  heap st !! r = Some d ->
  exists r' st' d',
    calculate_real_return to_datetime pow r sd ed cpi st = (Ok r', st')
    /\ heap st' !! r' = Some d'
    /\ (is_error d' = true \/ result_record real_keys d').
Proof.
  intros Hd. destruct (is_error d) eqn:Herr.
  - exists r, st, d. rewrite (calculate_real_return_pass _ _ _ _ _ _ Hd Herr).
    auto.
  - destruct (calculate_real_return_outcome r sd ed cpi st d Hd Herr)
      as [(s & e & cs & ce & pct & inv & c & _ & _ & _ & _ & _ & _ & _ & _ & ->)
         |[(s & e & cs & ce & _ & _ & _ & _ & _ & ->)
          |[(x & tr & ->)
           |(s & e & cs & ce & pct & inv & x & tr
             & _ & _ & _ & _ & _ & _ & _ & _ & ->)]]].
    + eexists _, _, _. split; [reflexivity|].
      split; [cbn [heap]; eauto using lookup_updated|].
      right. split; [now rewrite real_record_is_error|apply real_record_keys].
    + eexists _, _, _. split; [reflexivity|].
      split; [apply lookup_new|now left].
    + eexists _, _, _. split; [reflexivity|].
      split; [apply lookup_new|now left].
    + eexists _, _, _. split; [reflexivity|]. cbn [heap].
      split;
        [rewrite <- (length_insert (heap st) r (real_figures d pct inv cs ce));
         apply lookup_new
        |now left].
Qed.

(** What a run of the real stage was, given that it ended on a record
    that is no error. *)
Lemma calculate_real_return_success r sd ed cpi st d r' st' d' :
  heap st !! r = Some d ->
  calculate_real_return to_datetime pow r sd ed cpi st = (Ok r', st') ->
  heap st' !! r' = Some d' ->
  is_error d' = false ->
  exists s e cs ce pct invested c,
    to_datetime sd = Ok s /\ to_datetime ed = Ok e
    /\ series_asof cpi s = Ok cs /\ series_asof cpi e = Ok ce
    /\ cpi_unusable cs ce = false
    /\ read_float "nominal_total_return_pct" d = Ok pct
    /\ read_float "initial_investment" d = Ok invested
    /\ cagr_entries pow (python_pct d) (nominal_factor pct)
         (real_factor pct cs ce) (years_between s e) = Ok c
    /\ r' = r
    /\ d' = real_record c d pct invested cs ce
    /\ st' = mkState (<[r := d']> (heap st)) (trace st ++ [EvAsof s; EvAsof e]).
Proof.
  intros Hd Hrun Hd' Herr'. destruct (is_error d) eqn:Herr.
  - rewrite (calculate_real_return_pass _ _ _ _ _ _ Hd Herr) in Hrun.
    injection Hrun as <- <-. congruence.
  - destruct (calculate_real_return_outcome r sd ed cpi st d Hd Herr)
      as [(s & e & cs & ce & pct & inv & c
           & Hs & He & Hcs & Hce & Hc & Hp & Hi & Hcagr & E)
         |[(s & e & cs & ce & _ & _ & _ & _ & _ & E)
          |[(x & tr & E)
           |(s & e & cs & ce & pct & inv & x & tr
             & _ & _ & _ & _ & _ & _ & _ & _ & E)]]];
      rewrite E in Hrun; injection Hrun as <- <-.
    + cbn [heap] in Hd'. rewrite (lookup_updated _ _ _ _ Hd) in Hd'.
      injection Hd' as <-. now exists s, e, cs, ce, pct, inv, c.
    + cbn [heap] in Hd'. rewrite lookup_new in Hd'. injection Hd' as <-.
      discriminate.
    + cbn [heap] in Hd'. rewrite lookup_new in Hd'. injection Hd' as <-.
      discriminate.
    + cbn [heap] in Hd'.
      rewrite <- (length_insert (heap st) r (real_figures d pct inv cs ce)) in Hd'.
      rewrite lookup_new in Hd'. injection Hd' as <-. discriminate.
Qed.

End Stages.

(** * Simulation in a larger world *)

Section Simulation.

Variable h : list dict.
Variable t : list event.

Lemma sim_lift {A} (r : result A) : simulates eq h t (lift r) (lift r).
Proof. intros st. unfold lift. destruct r; eauto. Qed.

Lemma sim_ret {A} (R : A -> A -> Prop) a1 a2 :
  R a1 a2 -> simulates R h t (ret a1) (ret a2).
Proof. intros HR st. unfold ret. eauto. Qed.

Lemma sim_bind {A B} (R : A -> A -> Prop) (S : B -> B -> Prop)
    (m1 m2 : M A) (k1 k2 : A -> M B) :
  simulates R h t m1 m2 ->
  (forall a1 a2, R a1 a2 -> simulates S h t (k1 a1) (k2 a2)) ->
  simulates S h t (bind m1 k1) (bind m2 k2).
Proof.
  intros Hm Hk st. unfold bind. specialize (Hm st).
  destruct (m1 st) as [[a1|x] s1].
  - destruct Hm as (a2 & -> & HR). apply (Hk _ _ HR s1).
  - now rewrite Hm.
Qed.

Lemma sim_try {A} (R : A -> A -> Prop) (b1 b2 : M A) (h1 h2 : exn -> M A) :
  simulates R h t b1 b2 ->
  (forall x, simulates R h t (h1 x) (h2 x)) ->
  simulates R h t (try_except b1 h1) (try_except b2 h2).
Proof.
  intros Hb Hh st. unfold try_except. specialize (Hb st).
  destruct (b1 st) as [[a1|x] s1].
  - destruct Hb as (a2 & -> & HR). eauto.
  - rewrite Hb. apply (Hh x s1).
Qed.

Lemma sim_emit e : simulates eq h t (emit e) (emit e).
Proof.
  intros st. unfold emit, reloc. cbn. exists tt. now rewrite app_assoc.
Qed.

Lemma sim_new_dict d : simulates (moved h) h t (new_dict d) (new_dict d).
Proof.
  intros st. unfold new_dict, reloc, moved. cbn.
  eexists. split; [|apply length_app]. now rewrite app_assoc.
Qed.

Lemma lookup_moved (hp : list dict) r :
  (h ++ hp) !! (length h + r)%nat = hp !! r.
Proof. rewrite lookup_app_r by lia. f_equal. lia. Qed.

Lemma sim_deref r1 r2 : moved h r1 r2 -> simulates eq h t (deref r1) (deref r2).
Proof.
  intros -> st. unfold deref.
  change (heap (reloc h t st)) with (h ++ heap st). rewrite lookup_moved.
  destruct (heap st !! r1) as [d|]; [now exists d|reflexivity].
Qed.

Lemma sim_update r1 r2 f :
  moved h r1 r2 -> simulates eq h t (update r1 f) (update r2 f).
Proof.
  intros Hr. unfold update. eapply sim_bind; [now apply sim_deref|].
  intros d ? <- st. rewrite Hr. unfold reloc. cbn.
  exists tt. now rewrite insert_app_r.
Qed.

Lemma sim_contains k r1 r2 :
  moved h r1 r2 -> simulates eq h t (contains k r1) (contains k r2).
Proof.
  intros Hr. unfold contains. eapply sim_bind; [now apply sim_deref|].
  intros d ? <-. now apply sim_ret.
Qed.

Lemma sim_getitem r1 r2 k :
  moved h r1 r2 -> simulates eq h t (getitem r1 k) (getitem r2 k).
Proof.
  intros Hr. unfold getitem. eapply sim_bind; [now apply sim_deref|].
  intros d ? <-. destruct (dict_get k d); [now apply sim_ret|apply sim_lift].
Qed.

Lemma sim_asof cpi ts : simulates eq h t (asof cpi ts) (asof cpi ts).
Proof.
  unfold asof. eapply sim_bind; [apply sim_emit|]. intros _ _ _. apply sim_lift.
Qed.

(** The simulation of one step, and of a computation step by step;
    [extra] simulates the steps that are computations of their own. *)
Ltac sim_step :=
  first
    [ apply sim_lift | apply sim_emit | apply sim_new_dict | apply sim_asof
    | apply sim_update; assumption
    | apply sim_getitem; assumption
    | apply sim_contains; assumption
    | apply sim_ret; solve [assumption | reflexivity] ].

Ltac sim_steps_with extra :=
  repeat first
    [ sim_step
    | extra
    | eapply sim_bind; [first [sim_step | extra]|intros ? ? ?; subst]
    | match goal with
      | |- simulates _ _ _ (if ?c then _ else _) _ => destruct c
      | |- simulates _ _ _ (match ?c with _ => _ end) _ => destruct c
      end ].

Ltac sim_steps := sim_steps_with fail.

Section SimStages.

Variable to_datetime : string -> result Timestamp.
Variable pow : float -> float -> float.

Lemma sim_calculate_nominal_return sd ed invested sp :
  simulates (moved h) h t
    (calculate_nominal_return to_datetime sd ed invested sp)
    (calculate_nominal_return to_datetime sd ed invested sp).
Proof.
  unfold calculate_nominal_return, nominal_return_body, nominal_record, print.
  apply sim_try; [|intros x]; sim_steps.
Qed.

Lemma sim_set_cagr r1 r2 python nf rf years :
  moved h r1 r2 ->
  simulates eq h t (set_cagr pow r1 python nf rf years)
    (set_cagr pow r2 python nf rf years).
Proof. intros Hr. unfold set_cagr, setitem. sim_steps. Qed.

Lemma sim_calculate_real_return r1 r2 sd ed cpi :
  moved h r1 r2 ->
  simulates (moved h) h t
    (calculate_real_return to_datetime pow r1 sd ed cpi)
    (calculate_real_return to_datetime pow r2 sd ed cpi).
Proof.
  intros Hr. unfold calculate_real_return, real_return_body, setitem, pop, print.
  eapply sim_bind; [now apply sim_contains|]. intros b ? <-.
  destruct b; [now apply sim_ret|].
  apply sim_try; [|intros x];
    sim_steps_with ltac:(apply sim_set_cagr; assumption).
Qed.

Lemma sim_calculate_returns sd ed invested sp cpi :
  simulates (moved h) h t
    (calculate_returns to_datetime pow sd ed invested sp cpi)
    (calculate_returns to_datetime pow sd ed invested sp cpi).
Proof.
  unfold calculate_returns.
  eapply sim_bind; [apply sim_calculate_nominal_return|].
  intros r1 r2 Hr. now apply sim_calculate_real_return.
Qed.

End SimStages.

End Simulation.

(** A world is the empty one, relocated. *)
Lemma reloc_empty st : reloc (heap st) (trace st) (mkState [] []) = st.
Proof. destruct st. unfold reloc. cbn. now rewrite !app_nil_r. Qed.

(** * The as-of lookup *)

Lemma nth_values (cpi : DataFrame) i ts x :
  cpi !! i = Some (ts, x) -> nth i (df_values cpi) nan = x.
Proof.
  revert i. induction cpi as [|row cpi IH]; intros [|i]; cbn; try discriminate.
  - now intros [= ->].
  - apply IH.
Qed.

Lemma searchsorted_right_le (cpi : DataFrame) t i :
  (i < searchsorted_right (df_index cpi) t)%nat ->
  exists ts x, cpi !! i = Some (ts, x) /\ ts <= t.
Proof.
  unfold df_index. revert i.
  induction cpi as [|[ts x] cpi IH]; cbn; intros i Hi; [exfalso; lia|].
  destruct (ts <=? t) eqn:E; [|exfalso; lia]. apply Z.leb_le in E.
  destruct i as [|i]; [now exists ts, x|]. apply IH. lia.
Qed.

Lemma sorted_head_le (a : Timestamp) (idx : list Timestamp) b :
  is_monotonic_increasing (a :: idx) = true -> In b idx -> a <= b.
Proof.
  revert a. induction idx as [|c idx IH]; intros a Hs Hin; [easy|].
  cbn [is_monotonic_increasing] in Hs. apply andb_true_iff in Hs as [Hac Hs].
  apply Z.leb_le in Hac. destruct Hin as [<-|Hin]; [exact Hac|].
  specialize (IH c Hs Hin). lia.
Qed.

Lemma sorted_tail (a : Timestamp) (idx : list Timestamp) :
  is_monotonic_increasing (a :: idx) = true ->
  is_monotonic_increasing idx = true.
Proof.
  destruct idx as [|b idx]; [easy|]. cbn [is_monotonic_increasing].
  now intros [_ H]%andb_true_iff.
Qed.

Lemma searchsorted_right_all (cpi : DataFrame) t i ts x :
  is_monotonic_increasing (df_index cpi) = true ->
  cpi !! i = Some (ts, x) -> ts <= t ->
  (i < searchsorted_right (df_index cpi) t)%nat.
Proof.
  unfold df_index. revert i.
  induction cpi as [|[ts0 x0] cpi IH]; intros i Hs Hi Hle; [discriminate|].
  cbn [map fst searchsorted_right] in *.
  assert (H0 : ts0 <= t).
  { destruct i as [|i]; [cbn in Hi; injection Hi as -> _; exact Hle|].
    cbn in Hi. apply (Z.le_trans _ ts); [|exact Hle].
    apply (sorted_head_le ts0 (map fst cpi)); [exact Hs|].
    change ts with (fst (ts, x)). apply in_map.
    apply list_elem_of_In. now apply (list_elem_of_lookup_2 _ i). }
  apply Z.leb_le in H0. rewrite H0.
  destruct i as [|i]; [lia|]. cbn in Hi.
  apply sorted_tail in Hs. specialize (IH i Hs Hi Hle). lia.
Qed.

Lemma skip_na_back_spec (values : list float) loc :
  let loc' := skip_na_back values loc in
  (loc' <= loc)%nat
  /\ (forall j, (loc' < j <= loc)%nat -> isna (nth j values nan) = true)
  /\ (isna (nth loc' values nan) = true -> loc' = 0%nat).
Proof.
  induction loc as [|loc IH]; cbn [skip_na_back].
  - repeat split; [lia | intros j Hj; lia].
  - destruct (isna (nth (S loc) values nan)) eqn:E.
    + destruct IH as (Hle & Hna & Hz). repeat split; [lia| |exact Hz].
      intros j Hj. destruct (decide (j = S loc)) as [->|]; [exact E|].
      apply Hna. lia.
    + repeat split; [lia | intros j Hj; lia | congruence].
Qed.

(** The latest number at or before a date is unique, and there is
    none when no observation holds a number. *)
Lemma latest_observation_unique (cpi : DataFrame) t v v' :
  latest_observation cpi t v -> latest_observation cpi t v' -> v = v'.
Proof.
  intros (i & ts & Hi & Hts & Hv & Hafter) (i' & ts' & Hi' & Hts' & Hv' & Hafter').
  destruct (Nat.lt_trichotomy i i') as [Hlt|[->|Hlt]].
  - rewrite (Hafter i' ts' v' Hlt Hi' Hts') in Hv'. discriminate.
  - rewrite Hi in Hi'. now injection Hi' as _ ->.
  - rewrite (Hafter' i ts v Hlt Hi Hts) in Hv. discriminate.
Qed.

Lemma latest_observation_some (cpi : DataFrame) t v :
  latest_observation cpi t v -> ~ no_observation cpi t.
Proof.
  intros (i & ts & Hi & Hts & Hv & _) Hno.
  rewrite (Hno i ts v Hi Hts) in Hv. discriminate.
Qed.

(** The lookup of the calculator is the as-of lookup of the
    specification: on a sorted frame with rows it returns [NaN] when
    no observation at or before the date holds a number, and otherwise
    the number of the latest observation at or before the date that
    holds one. *)
Lemma series_asof_spec (cpi : DataFrame) t :
  is_monotonic_increasing (df_index cpi) = true -> cpi <> [] ->
  exists v,
    series_asof cpi t = Ok v
    /\ if isna v then no_observation cpi t else latest_observation cpi t v.
Proof.
  intros Hs Hne. unfold series_asof.
  destruct cpi as [|[t0 x0] cpi]; [contradiction|].
  rewrite Hs. cbn [negb].
  set (rows := (t0, x0) :: cpi) in *.
  destruct (t <? t0) eqn:Hlt.
  - apply Z.ltb_lt in Hlt. exists nan. split; [reflexivity|].
    change (isna nan) with true. cbv iota.
    intros i ts x Hi Hle. exfalso.
    pose proof (searchsorted_right_all _ t i ts x Hs Hi Hle) as Hn.
    unfold rows in Hn. cbn [df_index map fst searchsorted_right] in Hn.
    assert (E : (t0 <=? t) = false) by (apply Z.leb_gt; lia).
    rewrite E in Hn. lia.
  - apply Z.ltb_ge in Hlt.
    set (n := searchsorted_right (df_index rows) t).
    assert (Hn : (0 < n)%nat).
    { apply (searchsorted_right_all rows t 0%nat t0 x0 Hs); [reflexivity|lia]. }
    replace (if (0 <? n)%nat then (n - 1)%nat else n) with (n - 1)%nat
      by (destruct (Nat.ltb_spec 0 n); lia).
    destruct (skip_na_back_spec (df_values rows) (n - 1)) as (Hle & Hna & Hz).
    set (loc := skip_na_back (df_values rows) (n - 1)) in *.
    eexists. split; [reflexivity|].
    destruct (isna (nth loc (df_values rows) nan)) eqn:Hv.
    + intros i ts x Hi Hts. specialize (Hz eq_refl).
      pose proof (searchsorted_right_all rows t i ts x Hs Hi Hts) as Hin.
      fold n in Hin. rewrite <- (nth_values rows i ts x Hi).
      destruct (decide (i = 0%nat)) as [->|Hi0]; [now rewrite <- Hz|].
      apply Hna. lia.
    + destruct (searchsorted_right_le rows t loc) as (ts & x & Hi & Hts);
        [fold n; lia|].
      rewrite (nth_values rows loc ts x Hi) in *.
      exists loc, ts. split; [exact Hi|]. split; [exact Hts|].
      split; [exact Hv|]. intros j ts' x' Hj Hi' Hts'.
      pose proof (searchsorted_right_all rows t j ts' x' Hs Hi' Hts') as Hin.
      fold n in Hin. rewrite <- (nth_values rows j ts' x' Hi').
      apply Hna. lia.
Qed.

(** * The scenarios of the specification *)

(** An index at 3230.78 on 2020-01-01 and 3756.07 on 2021-01-01, and
    1000 invested: a nominal return of 16.26 percent, 1162.59 at the
    end. *)
Example scenario_nominal :
  exists d,
    calculate_nominal_return Iso.to_datetime "2020-01-01" "2021-01-01" 1000
      [(Demo.day 18262, 3230.78%float); (Demo.day 18628, 3756.07%float)] Demo.st0
    = (Ok 0%nat, mkState [d] [EvRange (Demo.day 18262) (Demo.day 18628)])
    /\ dict_get "nominal_total_return_pct" d = Some (VFloat 16.26)
    /\ dict_get "final_nominal_value" d = Some (VFloat 1162.59).
Proof. eexists. vm_compute. repeat split; reflexivity. Qed.

(** With a CPI of 257.9 at the start and 260.5 at the end: inflation of
    1.01 percent, and a real return of 15.1 percent, below the nominal
    one. *)
Example scenario_real :
  exists d tr,
    calculate_returns Iso.to_datetime Iso.pow "2020-01-01" "2021-01-01" 1000
      [(Demo.day 18262, 3230.78%float); (Demo.day 18628, 3756.07%float)]
      [(Demo.day 18231, 257.9%float); (Demo.day 18597, 260.5%float)] Demo.st0
    = (Ok 0%nat, mkState [d] tr)
    /\ dict_get "total_inflation_pct" d = Some (VFloat 1.01)
    /\ dict_get "real_total_return_pct" d = Some (VFloat 15.1)
    /\ (15.1 <? 16.26)%float = true.
Proof. eexists _, _. vm_compute. repeat split; reflexivity. Qed.

(** The ISO reading of dates inverts the ISO writing of them. *)
Example iso_round_trip :
  Iso.strftime 18262 = "2020-01-01"
  /\ Iso.to_datetime "2020-01-01" = Ok (Demo.day 18262)
  /\ Iso.strftime 19723 = "2024-01-01"
  /\ Iso.to_datetime "2024-01-01" = Ok (Demo.day 19723)
  /\ years_between (Demo.day 18262) (Demo.day 19723) = 4%float.
Proof. vm_compute. repeat split; reflexivity. Qed.

(** A record whose percentage is the Python float 624.0125458737273,
    over four years: the nominal factor is a Python float, its power
    and the rounding are Python's, and the nominal CAGR is 64.03, a
    Python float, where numpy's rounding of the same number gives
    64.04. *)
Example scenario_python_percentage :
  exists d tr,
    calculate_real_return Iso.to_datetime Iso.pow 0 "2020-01-01" "2024-01-01"
      Demo.cpi Demo2.python_gain
    = (Ok 0%nat, mkState [d] tr)
    /\ dict_get "nominal_cagr_pct" d = Some (VPyFloat 64.03)
    /\ round2 ((Iso.pow (1 + 624.0125458737273 / 100) (1 / 4) - 1) * 100)%float
       = 64.04%float.
Proof. eexists _, _. vm_compute. repeat split; reflexivity. Qed.

(** On [pd.DataFrame()] neither stage reports missing data: the slice
    of the nominal stage and the lookup of the real stage raise, and
    each stage returns the record of a caught exception; the nominal
    stage prints no warning. *)
Example scenario_no_frame :
  exists msg msg',
    calculate_nominal_return Iso.to_datetime "2020-01-01" "2024-01-01" 1000
      [] Demo.st0
    = (Ok 0%nat,
       mkState [[("error", VStr ("Calculation error: " +:+ msg))]]
         [EvRange (Demo.day 18262) (Demo.day 19723);
          EvPrint ("Error in nominal calculation: " +:+ msg)])
    /\ calculate_real_return Iso.to_datetime Iso.pow 0 "2020-01-01" "2024-01-01"
         [] Demo.after_nominal
       = (Ok 1%nat,
          mkState
            (heap Demo.after_nominal
             ++ [[("error", VStr ("Real return calculation error: " +:+ msg'))]])
            (trace Demo.after_nominal
             ++ [EvAsof (Demo.day 18262);
                 EvPrint ("Error in real calculation: " +:+ msg')])).
Proof. eexists _, _. split; vm_compute; reflexivity. Qed.

(** * The claims *)

(** ** C1: partial coverage *)

(** C1, as stated, fails: over 2020-01-01 .. 2021-01-01 the sample
    frame [summer_prices] has rows in range, the first one after the
    start and the last one before the end, and the nominal stage
    returns a result computed from those two rows (after printing a
    warning), not an error. *)
Lemma C1_partial_coverage_is_not_an_error :
  exists d,
    calculate_nominal_return Iso.to_datetime "2020-01-01" "2021-01-01" 1000
      Demo.summer_prices Demo.st0
    = (Ok 0%nat,
       mkState [d]
         [EvRange (Demo.day 18262) (Demo.day 18628);
          EvPrint "Warning: Data missing for range 2020-01-01 to 2021-01-01"])
    /\ df_between (Demo.day 18262) (Demo.day 18628) Demo.summer_prices
       = Demo.summer_prices
    /\ Demo.day 18262 < Demo.day 18414
    /\ Demo.day 18506 < Demo.day 18628
    /\ is_error d = false
    /\ dict_get "nominal_total_return_pct" d = Some (VFloat 10)
    /\ dict_get "final_nominal_value" d = Some (VFloat 1100).
Proof. eexists. vm_compute. repeat split; reflexivity. Qed.

(** C1, amended: with dates that parse and a frame that has rows, the
    nominal stage returns the data error exactly when no row of the
    frame lies in [[start, end]].  When rows lie in range it returns
    the record computed from the first and the last of them, and where
    they do not reach both ends of the range it has printed a
    warning. *)
Theorem C1_insufficient_iff_no_row_in_range
    (to_datetime : string -> result Timestamp)
    (sd ed : string) (invested : float) (sp : DataFrame) (st : state)
    (s e : Timestamp) :
  to_datetime sd = Ok s -> to_datetime ed = Ok e -> sp <> [] ->
  exists d tr,
    calculate_nominal_return to_datetime sd ed invested sp st
    = (Ok (length (heap st)), mkState (heap st ++ [d]) tr)
    /\ (d = [("error", VStr insufficient_sp500)] <-> df_between s e sp = [])
    /\ (forall row rows,
          df_between s e sp = row :: rows ->
          d = price_record sd ed invested (snd row)
                (last_of nan (df_values (row :: rows)))
          /\ (coverage_gap s e (row :: rows) = true ->
              In (coverage_warning sd ed) tr)).
Proof.
  intros Hs He Hsp.
  rewrite (calculate_nominal_return_run _ _ _ _ _ _ _ _ Hs He Hsp).
  rewrite (nominal_return_body_run _ _ _ _ _ _ _ _ Hs He Hsp). cbv zeta.
  eexists _, _. split; [reflexivity|].
  destruct (df_between s e sp) as [|row rows].
  - split; [easy|]. intros ? ? [=].
  - split; [split; intros [=]|].
    intros ? ? [= <- <-]. split; [reflexivity|].
    intros ->. apply in_or_app. right. right. now left.
Qed.

(** C1, amended, on the summer frame. *)
Lemma C1_witness :
  exists d tr,
    calculate_nominal_return Iso.to_datetime "2020-01-01" "2021-01-01" 1000
      Demo.summer_prices Demo.st0
    = (Ok 0%nat, mkState [d] tr)
    /\ (d = [("error", VStr insufficient_sp500)]
        <-> df_between (Demo.day 18262) (Demo.day 18628) Demo.summer_prices = []).
Proof.
  destruct (C1_insufficient_iff_no_row_in_range Iso.to_datetime
              "2020-01-01" "2021-01-01" 1000 Demo.summer_prices Demo.st0
              (Demo.day 18262) (Demo.day 18628) eq_refl eq_refl
              ltac:(discriminate))
    as (d & tr & Hrun & Hiff & _).
  exists d, tr. split; [exact Hrun | exact Hiff].
Defined.

(** ** C2: no inflation *)

Lemma float_zero_cases (x : float) :
  (x =? 0)%float = true -> x = 0%float \/ x = (-0)%float.
Proof.
  rewrite FloatAxioms.eqb_spec. change (Prim2SF 0) with (S754_zero false).
  rewrite <- (SF2Prim_Prim2SF x) at 2 3.
  destruct (Prim2SF x) as [[|]| [|] | |[|] m e]; cbn; try discriminate; auto.
Qed.

Lemma one_plus_zero (x : float) : (x =? 0)%float = true -> (1 + x)%float = 1%float.
Proof. intros H. now destruct (float_zero_cases x H) as [-> | ->]. Qed.

(** C2, as stated, fails: over 2020-01-01 .. 2024-01-01 the index of
    the sample frame gains 21 percent while the CPI of [flat_cpi] stays
    at 250, so the inflation rate is exactly 0, and the real return is
    the nominal 21 percent, not 0. *)
Lemma C2_zero_inflation_keeps_the_nominal_return :
  exists d tr,
    calculate_returns Iso.to_datetime Iso.pow "2020-01-01" "2024-01-01" 1000
      Demo.prices Demo.flat_cpi Demo.st0
    = (Ok 0%nat, mkState [d] tr)
    /\ series_asof Demo.flat_cpi (Demo.day 18262) = Ok 250%float
    /\ series_asof Demo.flat_cpi (Demo.day 19723) = Ok 250%float
    /\ (250 / 250 - 1 =? 0)%float = true
    /\ is_error d = false
    /\ dict_get "total_inflation_pct" d = Some (VFloat 0)
    /\ dict_get "nominal_total_return_pct" d = Some (VFloat 21)
    /\ dict_get "real_total_return_pct" d = Some (VFloat 21)
    /\ (21 =? 0)%float = false.
Proof. eexists _, _. vm_compute. repeat split; reflexivity. Qed.

(** C2, amended: in a successful real-return calculation whose
    inflation rate [cpi_end/cpi_start - 1] equals exactly 0, the real
    return factor is the nominal factor [1 + nominal_total_return_pct/100]
    divided by 1, so [real_total_return_pct] is the nominal return
    recomputed from that factor, [((1 + pct/100) / 1 - 1) * 100]
    rounded to 2 decimal places. *)
Theorem C2_zero_inflation_real_return
    (to_datetime : string -> result Timestamp) (pow : float -> float -> float)
    (r : ref) (sd ed : string) (cpi : DataFrame) (st : state) (d : dict)
    (r' : ref) (st' : state) (d' : dict)
    (s e : Timestamp) (cs ce pct : float) :
  heap st !! r = Some d ->
  calculate_real_return to_datetime pow r sd ed cpi st = (Ok r', st') ->
  heap st' !! r' = Some d' ->
  is_error d' = false ->
  to_datetime sd = Ok s -> to_datetime ed = Ok e ->
  series_asof cpi s = Ok cs -> series_asof cpi e = Ok ce ->
  read_float "nominal_total_return_pct" d = Ok pct ->
  (ce / cs - 1 =? 0)%float = true ->
  dict_get "real_total_return_pct" d'
  = Some (VFloat (round2 (((1 + pct / 100) / 1 - 1) * 100)%float)).
Proof.
  intros Hd Hrun Hd' Herr Hs He Hcs Hce Hpct Hzero.
  destruct (calculate_real_return_success _ _ _ _ _ _ _ _ _ _ _ Hd Hrun Hd' Herr)
    as (s0 & e0 & cs0 & ce0 & pct0 & inv0 & c
        & Hs0 & He0 & Hcs0 & Hce0 & _ & Hp0 & _ & _ & _ & -> & _).
  rewrite Hs in Hs0. injection Hs0 as <-. rewrite He in He0. injection He0 as <-.
  rewrite Hcs in Hcs0. injection Hcs0 as <-.
  rewrite Hce in Hce0. injection Hce0 as <-.
  rewrite Hpct in Hp0. injection Hp0 as <-.
  unfold real_record, with_cagr, real_figures. dict_read.
  unfold real_factor, nominal_factor.
  now rewrite (one_plus_zero _ Hzero).
Qed.

(** C2, amended, on the flat CPI: the real return is the nominal 21
    percent. *)
Lemma C2_witness :
  exists d,
    heap (snd (calculate_returns Iso.to_datetime Iso.pow "2020-01-01" "2024-01-01"
                 1000 Demo.prices Demo.flat_cpi Demo.st0)) !! 0%nat = Some d
    /\ dict_get "real_total_return_pct" d
       = Some (VFloat (round2 (((1 + 21 / 100) / 1 - 1) * 100)%float)).
Proof.
  eexists. split; [vm_compute; reflexivity|].
  eapply (C2_zero_inflation_real_return Iso.to_datetime Iso.pow 0
            "2020-01-01" "2024-01-01" Demo.flat_cpi Demo.after_nominal _ 0 _ _
            (Demo.day 18262) (Demo.day 19723) 250 250 21);
    vm_compute; reflexivity.
Defined.

(** ** C3: the nominal figures *)

(** C3, as stated, fails in binary64 for the percentage: the code takes
    the return factor [1 + (end/start - 1)] and subtracts one again,
    and when the price ratio is [2^53 + 2] that loses one unit which
    [(end/start - 1)] keeps.  The frame [steep_prices] covers
    2020-01-01 .. 2021-01-01 fully. *)
Lemma C3_percentage_differs_for_a_steep_index :
  exists d,
    calculate_nominal_return Iso.to_datetime "2020-01-01" "2021-01-01" 1000
      Demo.steep_prices Demo.st0
    = (Ok 0%nat, mkState [d] [EvRange (Demo.day 18262) (Demo.day 18628)])
    /\ df_between (Demo.day 18262) (Demo.day 18628) Demo.steep_prices
       = Demo.steep_prices
    /\ hd 0 (df_index Demo.steep_prices) = Demo.day 18262
    /\ last_of 0 (df_index Demo.steep_prices) = Demo.day 18628
    /\ dict_get "nominal_total_return_pct" d
       = Some (VFloat 900719925474099072)
    /\ round2 ((9007199254740994 / 1 - 1) * 100)%float
       = 900719925474099200%float
    /\ (900719925474099072 =? 900719925474099200)%float = false.
Proof. eexists. vm_compute. repeat split; reflexivity. Qed.

(** C3, amended: with dates that parse and at least one row in range,
    the nominal stage returns a record whose
    [nominal_total_return_pct] is [((1 + (end_price/start_price - 1)) - 1) * 100],
    the return factor less one as the code computes it, rounded to 2
    decimal places, and whose [final_nominal_value] is
    [initial_investment * (1 + (end_price/start_price - 1))] rounded
    to 2 decimal places, for the first and last prices in range. *)
Theorem C3_nominal_figures
    (to_datetime : string -> result Timestamp)
    (sd ed : string) (invested : float) (sp : DataFrame) (st : state)
    (s e : Timestamp) (row : Timestamp * float) (rows : DataFrame) :
  to_datetime sd = Ok s -> to_datetime ed = Ok e ->
  df_between s e sp = row :: rows ->
  let start_price := snd row in
  let end_price := last_of nan (df_values (row :: rows)) in
  exists d tr,
    calculate_nominal_return to_datetime sd ed invested sp st
    = (Ok (length (heap st)), mkState (heap st ++ [d]) tr)
    /\ is_error d = false
    /\ dict_get "nominal_total_return_pct" d
       = Some (VFloat (round2 (((1 + (end_price / start_price - 1)) - 1) * 100)%float))
    /\ dict_get "final_nominal_value" d
       = Some (VFloat (round2 (invested * (1 + (end_price / start_price - 1)))%float)).
Proof.
  intros Hs He Hrows start_price end_price.
  assert (Hsp : sp <> []) by (intros ->; discriminate).
  rewrite (calculate_nominal_return_run _ _ _ _ _ _ _ _ Hs He Hsp).
  rewrite (nominal_return_body_run _ _ _ _ _ _ _ _ Hs He Hsp). cbv zeta.
  rewrite Hrows. eexists _, _. split; [reflexivity|]. now repeat split.
Qed.

(** C3, amended, on the sample frame over 2020-2024. *)
Lemma C3_witness :
  exists d tr,
    calculate_nominal_return Iso.to_datetime "2020-01-01" "2024-01-01" 1000
      Demo.prices Demo.st0
    = (Ok 0%nat, mkState [d] tr)
    /\ is_error d = false
    /\ dict_get "nominal_total_return_pct" d
       = Some (VFloat (round2 (((1 + (121 / 100 - 1)) - 1) * 100)%float))
    /\ dict_get "final_nominal_value" d
       = Some (VFloat (round2 (1000 * (1 + (121 / 100 - 1)))%float)).
Proof.
  exact (C3_nominal_figures Iso.to_datetime "2020-01-01" "2024-01-01" 1000
           Demo.prices Demo.st0 (Demo.day 18262) (Demo.day 19723)
           (Demo.day 18262, 100%float)
           [(Demo.day 18628, 105%float); (Demo.day 19723, 121%float)]
           eq_refl eq_refl eq_refl).
Defined.
(** ** C4: the CAGR entries *)

Lemma update_raises r f st x st1 :
  update r f st = (Raised x, st1) -> exn_class x = TypeError.
Proof.
  unfold update, deref. mrun. destruct (heap st !! r); [discriminate|].
  now intros [= <- _].
Qed.

(** What Python's [**] raises for an exponent that is not negative is
    no [ZeroDivisionError]. *)
Lemma py_pow_raises pow v w x :
  (w <? 0)%float = false ->
  py_pow pow v w = Raised x -> exn_class x <> ZeroDivisionError.
Proof.
  intros Hw. unfold py_pow. rewrite Hw.
  repeat match goal with
         | |- context [if ?c then _ else _] => destruct c
         end;
    intros [= <-]; discriminate.
Qed.

(** Python's [**] on floats gives a Python float or a complex. *)
Lemma py_pow_python pow v w x : py_pow pow v w <> Ok (NumpyFloat x).
Proof.
  unfold py_pow.
  repeat match goal with
         | |- context [if ?c then _ else _] => destruct c
         end;
    discriminate.
Qed.

(** C4: in a successful real-return calculation, with
    [years = (end - start).days / 365.25], nominal factor
    [1 + nominal_total_return_pct/100] and real factor that divided
    by [1 + inflation_rate]: if [years > 0] the two CAGR entries are
    [(factor^(1/years) - 1) * 100] rounded to 2 decimal places, and
    otherwise both are the integer 0.  The power and the rounding of
    the nominal entry are numpy's when the percentage of the record is
    a [numpy.float64], as the nominal stage writes it, and Python's
    own when it is a Python number; those of the real entry are
    numpy's.  The CAGR step never ends on a [ZeroDivisionError]. *)
Theorem C4_cagr_entries
    (to_datetime : string -> result Timestamp) (pow : float -> float -> float)
    (r : ref) (sd ed : string) (cpi : DataFrame) (st : state) (d : dict)
    (r' : ref) (st' : state) (d' : dict)
    (s e : Timestamp) (cs ce pct : float) :
  heap st !! r = Some d ->
  calculate_real_return to_datetime pow r sd ed cpi st = (Ok r', st') ->
  heap st' !! r' = Some d' ->
  is_error d' = false ->
  to_datetime sd = Ok s -> to_datetime ed = Ok e ->
  series_asof cpi s = Ok cs -> series_asof cpi e = Ok ce ->
  read_float "nominal_total_return_pct" d = Ok pct ->
  let years := years_between s e in
  let nf := nominal_factor pct in
  let rf := real_factor pct cs ce in
  (if (0 <? years)%float then
     (if python_pct d then
        exists p,
          py_pow pow nf (1 / years) = Ok (PyFloat p)
          /\ dict_get "nominal_cagr_pct" d'
             = Some (VPyFloat (py_round2 ((p - 1) * 100)%float))
      else
        dict_get "nominal_cagr_pct" d'
        = Some (VFloat (round2 ((pow nf (1 / years) - 1) * 100)%float)))
     /\ dict_get "real_cagr_pct" d'
        = Some (VFloat (round2 ((pow rf (1 / years) - 1) * 100)%float))
   else
     dict_get "nominal_cagr_pct" d' = Some (VInt 0)
     /\ dict_get "real_cagr_pct" d' = Some (VInt 0))
  /\ (forall r0 python nf0 rf0 y st0 x st1,
        set_cagr pow r0 python nf0 rf0 y st0 = (Raised x, st1) ->
        exn_class x <> ZeroDivisionError).
Proof.
  intros Hd Hrun Hd' Herr Hs He Hcs Hce Hpct years nf rf.
  split.
  - destruct (calculate_real_return_success _ _ _ _ _ _ _ _ _ _ _ Hd Hrun Hd' Herr)
      as (s0 & e0 & cs0 & ce0 & pct0 & inv0 & c
          & Hs0 & He0 & Hcs0 & Hce0 & _ & Hp0 & _ & Hcagr & _ & -> & _).
    rewrite Hs in Hs0. injection Hs0 as <-. rewrite He in He0. injection He0 as <-.
    rewrite Hcs in Hcs0. injection Hcs0 as <-.
    rewrite Hce in Hce0. injection Hce0 as <-.
    rewrite Hpct in Hp0. injection Hp0 as <-.
    fold years nf rf in Hcagr.
    unfold cagr_entries, nominal_cagr_entry, power in Hcagr.
    unfold real_record, with_cagr.
    destruct (0 <? years)%float.
    + destruct (python_pct d).
      * destruct (py_pow pow nf (1 / years)) as [[x|p|]|x] eqn:Hpow;
          try discriminate; [now apply py_pow_python in Hpow|].
        cbn in Hcagr. injection Hcagr as <-. cbn [fst snd].
        split; [exists p; split; [reflexivity|]|]; now dict_read.
      * cbn in Hcagr. injection Hcagr as <-. cbn [fst snd].
        split; now dict_read.
    + injection Hcagr as <-. cbn [fst snd]. split; now dict_read.
  - intros r0 python nf0 rf0 y st0 x st1. unfold set_cagr, setitem.
    destruct (0 <? y)%float eqn:Hy.
    + unfold py_truediv. rewrite (positive_float_nonzero _ Hy). mrun.
      destruct (power pow python nf0 (1 / y)) as [p|x0] eqn:Hpow.
      2:{ intros [= <- _]. unfold power in Hpow. destruct python; [|discriminate].
          exact (py_pow_raises _ _ _ _ (positive_float_inverse _ Hy) Hpow). }
      destruct (round_number (less_one_times_100 p)) as [c|x0] eqn:Hround.
      2:{ intros [= <- _]. destruct p; try discriminate.
          injection Hround as <-. discriminate. }
      destruct (update r0 _ st0) as [[[]|x0] s0] eqn:E1.
      * intros H%update_raises. congruence.
      * apply update_raises in E1. intros [= <- _]. congruence.
    + mrun. destruct (update r0 _ st0) as [[[]|x0] s0] eqn:E1.
      * intros H%update_raises. congruence.
      * apply update_raises in E1. intros [= <- _]. congruence.
Qed.

(** C4 on the sample frames over 2020-2024, four years exactly. *)
Lemma C4_witness :
  exists d,
    heap Demo.after_real !! 0%nat = Some d
    /\ dict_get "nominal_cagr_pct" d
       = Some (VFloat (round2 ((Iso.pow (1 + 21 / 100) (1 / 4) - 1) * 100)%float))
    /\ dict_get "real_cagr_pct" d
       = Some (VFloat (round2 ((Iso.pow ((1 + 21 / 100) / (1 + (275 / 250 - 1)))
                                  (1 / 4) - 1) * 100)%float)).
Proof.
  eexists. split; [reflexivity|].
  exact (proj1
    (C4_cagr_entries Iso.to_datetime Iso.pow 0
       "2020-01-01" "2024-01-01" Demo.cpi Demo.after_nominal _ 0 Demo.after_real _
       (Demo.day 18262) (Demo.day 19723) 250 275 21
       eq_refl eq_refl eq_refl eq_refl eq_refl eq_refl eq_refl eq_refl eq_refl)).
Defined.

(** ** C5: the CPI failure *)

(** C5, as stated, fails on the empty series.  [pd.DataFrame()], which
    the fetch layer returns when it has no data, holds no observation
    at or before any date, so both as-of lookups of the specification
    are missing; yet the real stage does not report missing CPI data:
    the frame has no column ['value'], the [KeyError] is caught, and
    the record returned reports a calculation error. *)
Lemma C5_empty_series_is_another_error :
  exists st',
    calculate_real_return Iso.to_datetime Iso.pow 0 "2020-01-01" "2024-01-01"
      [] Demo.after_nominal = (Ok 1%nat, st')
    /\ heap st' !! 1%nat
       = Some [("error", VStr "Real return calculation error: 'value'")]
    /\ heap Demo.after_nominal !! 0%nat
       = Some (price_record "2020-01-01" "2024-01-01" 1000 100 121)
    /\ no_observation [] (Demo.day 18262)
    /\ no_observation [] (Demo.day 19723)
    /\ String.eqb "Real return calculation error: 'value'" insufficient_cpi = false.
Proof.
  eexists. split; [vm_compute; reflexivity|].
  repeat split; try reflexivity; intros i ts x Hi; destruct i; discriminate.
Qed.

(** C5, amended: for a CPI series that has observations, sorted by
    date, a nominal record that is no error and dates that parse, the
    real stage returns the CPI-data error if and only if no
    observation at or before the start holds a number, or none at or
    before the end does, or the latest number at or before the start is
    exactly 0; so [cpi_end/cpi_start] is never computed with a zero or
    missing denominator. *)
Theorem C5_insufficient_cpi_iff
    (to_datetime : string -> result Timestamp) (pow : float -> float -> float)
    (r : ref) (sd ed : string) (cpi : DataFrame) (st : state) (d : dict)
    (s e : Timestamp) :
  heap st !! r = Some d -> is_error d = false ->
  to_datetime sd = Ok s -> to_datetime ed = Ok e ->
  cpi <> [] -> is_monotonic_increasing (df_index cpi) = true ->
  exists r' st' d',
    calculate_real_return to_datetime pow r sd ed cpi st = (Ok r', st')
    /\ heap st' !! r' = Some d'
    /\ (d' = [("error", VStr insufficient_cpi)]
        <-> no_observation cpi s \/ no_observation cpi e
            \/ exists v, latest_observation cpi s v /\ (v =? 0)%float = true).
Proof.
  intros Hd Herr Hs He Hne Hsorted.
  destruct (series_asof_spec cpi s Hsorted Hne) as (cs & Hcs & Hspec_s).
  destruct (series_asof_spec cpi e Hsorted Hne) as (ce & Hce & Hspec_e).
  unfold calculate_real_return. mrun.
  rewrite (contains_run _ _ _ _ Hd). fold (is_error d). rewrite Herr.
  rewrite (real_return_body_run _ _ _ _ _ _ _ _ _ _ Hd Hs He).
  rewrite Hcs. cbv zeta. rewrite Hce.
  destruct (cpi_unusable cs ce) eqn:Hc.
  - eexists _, _, _. split; [reflexivity|]. split; [apply lookup_new|].
    split; [intros _|reflexivity]. unfold cpi_unusable in Hc.
    destruct (isna cs) eqn:E1; [now left|].
    destruct (isna ce) eqn:E2; [now right; left|].
    right; right. exists cs. now split.
  - assert (Hno : ~ (no_observation cpi s \/ no_observation cpi e
                     \/ exists v, latest_observation cpi s v
                                  /\ (v =? 0)%float = true)).
    { unfold cpi_unusable in Hc.
      destruct (isna cs) eqn:E1; [discriminate|].
      destruct (isna ce) eqn:E2; [discriminate|]. cbn [orb] in Hc.
      intros [H|[H|(v & Hv & Hzero)]].
      - exact (latest_observation_some _ _ _ Hspec_s H).
      - exact (latest_observation_some _ _ _ Hspec_e H).
      - rewrite (latest_observation_unique _ _ _ _ Hv Hspec_s) in Hzero.
        congruence. }
    destruct (read_float "nominal_total_return_pct" d) as [pct|x];
      [destruct (read_float "initial_investment" d) as [invested|x];
       [destruct (cagr_entries pow (python_pct d) (nominal_factor pct)
                    (real_factor pct cs ce) (years_between s e)) as [c|x]|]|].
    + eexists _, _, _. split; [reflexivity|].
      split; [cbn [heap]; eauto using lookup_updated|].
      split; [|intros H; contradiction].
      intros Heq. apply (f_equal (dict_get "calculation_notes")) in Heq.
      unfold real_record in Heq. rewrite dict_get_set_eq in Heq. discriminate.
    + eexists _, _, _. split; [reflexivity|]. split; [apply lookup_new|].
      split; [intros [=]|intros H; contradiction].
    + eexists _, _, _. split; [reflexivity|]. split; [apply lookup_new|].
      split; [intros [=]|intros H; contradiction].
    + eexists _, _, _. split; [reflexivity|]. split; [apply lookup_new|].
      split; [intros [=]|intros H; contradiction].
Qed.

(** C5, amended, on the sample frames over 2020-2024. *)
Lemma C5_witness :
  exists r' st' d',
    calculate_real_return Iso.to_datetime Iso.pow 0 "2020-01-01" "2024-01-01"
      Demo.cpi Demo.after_nominal = (Ok r', st')
    /\ heap st' !! r' = Some d'
    /\ (d' = [("error", VStr insufficient_cpi)]
        <-> no_observation Demo.cpi (Demo.day 18262)
            \/ no_observation Demo.cpi (Demo.day 19723)
            \/ exists v, latest_observation Demo.cpi (Demo.day 18262) v
                         /\ (v =? 0)%float = true).
Proof.
  exact (C5_insufficient_cpi_iff Iso.to_datetime Iso.pow 0
           "2020-01-01" "2024-01-01" Demo.cpi Demo.after_nominal _
           (Demo.day 18262) (Demo.day 19723) eq_refl eq_refl eq_refl eq_refl
           ltac:(discriminate) eq_refl).
Defined.

(** ** C6: an error passes through *)

(** C6: handed an error record, the real stage returns the same object
    and leaves the world as it was: no record is written or created,
    nothing is looked up in the CPI frame (whatever the frame and the
    dates are) and nothing is printed.  The record therefore carries
    no entry of the real stage that it did not already have. *)
Theorem C6_error_passes_through
    (to_datetime : string -> result Timestamp) (pow : float -> float -> float)
    (r : ref) (sd ed : string) (cpi : DataFrame) (st : state) (d : dict) :
  heap st !! r = Some d -> is_error d = true ->
  calculate_real_return to_datetime pow r sd ed cpi st = (Ok r, st).
Proof.
  intros Hd Herr. unfold calculate_real_return. mrun.
  rewrite (contains_run _ _ _ _ Hd). fold (is_error d). now rewrite Herr.
Qed.

(** C6 on a world whose only object is an error record. *)
Lemma C6_witness :
  calculate_real_return Iso.to_datetime Iso.pow 0 "2020-01-01" "2024-01-01"
    Demo.cpi Demo.failed
  = (Ok 0%nat, Demo.failed).
Proof.
  exact (C6_error_passes_through Iso.to_datetime Iso.pow 0
           "2020-01-01" "2024-01-01" Demo.cpi Demo.failed _ eq_refl eq_refl).
Defined.

(** ** C7: nothing is raised to the caller *)

(** C7: on every input the nominal stage returns the address of a
    record, and so does the real stage when handed a record; the
    record is an error record or a result record with all the entries
    of its stage.  Neither ends by raising. *)
Theorem C7_stages_return_records
    (to_datetime : string -> result Timestamp) (pow : float -> float -> float)
    (sd ed : string) (invested : float) (sp cpi : DataFrame)
    (r : ref) (d : dict) (st : state) :
  heap st !! r = Some d ->
  (exists r1 st1 d1,
      calculate_nominal_return to_datetime sd ed invested sp st = (Ok r1, st1)
      /\ heap st1 !! r1 = Some d1
      /\ (is_error d1 = true \/ result_record nominal_keys d1))
  /\ (exists r2 st2 d2,
      calculate_real_return to_datetime pow r sd ed cpi st = (Ok r2, st2)
      /\ heap st2 !! r2 = Some d2
      /\ (is_error d2 = true \/ result_record real_keys d2)).
Proof.
  intros Hd. split.
  - destruct (calculate_nominal_return_new to_datetime sd ed invested sp st)
      as (d1 & tr & -> & Hshape).
    eexists _, _, _. split; [reflexivity|]. split; [apply lookup_new|].
    destruct Hshape as [H|H]; [left; now apply error_record_is_error|now right].
  - now apply (calculate_real_return_returns to_datetime pow r sd ed cpi st d).
Qed.

(** C7 on the sample frames over 2020-2024, in the world that holds
    the record of the nominal stage. *)
Lemma C7_witness :
  (exists r1 st1 d1,
      calculate_nominal_return Iso.to_datetime "2020-01-01" "2024-01-01" 1000
        Demo.prices Demo.after_nominal = (Ok r1, st1)
      /\ heap st1 !! r1 = Some d1
      /\ (is_error d1 = true \/ result_record nominal_keys d1))
  /\ (exists r2 st2 d2,
      calculate_real_return Iso.to_datetime Iso.pow 0 "2020-01-01" "2024-01-01"
        Demo.cpi Demo.after_nominal = (Ok r2, st2)
      /\ heap st2 !! r2 = Some d2
      /\ (is_error d2 = true \/ result_record real_keys d2)).
Proof.
  exact (C7_stages_return_records Iso.to_datetime Iso.pow
           "2020-01-01" "2024-01-01" 1000 Demo.prices Demo.cpi 0 _
           Demo.after_nominal eq_refl).
Defined.

(** ** C8: the range check comes first *)

(** C8: with both caches loaded and not empty, a request whose start
    date is not before its end date is answered by the 400 error, and
    the world is as it was: no frame has been sliced or looked up,
    nothing was printed, and no record was created, so the nominal
    stage, which creates one on every path, has not run, nor the real
    stage after it. *)
Theorem C8_invalid_range_before_any_lookup
    (to_datetime : string -> result Timestamp) (pow : float -> float -> float)
    (strftime : Z -> string)
    (float_str : float -> string) (int_str : Z -> string)
    (sp cpi : DataFrame) (data : CalculatorInput) (st : state) :
  df_empty sp = false -> df_empty cpi = false ->
  start_date data >= end_date data ->
  calculate_returns_endpoint to_datetime pow strftime float_str int_str
    (Some sp) (Some cpi) data st
  = (Raised (mkExn (HTTPException 400) "Start date must be before end date."),
     st).
Proof.
  intros Hsp Hcpi Hge. unfold calculate_returns_endpoint.
  cbn [not_loaded cache_empty orb]. rewrite Hsp, Hcpi. cbn [orb].
  assert (Hgeb : (start_date data >=? end_date data) = true)
    by (apply Z.geb_le; lia).
  now rewrite Hgeb.
Qed.

(** C8 on a request from 2020-01-01 to 2020-01-01. *)
Lemma C8_witness :
  calculate_returns_endpoint Iso.to_datetime Iso.pow Iso.strftime
    (fun _ => "") (fun _ => "")
    (Some Demo.prices) (Some Demo.cpi)
    (mkCalculatorInput 18262 18262 1000) Demo.st0
  = (Raised (mkExn (HTTPException 400) "Start date must be before end date."),
     Demo.st0).
Proof.
  apply (C8_invalid_range_before_any_lookup Iso.to_datetime Iso.pow Iso.strftime
           (fun _ => "") (fun _ => "") Demo.prices Demo.cpi
           (mkCalculatorInput 18262 18262 1000) Demo.st0);
    [reflexivity | reflexivity | cbn; lia].
Defined.

(** ** C9: two runs *)

(** Both stages in a row return the address of a record. *)
Lemma calculate_returns_returns
    (to_datetime : string -> result Timestamp) (pow : float -> float -> float)
    sd ed invested sp cpi st :
  exists r st' d,
    calculate_returns to_datetime pow sd ed invested sp cpi st = (Ok r, st')
    /\ heap st' !! r = Some d.
Proof.
  unfold calculate_returns.
  destruct (calculate_nominal_return_new to_datetime sd ed invested sp st)
    as (d1 & tr & E1 & _).
  destruct (calculate_real_return_returns to_datetime pow (length (heap st))
              sd ed cpi (mkState (heap st ++ [d1]) tr) d1 (lookup_new _ _))
    as (r & st' & d & E2 & Hd & _).
  exists r, st', d. split; [|exact Hd].
  unfold bind. now rewrite E1.
Qed.

(** A run in any world is the run in the empty world, moved. *)
Lemma calculate_returns_anywhere
    (to_datetime : string -> result Timestamp) (pow : float -> float -> float)
    sd ed invested sp cpi st k se :
  calculate_returns to_datetime pow sd ed invested sp cpi (mkState [] [])
  = (Ok k, se) ->
  calculate_returns to_datetime pow sd ed invested sp cpi st
  = (Ok (length (heap st) + k)%nat, reloc (heap st) (trace st) se).
Proof.
  intros E.
  pose proof (sim_calculate_returns (heap st) (trace st) to_datetime pow
                sd ed invested sp cpi (mkState [] [])) as H.
  rewrite E, reloc_empty in H. now destruct H as (a2 & -> & ->).
Qed.

(** C9: running both stages twice in a row on the same dates,
    investment and frames yields two records with the same entries, in
    the same order, with the same values; and the second run leaves the
    record of the first as it was. *)
Theorem C9_two_runs_same_record
    (to_datetime : string -> result Timestamp) (pow : float -> float -> float)
    (sd ed : string) (invested : float) (sp cpi : DataFrame) (st0 : state) :
  exists r1 st1 r2 st2 d,
    calculate_returns to_datetime pow sd ed invested sp cpi st0 = (Ok r1, st1)
    /\ calculate_returns to_datetime pow sd ed invested sp cpi st1 = (Ok r2, st2)
    /\ heap st1 !! r1 = Some d
    /\ heap st2 !! r2 = Some d
    /\ heap st2 !! r1 = Some d.
Proof.
  destruct (calculate_returns_returns to_datetime pow sd ed invested sp cpi
              (mkState [] [])) as (k & se & d & E & Hd).
  pose proof (calculate_returns_anywhere to_datetime pow sd ed invested sp cpi
                st0 k se E) as E1.
  set (st1 := reloc (heap st0) (trace st0) se) in *.
  pose proof (calculate_returns_anywhere to_datetime pow sd ed invested sp cpi
                st1 k se E) as E2.
  assert (H1 : heap st1 !! (length (heap st0) + k)%nat = Some d)
    by (unfold st1, reloc; cbn [heap]; now rewrite lookup_moved).
  eexists _, _, _, _, d. split; [exact E1|]. split; [exact E2|].
  split; [exact H1|]. split.
  - unfold reloc. cbn [heap]. now rewrite lookup_moved.
  - unfold reloc. cbn [heap]. now apply lookup_app_l_Some.
Qed.

(** ** C10: the record is rewritten in place *)

(** C10: when the real stage ends on a record that is no error, that
    record is the object it was handed, at the same address: no object
    was created and no other object was touched.  The five entries of
    the nominal stage read as before, the five real-return and CAGR
    entries are present, and [calculation_notes] holds the note of the
    real stage, which is not the note the nominal stage writes. *)
Theorem C10_nominal_record_rewritten_in_place
    (to_datetime : string -> result Timestamp) (pow : float -> float -> float)
    (r : ref) (sd ed : string) (cpi : DataFrame) (st : state) (d : dict)
    (r' : ref) (st' : state) (d' : dict) :
  heap st !! r = Some d ->
  calculate_real_return to_datetime pow r sd ed cpi st = (Ok r', st') ->
  heap st' !! r' = Some d' ->
  is_error d' = false ->
  r' = r
  /\ length (heap st') = length (heap st)
  /\ (forall r0, r0 <> r -> heap st' !! r0 = heap st !! r0)
  /\ Forall (fun k => dict_get k d' = dict_get k d) kept_keys
  /\ Forall (fun k => dict_contains k d' = true) added_keys
  /\ dict_get "calculation_notes" d' = Some (VStr real_note)
  /\ real_note <> nominal_note.
Proof.
  intros Hd Hrun Hd' Herr.
  destruct (calculate_real_return_success _ _ _ _ _ _ _ _ _ _ _ Hd Hrun Hd' Herr)
    as (s & e & cs & ce & pct & inv & c
        & _ & _ & _ & _ & _ & _ & _ & _ & -> & -> & ->).
  split; [reflexivity|]. cbn [heap].
  split; [apply length_insert|].
  split; [intros r0 Hr0; now apply list_lookup_insert_ne|].
  unfold real_record, with_cagr, real_figures, dict_contains, kept_keys, added_keys.
  split; [repeat constructor; now dict_read|].
  split; [repeat constructor; now dict_read|].
  split; [now dict_read|discriminate].
Qed.

(** C10 on the sample frames over 2020-2024. *)
Lemma C10_witness :
  exists d',
    heap Demo.after_real !! 0%nat = Some d'
    /\ length (heap Demo.after_real) = length (heap Demo.after_nominal)
    /\ dict_get "calculation_notes" d' = Some (VStr real_note).
Proof.
  eexists. split; [reflexivity|].
  destruct (C10_nominal_record_rewritten_in_place Iso.to_datetime Iso.pow 0
              "2020-01-01" "2024-01-01" Demo.cpi Demo.after_nominal _
              0 Demo.after_real _ eq_refl eq_refl eq_refl eq_refl)
    as (_ & Hlen & _ & _ & _ & Hnote & _).
  split; [exact Hlen | exact Hnote].
Defined.

(** * Further properties of the calculator and of its endpoint *)

(** ** The endpoint answers every request *)

Section EndpointAnswers.

Variable to_datetime : string -> result Timestamp.
Variable pow : float -> float -> float.
Variable strftime : Z -> string.
Variable float_str : float -> string.
Variable int_str : Z -> string.

Lemma is_error_entry d :
  is_error d = true -> exists msg, dict_get "error" d = Some msg.
Proof.
  unfold is_error, dict_contains.
  destruct (dict_get "error" d) as [msg|]; [eauto|discriminate].
Qed.

(** With both caches loaded and a start date before the end date, the
    endpoint is the two stages in a row, each followed by a test of
    its record. *)
Lemma endpoint_run sp cpi data st :
  df_empty sp = false -> df_empty cpi = false ->
  start_date data < end_date data ->
  exists r1 st1 d1,
    calculate_nominal_return to_datetime (strftime (start_date data))
      (strftime (end_date data)) (initial_investment data) sp st = (Ok r1, st1)
    /\ heap st1 !! r1 = Some d1
    /\ (is_error d1 = true \/ result_record nominal_keys d1)
    /\ match dict_get "error" d1 with
       | Some msg =>
           calculate_returns_endpoint to_datetime pow strftime float_str int_str
             (Some sp) (Some cpi) data st
           = (Raised (mkExn (HTTPException 400)
                        ("Nominal calculation error: " +:+ format_value float_str int_str msg)),
              st1)
       | None =>
           exists r2 st2 d2,
             calculate_real_return to_datetime pow r1 (strftime (start_date data))
               (strftime (end_date data)) cpi st1 = (Ok r2, st2)
             /\ heap st2 !! r2 = Some d2
             /\ (is_error d2 = true \/ result_record real_keys d2)
             /\ calculate_returns_endpoint to_datetime pow strftime float_str int_str
                  (Some sp) (Some cpi) data st
                = match dict_get "error" d2 with
                  | Some msg =>
                      (Raised (mkExn (HTTPException 400)
                                 ("Real calculation error: "
                                  +:+ format_value float_str int_str msg)),
                       st2)
                  | None => (Ok r2, st2)
                  end
       end.
Proof.
  intros Hsp Hcpi Hlt. unfold calculate_returns_endpoint.
  cbn [not_loaded cache_empty orb default]. unfold id.
  rewrite Hsp, Hcpi. cbn [orb].
  assert (Hgeb : (start_date data >=? end_date data) = false)
    by (rewrite Z.geb_leb; apply Z.leb_gt; lia).
  rewrite Hgeb.
  destruct (calculate_nominal_return_new to_datetime (strftime (start_date data))
              (strftime (end_date data)) (initial_investment data) sp st)
    as (d1 & tr & E1 & Hshape).
  set (st1 := mkState (heap st ++ [d1]) tr) in *.
  assert (Hd1 : heap st1 !! length (heap st) = Some d1) by apply lookup_new.
  exists (length (heap st)), st1, d1. split; [exact E1|]. split; [exact Hd1|].
  split; [destruct Hshape as [H|H]; [left; now apply error_record_is_error|now right]|].
  mrun. rewrite E1, (contains_run _ _ _ _ Hd1). unfold dict_contains.
  destruct (dict_get "error" d1) as [msg|] eqn:Eerr; cbv beta iota.
  { now rewrite (getitem_run _ _ _ _ Hd1), Eerr. }
  destruct (calculate_real_return_returns to_datetime pow (length (heap st))
              (strftime (start_date data)) (strftime (end_date data)) cpi st1 d1 Hd1)
    as (r2 & st2 & d2 & E2 & Hd2 & Hshape2).
  exists r2, st2, d2. split; [exact E2|]. split; [exact Hd2|].
  split; [exact Hshape2|].
  rewrite E2, (contains_run _ _ _ _ Hd2). unfold dict_contains.
  destruct (dict_get "error" d2) as [msg|] eqn:Eerr2; cbv beta iota;
    [|reflexivity].
  now rewrite (getitem_run _ _ _ _ Hd2), Eerr2.
Qed.

End EndpointAnswers.

(** X1.  Whatever the caches and the request are, the endpoint ends in
    one of two ways: it returns a record that is no error and holds
    every entry of the real stage, or it raises an [HTTPException]
    with status 400 or 503.  No other exception leaves it. *)
Theorem endpoint_answers_record_or_http_error
    (to_datetime : string -> result Timestamp) (pow : float -> float -> float)
    (strftime : Z -> string)
    (float_str : float -> string) (int_str : Z -> string)
    (SP500 CPI : option DataFrame) (data : CalculatorInput) (st : state) :
  (exists r st' d,
      calculate_returns_endpoint to_datetime pow strftime float_str int_str
        SP500 CPI data st = (Ok r, st')
      /\ heap st' !! r = Some d /\ result_record real_keys d)
  \/ (exists code detail st',
      calculate_returns_endpoint to_datetime pow strftime float_str int_str
        SP500 CPI data st = (Raised (mkExn (HTTPException code) detail), st')
      /\ (code = 400 \/ code = 503)).
Proof.
  destruct (not_loaded SP500 || not_loaded CPI
            || cache_empty SP500 || cache_empty CPI) eqn:Hload.
  { right. unfold calculate_returns_endpoint. rewrite Hload.
    eexists _, _, _. split; [reflexivity|now right]. }
  destruct (start_date data >=? end_date data) eqn:Hge.
  { right. unfold calculate_returns_endpoint. rewrite Hload, Hge.
    eexists _, _, _. split; [reflexivity|now left]. }
  destruct SP500 as [sp|]; [|discriminate].
  destruct CPI as [cpi|]; [|discriminate].
  cbn [not_loaded cache_empty orb] in Hload.
  apply orb_false_iff in Hload as [Hsp Hcpi].
  assert (Hlt : start_date data < end_date data)
    by (rewrite Z.geb_leb in Hge; apply Z.leb_gt in Hge; lia).
  destruct (endpoint_run to_datetime pow strftime float_str int_str
              sp cpi data st Hsp Hcpi Hlt)
    as (r1 & st1 & d1 & _ & _ & _ & H).
  destruct (dict_get "error" d1) as [msg|].
  { right. eexists _, _, _. split; [exact H|now left]. }
  destruct H as (r2 & st2 & d2 & _ & Hd2 & Hshape & H).
  destruct (dict_get "error" d2) as [msg|] eqn:Eerr.
  { right. eexists _, _, _. split; [exact H|now left]. }
  left. exists r2, st2, d2. split; [exact H|]. split; [exact Hd2|].
  destruct Hshape as [Herr|Hrec]; [|exact Hrec].
  unfold is_error, dict_contains in Herr. now rewrite Eerr in Herr.
Qed.

(** X2.  When the two stages in a row end on a record that is no error,
    the endpoint returns that very record, in the same world: it adds
    nothing to what the calculator did. *)
Theorem endpoint_returns_the_calculator_record
    (to_datetime : string -> result Timestamp) (pow : float -> float -> float)
    (strftime : Z -> string)
    (float_str : float -> string) (int_str : Z -> string)
    (sp cpi : DataFrame) (data : CalculatorInput) (st : state)
    (r : ref) (st' : state) (d : dict) :
  df_empty sp = false -> df_empty cpi = false ->
  start_date data < end_date data ->
  calculate_returns to_datetime pow (strftime (start_date data))
    (strftime (end_date data)) (initial_investment data) sp cpi st = (Ok r, st') ->
  heap st' !! r = Some d -> is_error d = false ->
  calculate_returns_endpoint to_datetime pow strftime float_str int_str
    (Some sp) (Some cpi) data st = (Ok r, st').
Proof.
  intros Hsp Hcpi Hlt Hrun Hd Herr.
  destruct (endpoint_run to_datetime pow strftime float_str int_str
              sp cpi data st Hsp Hcpi Hlt)
    as (r1 & st1 & d1 & E1 & Hd1 & _ & H).
  unfold calculate_returns, bind in Hrun. rewrite E1 in Hrun.
  destruct (dict_get "error" d1) as [msg|] eqn:Eerr.
  - assert (Herr1 : is_error d1 = true)
      by (unfold is_error, dict_contains; now rewrite Eerr).
    rewrite (calculate_real_return_pass _ _ _ _ _ _ _ _ Hd1 Herr1) in Hrun.
    injection Hrun as <- <-. congruence.
  - destruct H as (r2 & st2 & d2 & E2 & Hd2 & _ & H).
    rewrite E2 in Hrun. injection Hrun as <- <-.
    assert (d2 = d) as -> by congruence.
    unfold is_error, dict_contains in Herr.
    destruct (dict_get "error" d); [discriminate|exact H].
Qed.

(** X2 on the sample frames, for a request over 2020-2024. *)
Lemma endpoint_returns_the_calculator_record_witness :
  calculate_returns_endpoint Iso.to_datetime Iso.pow Iso.strftime
    (fun _ => "") (fun _ => "") (Some Demo.prices) (Some Demo.cpi)
    (mkCalculatorInput 18262 19723 1000) Demo.st0
  = (Ok 0%nat, Demo.after_real).
Proof.
  eapply (endpoint_returns_the_calculator_record Iso.to_datetime Iso.pow
            Iso.strftime (fun _ => "") (fun _ => "") Demo.prices Demo.cpi
            (mkCalculatorInput 18262 19723 1000) Demo.st0 0 Demo.after_real);
    [reflexivity | reflexivity | reflexivity | vm_compute; reflexivity
    | reflexivity | reflexivity].
Defined.

(** X3.  A request whose range holds no row of the price frame is
    answered by the 400 error that carries the message of the nominal
    stage.  The world then holds the error record, the range slice and
    the warning: the CPI frame has not been looked at. *)
Theorem endpoint_no_price_in_range
    (to_datetime : string -> result Timestamp) (pow : float -> float -> float)
    (strftime : Z -> string)
    (float_str : float -> string) (int_str : Z -> string)
    (sp cpi : DataFrame) (data : CalculatorInput) (st : state)
    (s e : Timestamp) :
  df_empty sp = false -> df_empty cpi = false ->
  start_date data < end_date data ->
  to_datetime (strftime (start_date data)) = Ok s ->
  to_datetime (strftime (end_date data)) = Ok e ->
  df_between s e sp = [] ->
  calculate_returns_endpoint to_datetime pow strftime float_str int_str
    (Some sp) (Some cpi) data st
  = (Raised (mkExn (HTTPException 400)
               "Nominal calculation error: Insufficient S&P 500 data for the selected period."),
     mkState (heap st ++ [[("error", VStr insufficient_sp500)]])
       (trace st ++ [EvRange s e;
                     coverage_warning (strftime (start_date data))
                       (strftime (end_date data))])).
Proof.
  intros Hsp Hcpi Hlt Hs He Hrows.
  destruct (endpoint_run to_datetime pow strftime float_str int_str
              sp cpi data st Hsp Hcpi Hlt)
    as (r1 & st1 & d1 & E1 & Hd1 & _ & H).
  assert (Hne : sp <> []) by (intros ->; discriminate).
  rewrite (calculate_nominal_return_run _ _ _ _ _ _ _ _ Hs He Hne) in E1.
  rewrite (nominal_return_body_run _ _ _ _ _ _ _ _ Hs He Hne) in E1.
  cbv zeta in E1. rewrite Hrows in E1. cbn in E1.
  injection E1 as <- <-. cbn [heap] in Hd1. rewrite lookup_new in Hd1.
  injection Hd1 as <-. exact H.
Qed.

(** X3 on the sample price frame, for a request over 2019. *)
Lemma endpoint_no_price_in_range_witness :
  calculate_returns_endpoint Iso.to_datetime Iso.pow Iso.strftime
    (fun _ => "") (fun _ => "") (Some Demo.prices) (Some Demo.cpi)
    (mkCalculatorInput 17897 18261 1000) Demo.st0
  = (Raised (mkExn (HTTPException 400)
               "Nominal calculation error: Insufficient S&P 500 data for the selected period."),
     mkState [[("error", VStr insufficient_sp500)]]
       [EvRange (Demo.day 17897) (Demo.day 18261);
        coverage_warning "2019-01-01" "2019-12-31"]).
Proof.
  exact (endpoint_no_price_in_range Iso.to_datetime Iso.pow Iso.strftime
           (fun _ => "") (fun _ => "") Demo.prices Demo.cpi
           (mkCalculatorInput 17897 18261 1000) Demo.st0
           (Demo.day 17897) (Demo.day 18261)
           eq_refl eq_refl eq_refl eq_refl eq_refl eq_refl).
Defined.

(** X4.  A request whose CPI lookup at the start or at the end is
    missing, or is zero at the start, is answered by the 400 error that
    carries the message of the real stage; the record of the nominal
    stage stays in the world as the nominal stage wrote it. *)
Theorem endpoint_cpi_unusable
    (to_datetime : string -> result Timestamp) (pow : float -> float -> float)
    (strftime : Z -> string)
    (float_str : float -> string) (int_str : Z -> string)
    (sp cpi : DataFrame) (data : CalculatorInput) (st : state)
    (s e : Timestamp) (row : Timestamp * float) (rows : DataFrame)
    (cs ce : float) :
  df_empty sp = false -> df_empty cpi = false ->
  start_date data < end_date data ->
  to_datetime (strftime (start_date data)) = Ok s ->
  to_datetime (strftime (end_date data)) = Ok e ->
  df_between s e sp = row :: rows ->
  series_asof cpi s = Ok cs -> series_asof cpi e = Ok ce ->
  cpi_unusable cs ce = true ->
  exists tr,
    calculate_returns_endpoint to_datetime pow strftime float_str int_str
      (Some sp) (Some cpi) data st
    = (Raised (mkExn (HTTPException 400)
                 "Real calculation error: Insufficient CPI data for the selected period."),
       mkState
         (heap st ++
            [price_record (strftime (start_date data)) (strftime (end_date data))
               (initial_investment data) (snd row)
               (last_of nan (df_values (row :: rows)));
             [("error", VStr insufficient_cpi)]])
         tr).
Proof.
  intros Hsp Hcpi Hlt Hs He Hrows Hcs Hce Hbad.
  destruct (endpoint_run to_datetime pow strftime float_str int_str
              sp cpi data st Hsp Hcpi Hlt)
    as (r1 & st1 & d1 & E1 & Hd1 & _ & H).
  assert (Hne : sp <> []) by (intros ->; discriminate).
  rewrite (calculate_nominal_return_run _ _ _ _ _ _ _ _ Hs He Hne) in E1.
  rewrite (nominal_return_body_run _ _ _ _ _ _ _ _ Hs He Hne) in E1.
  cbv zeta in E1. rewrite Hrows in E1.
  injection E1 as <- <-. cbn [heap] in Hd1. rewrite lookup_new in Hd1.
  injection Hd1 as <-. cbn [price_record dict_get String.eqb Ascii.eqb Bool.eqb] in H.
  destruct H as (r2 & st2 & d2 & E2 & Hd2 & _ & H).
  unfold calculate_real_return in E2. revert E2. mrun.
  erewrite contains_run by apply lookup_new.
  cbn [price_record dict_contains dict_get String.eqb Ascii.eqb Bool.eqb].
  erewrite real_return_body_run; [|apply lookup_new|exact Hs|exact He].
  rewrite Hcs, Hce. cbv zeta. rewrite Hbad. cbn [heap trace].
  intros [= <- <-]. cbn [heap] in Hd2.
  rewrite <- app_assoc in H. cbn [app] in H.
  rewrite length_app, Nat.add_comm in Hd2. cbn [length Nat.add] in Hd2.
  rewrite <- app_assoc in Hd2. cbn [app] in Hd2.
  assert (d2 = [("error", VStr insufficient_cpi)]) as ->.
  { change (heap st ++ [?a; ?b]) with (heap st ++ [a; b]) in Hd2.
    rewrite lookup_app_r in Hd2 by lia.
    replace (S (length (heap st)) - length (heap st))%nat with 1%nat in Hd2 by lia.
    now injection Hd2 as <-. }
  eexists. exact H.
Qed.

(** X4 on the sample prices and a CPI that starts after the range does. *)
Lemma endpoint_cpi_unusable_witness :
  exists tr,
    calculate_returns_endpoint Iso.to_datetime Iso.pow Iso.strftime
      (fun _ => "") (fun _ => "") (Some Demo.prices) (Some Demo2.late_cpi)
      (mkCalculatorInput 18262 18628 1000) Demo.st0
    = (Raised (mkExn (HTTPException 400)
                 "Real calculation error: Insufficient CPI data for the selected period."),
       mkState
         [price_record "2020-01-01" "2021-01-01" 1000 100 105;
          [("error", VStr insufficient_cpi)]]
         tr).
Proof.
  exact (endpoint_cpi_unusable Iso.to_datetime Iso.pow Iso.strftime
           (fun _ => "") (fun _ => "") Demo.prices Demo2.late_cpi
           (mkCalculatorInput 18262 18628 1000) Demo.st0
           (Demo.day 18262) (Demo.day 18628)
           (Demo.day 18262, 100%float) [(Demo.day 18628, 105%float)]
           nan 255
           eq_refl eq_refl eq_refl eq_refl eq_refl eq_refl eq_refl eq_refl eq_refl).
Defined.

(** ** What a failed real stage has written *)

(** With a factor that is a [numpy.float64] the CAGR entries are
    computed without an exception. *)
Lemma cagr_entries_numpy pow nf rf years :
  exists c, cagr_entries pow false nf rf years = Ok c.
Proof.
  unfold cagr_entries, nominal_cagr_entry, power. cbn.
  destruct (0 <? years)%float; eauto.
Qed.

(** X5.  When the real stage, handed a record that is no error, ends on
    an error record, that record is a new object holding the single
    entry ["error"], and no other object than the nominal record can
    have changed.  The nominal record itself is as it was, except in
    one case: its percentage is a Python number and the power or the
    rounding of the nominal CAGR raises (lines 86 and 88); by then the
    three real-return figures of lines 79-81 have been written, and
    they stay.  With a percentage that is a [numpy.float64], as the
    nominal stage writes it, a failed real stage writes nothing. *)
Theorem real_stage_failure_writes_figures_or_nothing
    (to_datetime : string -> result Timestamp) (pow : float -> float -> float)
    (r : ref) (sd ed : string) (cpi : DataFrame) (st : state) (d : dict)
    (r' : ref) (st' : state) (d' : dict) :
  heap st !! r = Some d -> is_error d = false ->
  calculate_real_return to_datetime pow r sd ed cpi st = (Ok r', st') ->
  heap st' !! r' = Some d' -> is_error d' = true ->
  r' = length (heap st)
  /\ error_record d'
  /\ (heap st' = heap st ++ [d']
      \/ exists s e cs ce pct invested x,
           python_pct d = true
           /\ to_datetime sd = Ok s /\ to_datetime ed = Ok e
           /\ series_asof cpi s = Ok cs /\ series_asof cpi e = Ok ce
           /\ read_float "nominal_total_return_pct" d = Ok pct
           /\ read_float "initial_investment" d = Ok invested
           /\ cagr_entries pow true (nominal_factor pct) (real_factor pct cs ce)
                (years_between s e) = Raised x
           /\ d' = real_failure x
           /\ heap st'
              = <[r := real_figures d pct invested cs ce]> (heap st) ++ [d'])
  /\ (python_pct d = false -> heap st' = heap st ++ [d']).
Proof.
  intros Hd Herr Hrun Hd' Herr'.
  destruct (calculate_real_return_outcome to_datetime pow r sd ed cpi st d Hd Herr)
    as [(s & e & cs & ce & pct & inv & c & _ & _ & _ & _ & _ & _ & _ & _ & E)
       |[(s & e & cs & ce & _ & _ & _ & _ & _ & E)
        |[(x & tr & E)
         |(s & e & cs & ce & pct & inv & x & tr
           & Hs & He & Hcs & Hce & _ & Hp & Hi & Hcagr & E)]]];
    rewrite E in Hrun; injection Hrun as <- <-; cbn [heap] in *.
  - rewrite (lookup_updated _ _ _ _ Hd) in Hd'. injection Hd' as <-.
    rewrite real_record_is_error in Herr'. congruence.
  - rewrite lookup_new in Hd'. injection Hd' as <-.
    repeat split; [now eexists|now left].
  - rewrite lookup_new in Hd'. injection Hd' as <-.
    repeat split; [now eexists|now left].
  - rewrite <- (length_insert (heap st) r (real_figures d pct inv cs ce)) in Hd'.
    rewrite lookup_new in Hd'. injection Hd' as <-.
    split; [reflexivity|]. split; [now eexists|].
    destruct (python_pct d) eqn:Hpy.
    + split; [|discriminate]. right.
      now exists s, e, cs, ce, pct, inv, x.
    + destruct (cagr_entries_numpy pow (nominal_factor pct)
                  (real_factor pct cs ce) (years_between s e)) as (c & Hc).
      congruence.
Qed.

(** X5 on a record whose percentage is the Python float -150: over
    four years the nominal factor -0.5 is raised to the power 0.25,
    which is a complex number in Python, and rounding it raises.  The
    error record is new, and the nominal record has been written its
    three real-return figures. *)
Lemma real_stage_failure_writes_figures_or_nothing_witness :
  exists st' d',
    calculate_real_return Iso.to_datetime Iso.pow 0 "2020-01-01" "2024-01-01"
      Demo.cpi Demo2.python_loss = (Ok 1%nat, st')
    /\ heap st' !! 1%nat = Some d'
    /\ d' = [("error",
              VStr "Real return calculation error: type complex doesn't define __round__ method")]
    /\ error_record d'
    /\ (forall d, heap Demo2.python_loss !! 0%nat = Some d ->
        heap st' !! 0%nat = Some (real_figures d (-150) 1000 250 275)).
Proof.
  eexists _, _. split; [vm_compute; reflexivity|].
  split; [reflexivity|]. split; [reflexivity|].
  destruct (real_stage_failure_writes_figures_or_nothing Iso.to_datetime Iso.pow 0
              "2020-01-01" "2024-01-01" Demo.cpi Demo2.python_loss _ 1 _ _
              eq_refl eq_refl eq_refl eq_refl eq_refl)
    as (_ & Hrec & _).
  split; [exact Hrec|]. intros d [= <-]. reflexivity.
Defined.

(** X6.  A nominal record without its [nominal_total_return_pct] makes
    the real stage return a new error record whose message names the
    missing key, after both CPI lookups; the nominal record is not
    written to. *)
Theorem real_stage_missing_percentage
    (to_datetime : string -> result Timestamp) (pow : float -> float -> float)
    (r : ref) (sd ed : string) (cpi : DataFrame) (st : state) (d : dict)
    (s e : Timestamp) (cs ce : float) :
  heap st !! r = Some d -> is_error d = false ->
  dict_get "nominal_total_return_pct" d = None ->
  to_datetime sd = Ok s -> to_datetime ed = Ok e ->
  series_asof cpi s = Ok cs -> series_asof cpi e = Ok ce ->
  cpi_unusable cs ce = false ->
  calculate_real_return to_datetime pow r sd ed cpi st
  = (Ok (length (heap st)),
     mkState
       (heap st ++
          [[("error",
             VStr "Real return calculation error: 'nominal_total_return_pct'")]])
       (trace st ++
          [EvAsof s; EvAsof e;
           EvPrint "Error in real calculation: 'nominal_total_return_pct'"])).
Proof.
  intros Hd Herr Hkey Hs He Hcs Hce Hok.
  unfold calculate_real_return. mrun.
  rewrite (contains_run _ _ _ _ Hd). fold (is_error d). rewrite Herr.
  rewrite (real_return_body_run _ _ _ _ _ _ _ _ _ _ Hd Hs He), Hcs, Hce.
  cbv zeta. rewrite Hok. unfold read_float. rewrite Hkey.
  cbn [heap trace exn_str]. now rewrite <- app_assoc.
Qed.

(** X6 on a record that lacks the percentage. *)
Lemma real_stage_missing_percentage_witness :
  calculate_real_return Iso.to_datetime Iso.pow 0 "2020-01-01" "2024-01-01"
    Demo.cpi Demo2.no_pct
  = (Ok 1%nat,
     mkState
       (heap Demo2.no_pct ++
          [[("error",
             VStr "Real return calculation error: 'nominal_total_return_pct'")]])
       [EvAsof (Demo.day 18262); EvAsof (Demo.day 19723);
        EvPrint "Error in real calculation: 'nominal_total_return_pct'"]).
Proof.
  exact (real_stage_missing_percentage Iso.to_datetime Iso.pow 0
           "2020-01-01" "2024-01-01" Demo.cpi Demo2.no_pct _
           (Demo.day 18262) (Demo.day 19723) 250 275
           eq_refl eq_refl eq_refl eq_refl eq_refl eq_refl eq_refl eq_refl).
Defined.

(** X7.  A start date that does not parse is reported by each stage in
    a new error record that carries the parser's message; the nominal
    stage has not sliced the price frame and the real stage has not
    looked up the CPI frame. *)
Theorem unparsed_start_date_is_reported
    (to_datetime : string -> result Timestamp) (pow : float -> float -> float)
    (r : ref) (sd ed : string) (invested : float) (sp cpi : DataFrame)
    (st : state) (d : dict) (x : exn) :
  to_datetime sd = Raised x ->
  heap st !! r = Some d -> is_error d = false ->
  calculate_nominal_return to_datetime sd ed invested sp st
  = (Ok (length (heap st)),
     mkState (heap st ++ [[("error", VStr ("Calculation error: " +:+ exn_str x))]])
       (trace st ++ [EvPrint ("Error in nominal calculation: " +:+ exn_str x)]))
  /\ calculate_real_return to_datetime pow r sd ed cpi st
     = (Ok (length (heap st)),
        mkState
          (heap st ++
             [[("error", VStr ("Real return calculation error: " +:+ exn_str x))]])
          (trace st ++ [EvPrint ("Error in real calculation: " +:+ exn_str x)])).
Proof.
  intros Hs Hd Herr. split.
  - unfold calculate_nominal_return, nominal_return_body. mrun.
    now rewrite Hs.
  - unfold calculate_real_return. mrun.
    rewrite (contains_run _ _ _ _ Hd). fold (is_error d). rewrite Herr.
    now rewrite (real_return_body_bad_start _ _ _ _ _ _ _ _ Hs).
Qed.

(** X7 on a thirteenth month. *)
Lemma unparsed_start_date_is_reported_witness :
  calculate_nominal_return Iso.to_datetime "2020-13-01" "2024-01-01" 1000
    Demo.prices Demo.after_nominal
  = (Ok 1%nat,
     mkState
       (heap Demo.after_nominal ++
          [[("error",
             VStr "Calculation error: Unknown datetime string format, unable to parse: 2020-13-01")]])
       (trace Demo.after_nominal ++
          [EvPrint "Error in nominal calculation: Unknown datetime string format, unable to parse: 2020-13-01"])).
Proof.
  exact (proj1
    (unparsed_start_date_is_reported Iso.to_datetime Iso.pow 0
       "2020-13-01" "2024-01-01" 1000 Demo.prices Demo.cpi Demo.after_nominal _ _
       eq_refl eq_refl eq_refl)).
Defined.

(** ** Running the real stage again *)

Lemma dict_set_same k v d : dict_get k d = Some v -> dict_set k v d = d.
Proof.
  induction d as [|[k' v'] d IH]; cbn; [discriminate|].
  destruct (String.eqb k k') eqn:E.
  - now intros [= ->].
  - intros H. now rewrite IH.
Qed.

Lemma dict_set_absent k v d : dict_get k d = None -> dict_set k v d = d ++ [(k, v)].
Proof.
  induction d as [|[k' v'] d IH]; cbn; [reflexivity|].
  destruct (String.eqb k k'); [discriminate|]. intros H. now rewrite IH.
Qed.

Lemma dict_pop_last k v d : dict_get k d = None -> dict_pop k (d ++ [(k, v)]) = d.
Proof.
  induction d as [|[k' v'] d IH]; cbn.
  - now rewrite String.eqb_refl.
  - destruct (String.eqb k k'); [discriminate|]. intros H. now rewrite IH.
Qed.

Lemma dict_get_absent k d : ~ In k (map fst d) -> dict_get k d = None.
Proof.
  induction d as [|[k' v'] d IH]; cbn; [reflexivity|]. intros H.
  destruct (String.eqb k k') eqn:E.
  - apply String.eqb_eq in E. subst. tauto.
  - apply IH. tauto.
Qed.

Lemma dict_pop_keys k d k0 : In k0 (map fst (dict_pop k d)) -> In k0 (map fst d).
Proof.
  induction d as [|[k' v'] d IH]; cbn; [auto|].
  destruct (String.eqb k k'); cbn; tauto.
Qed.

Lemma dict_get_popped k d : List.NoDup (map fst d) -> dict_get k (dict_pop k d) = None.
Proof.
  induction d as [|[k' v'] d IH]; cbn; [reflexivity|].
  intros Hnd. apply NoDup_cons_iff in Hnd as [Hin Hnd].
  destruct (String.eqb k k') eqn:E.
  - apply String.eqb_eq in E. subst. now apply dict_get_absent.
  - cbn. rewrite E. now apply IH.
Qed.

Lemma dict_set_keys k v d k0 :
  In k0 (map fst (dict_set k v d)) -> k0 = k \/ In k0 (map fst d).
Proof.
  induction d as [|[k' v'] d IH]; cbn; [intuition auto|].
  destruct (String.eqb k k'); cbn; tauto.
Qed.

Lemma dict_set_nodup k v d : List.NoDup (map fst d) -> List.NoDup (map fst (dict_set k v d)).
Proof.
  induction d as [|[k' v'] d IH]; cbn.
  - intros _. repeat constructor. easy.
  - intros Hnd. apply NoDup_cons_iff in Hnd as [Hin Hnd].
    destruct (String.eqb k k') eqn:E; cbn.
    + now constructor.
    + constructor; [|now apply IH].
      intros [->|H]%dict_set_keys; [|contradiction].
      now rewrite String.eqb_refl in E.
Qed.

(** The record that the real stage has written is the record it would
    write again from the same numbers. *)
Lemma real_record_again c d pct invested cs ce :
  List.NoDup (map fst d) ->
  let d1 := real_record c d pct invested cs ce in
  real_record c d1 pct invested cs ce = d1.
Proof.
  intros Hnd d1.
  set (X := with_cagr c (real_figures d pct invested cs ce)).
  assert (HX : List.NoDup (map fst X))
    by (unfold X, with_cagr, real_figures; now repeat apply dict_set_nodup).
  assert (Hd1 : d1 = dict_pop "calculation_notes" X
                     ++ [("calculation_notes", VStr real_note)]).
  { unfold d1, real_record. fold X.
    apply dict_set_absent. now apply dict_get_popped. }
  unfold real_record at 1. unfold with_cagr, real_figures.
  rewrite !(dict_set_same _ _ d1);
    try (unfold d1, real_record, with_cagr, real_figures; now dict_read).
  rewrite Hd1 at 1. rewrite dict_pop_last by now apply dict_get_popped.
  rewrite Hd1. apply dict_set_absent. now apply dict_get_popped.
Qed.

Lemma dict_get_kept c d pct invested cs ce k :
  In k kept_keys ->
  dict_get k (real_record c d pct invested cs ce) = dict_get k d.
Proof.
  intros Hk. unfold real_record, with_cagr, real_figures.
  unfold kept_keys in Hk. cbn [In] in Hk.
  destruct Hk as [<-|[<-|[<-|[<-|[<-|[]]]]]]; now dict_read.
Qed.

Lemma read_float_kept c d pct invested cs ce k :
  In k kept_keys ->
  read_float k (real_record c d pct invested cs ce) = read_float k d.
Proof. intros Hk. unfold read_float. now rewrite dict_get_kept. Qed.

(** X8.  Run again on the record it has just rewritten, with the same
    dates and the same CPI frame, the real stage returns the same
    object and leaves every object as it was: the record already
    holds what the second run writes, entry for entry and in the same
    order.  (A Python dict holds no key twice.) *)
Theorem real_stage_is_idempotent
    (to_datetime : string -> result Timestamp) (pow : float -> float -> float)
    (r : ref) (sd ed : string) (cpi : DataFrame) (st : state) (d : dict)
    (r1 : ref) (st1 : state) (d1 : dict) :
  List.NoDup (map fst d) ->
  heap st !! r = Some d ->
  calculate_real_return to_datetime pow r sd ed cpi st = (Ok r1, st1) ->
  heap st1 !! r1 = Some d1 -> is_error d1 = false ->
  exists st2,
    calculate_real_return to_datetime pow r1 sd ed cpi st1 = (Ok r1, st2)
    /\ heap st2 = heap st1.
Proof.
  intros Hnd Hd Hrun Hd1 Herr1.
  destruct (calculate_real_return_success _ _ _ _ _ _ _ _ _ _ _ Hd Hrun Hd1 Herr1)
    as (s & e & cs & ce & pct & inv & c & Hs & He & Hcs & Hce & Hc & Hp & Hi
        & Hcagr & -> & Hrec & ->).
  cbn [heap] in Hd1.
  unfold calculate_real_return. mrun.
  erewrite contains_run by (cbn [heap]; exact Hd1).
  fold (is_error d1). rewrite Herr1.
  erewrite real_return_body_run; [|cbn [heap]; exact Hd1|exact Hs|exact He].
  rewrite Hcs, Hce. cbv zeta. rewrite Hc.
  assert (Hp1 : read_float "nominal_total_return_pct" d1 = Ok pct)
    by (rewrite Hrec, read_float_kept; [exact Hp|unfold kept_keys; cbn; tauto]).
  assert (Hi1 : read_float "initial_investment" d1 = Ok inv)
    by (rewrite Hrec, read_float_kept; [exact Hi|unfold kept_keys; cbn; tauto]).
  assert (Hpy : python_pct d1 = python_pct d)
    by (unfold python_pct; rewrite Hrec, dict_get_kept;
        [reflexivity|unfold kept_keys; cbn; tauto]).
  rewrite Hp1, Hi1, Hpy, Hcagr. eexists. split; [reflexivity|]. cbn [heap].
  rewrite list_insert_insert_eq. f_equal.
  rewrite Hrec. now apply real_record_again.
Qed.

(** X8 on the record of the sample after both stages. *)
Lemma real_stage_is_idempotent_witness :
  exists st2,
    calculate_real_return Iso.to_datetime Iso.pow 0 "2020-01-01" "2024-01-01"
      Demo.cpi Demo.after_real = (Ok 0%nat, st2)
    /\ heap st2 = heap Demo.after_real.
Proof.
  eapply (real_stage_is_idempotent Iso.to_datetime Iso.pow 0
            "2020-01-01" "2024-01-01" Demo.cpi Demo.after_nominal _
            0 Demo.after_real _ _ eq_refl eq_refl eq_refl eq_refl).
  Unshelve. vm_compute. repeat constructor; cbn; intuition discriminate.
Defined.

(** ** When the warning is printed *)

Lemma last_of_in {A} (l : list A) (dflt : A) : l <> [] -> In (last_of dflt l) l.
Proof.
  unfold last_of. induction l as [|a [|b l] IH]; intros H; [contradiction| |].
  - now left.
  - right. apply IH. discriminate.
Qed.

Lemma df_between_bounds s e sp t :
  In t (df_index (df_between s e sp)) -> s <= t <= e.
Proof.
  unfold df_index, df_between. intros ((t' & v) & <- & H)%in_map_iff.
  apply filter_In in H as [_ H]. cbn in *. lia.
Qed.

Lemma coverage_gap_false_iff s e sp :
  coverage_gap s e (df_between s e sp) = false
  <-> reaches_both_ends s e (df_between s e sp).
Proof.
  unfold coverage_gap, reaches_both_ends.
  pose proof (df_between_bounds s e sp) as Hb.
  destruct (df_between s e sp) as [|row rows]; [cbn; split; [discriminate|tauto]|].
  assert (H1 : s <= hd 0 (df_index (row :: rows)) <= e)
    by (apply Hb; now left).
  assert (H2 : s <= last_of 0 (df_index (row :: rows)) <= e)
    by (apply Hb, last_of_in; discriminate).
  cbn [df_empty orb]. rewrite orb_false_iff, !Z.ltb_ge.
  split; [intros [? ?]|intros (_ & ? & ?)]; repeat split; try lia. discriminate.
Qed.

(** X9.  With dates that parse and a frame that has rows, the nominal
    stage prints its warning exactly when the rows in range do not
    reach both ends of the range: no warning when the first row in
    range is dated [start] and the last one [end], one warning
    otherwise (a range without rows included).  Nothing else is
    printed, and the frame is sliced once. *)
Theorem warning_iff_range_not_reached
    (to_datetime : string -> result Timestamp)
    (sd ed : string) (invested : float) (sp : DataFrame) (st : state)
    (s e : Timestamp) :
  to_datetime sd = Ok s -> to_datetime ed = Ok e -> sp <> [] ->
  exists r st' printed,
    calculate_nominal_return to_datetime sd ed invested sp st = (Ok r, st')
    /\ trace st' = trace st ++ EvRange s e :: printed
    /\ (reaches_both_ends s e (df_between s e sp) -> printed = [])
    /\ (~ reaches_both_ends s e (df_between s e sp) ->
        printed = [coverage_warning sd ed]).
Proof.
  intros Hs He Hsp.
  rewrite (calculate_nominal_return_run _ _ _ _ _ _ _ _ Hs He Hsp).
  rewrite (nominal_return_body_run _ _ _ _ _ _ _ _ Hs He Hsp). cbv zeta.
  eexists _, _, _. split; [reflexivity|]. split; [reflexivity|].
  destruct (coverage_gap s e (df_between s e sp)) eqn:Hgap.
  - split; [|reflexivity]. intros H%coverage_gap_false_iff. congruence.
  - split; [reflexivity|]. intros H. apply coverage_gap_false_iff in Hgap.
    contradiction.
Qed.

(** X9 on the sample frame over 2020-2024, which reaches both ends. *)
Lemma warning_iff_range_not_reached_witness :
  exists r st',
    calculate_nominal_return Iso.to_datetime "2020-01-01" "2024-01-01" 1000
      Demo.prices Demo.st0 = (Ok r, st')
    /\ trace st' = [EvRange (Demo.day 18262) (Demo.day 19723)].
Proof.
  destruct (warning_iff_range_not_reached Iso.to_datetime
              "2020-01-01" "2024-01-01" 1000 Demo.prices Demo.st0
              (Demo.day 18262) (Demo.day 19723) eq_refl eq_refl
              ltac:(discriminate))
    as (r & st' & printed & Hrun & Htr & Hcov & _).
  exists r, st'. split; [exact Hrun|].
  rewrite Htr, Hcov; [reflexivity|].
  vm_compute. repeat split; discriminate.
Defined.

(** * The fetch functions and the startup *)

Ltac iorun :=
  cbv beta iota zeta delta
    [Fetcher.io_bind Fetcher.io_lift Fetcher.io_ret Fetcher.io_raise
     Fetcher.io_emit Fetcher.io_print Fetcher.io_try Fetcher.of_result
     Main.set_SP500_DATA_CACHE Main.set_CPI_DATA_CACHE];
  cbn [Fetcher.SP500_DATA_CACHE Fetcher.CPI_DATA_CACHE Fetcher.output].

Section FredFacts.
Import Fetcher.

Variable FRED_API_KEY : option string.
Variable Json : Type.
Variable requests_get : string -> answer (Response Json).
Variable observations_frame : Json -> answer DataFrame.

(** One call of [fetch_fred_data]: what it returns and what it lets be
    observed, by the key. *)
Lemma fetch_fred_data_cases series_id w :
  exists df out,
    fetch_fred_data FRED_API_KEY Json requests_get observations_frame series_id w
    = (Done df, after w out)
    /\ fetch_outcome FRED_API_KEY requests_get observations_frame series_id df out.
Proof.
  unfold fetch_fred_data, fetch_outcome, after.
  destruct (usable_key FRED_API_KEY) as [key|].
  2:{ iorun. eexists _, _. split; [reflexivity|]. now split. }
  iorun.
  destruct (requests_get (fred_url series_id key)) as [response|e] eqn:Eget.
  2:{ destruct e; iorun; rewrite <- app_assoc;
        (eexists _, _; split; [reflexivity|]; eexists; split; [reflexivity|now left]). }
  unfold raise_for_status.
  destruct ((400 <=? status_code response) && (status_code response <? 600))
    eqn:Estatus.
  { iorun. rewrite <- app_assoc.
    eexists _, _; split; [reflexivity|]; eexists; split; [reflexivity|now left]. }
  destruct (json response) as [data|e] eqn:Ejson.
  2:{ destruct e; iorun; rewrite <- app_assoc;
        (eexists _, _; split; [reflexivity|]; eexists; split; [reflexivity|now left]). }
  destruct (observations_frame data) as [df|e] eqn:Eframe.
  2:{ destruct e; iorun; rewrite <- app_assoc;
        (eexists _, _; split; [reflexivity|]; eexists; split; [reflexivity|now left]). }
  iorun. rewrite <- app_assoc.
  eexists _, _; split; [reflexivity|]; eexists; split; [reflexivity|right].
  exists response, data. repeat split; try assumption.
  apply andb_false_iff in Estatus as [H|H]; [left|right]; lia.
Qed.

(** The startup: the two fetches in a row, each stored in its global,
    and one closing line. *)
Lemma load_data_caches_run w :
  exists sp cpi out1 out2,
    Main.load_data_caches FRED_API_KEY Json requests_get observations_frame w
    = (Done tt,
       mkWorld (Some sp) (Some cpi)
         (output w ++ [Out Main.loading_line] ++ out1 ++ out2
          ++ [Out (if df_empty sp || df_empty cpi
                   then Main.failed_line else Main.loaded_line)]))
    /\ fetch_outcome FRED_API_KEY requests_get observations_frame "SP500" sp out1
    /\ fetch_outcome FRED_API_KEY requests_get observations_frame "CPIAUCSL" cpi out2.
Proof.
  unfold Main.load_data_caches, fetch_sp500_data, fetch_cpi_data.
  set (w1 := after w [Out Main.loading_line]).
  destruct (fetch_fred_data_cases "SP500" w1) as (sp & out1 & E1 & H1).
  set (w2 := mkWorld (Some sp) (CPI_DATA_CACHE w) (output (after w1 out1))).
  destruct (fetch_fred_data_cases "CPIAUCSL" w2) as (cpi & out2 & E2 & H2).
  exists sp, cpi, out1, out2. split; [|now split].
  iorun. fold (after w [Out Main.loading_line]). fold w1. rewrite E1.
  cbn [SP500_DATA_CACHE CPI_DATA_CACHE output after].
  change (mkWorld (Some sp) (CPI_DATA_CACHE w1) (output w1 ++ out1)) with w2.
  rewrite E2. unfold after, w2, w1. cbn [SP500_DATA_CACHE CPI_DATA_CACHE output after].
  destruct (df_empty sp || df_empty cpi); iorun;
    now rewrite <- !app_assoc.
Qed.

End FredFacts.

Lemma requests_app out1 out2 : requests (out1 ++ out2) = requests out1 ++ requests out2.
Proof.
  induction out1 as [|[line|url|t s e] out1 IH]; cbn; [reflexivity| | |];
    now rewrite IH.
Qed.

(** X10.  [fetch_fred_data] never raises, whatever the network and
    pandas do: it returns a frame, leaves the two globals alone, prints
    one line and sends at most one request.  The frame is empty unless
    a usable key is set, the request was answered with a status that is
    no error, the answer decoded and the frame could be built from
    it. *)
Theorem fetch_fred_data_never_raises
    (FRED_API_KEY : option string) (Json : Type)
    (requests_get : string -> Fetcher.answer (Fetcher.Response Json))
    (observations_frame : Json -> Fetcher.answer DataFrame)
    (series_id : string) (w : Fetcher.world) :
  exists df out,
    Fetcher.fetch_fred_data FRED_API_KEY Json requests_get observations_frame
      series_id w = (Fetcher.Done df, after w out)
    /\ (exists line, printed out = [line])
    /\ (length (requests out) <= 1)%nat
    /\ (df_empty df = false ->
        exists key,
          Fetcher.usable_key FRED_API_KEY = Some key
          /\ requests out = [Fetcher.fred_url series_id key]
          /\ answered_with requests_get observations_frame
               (Fetcher.fred_url series_id key) df).
Proof.
  destruct (fetch_fred_data_cases FRED_API_KEY Json requests_get
              observations_frame series_id w) as (df & out & E & H).
  exists df, out. split; [exact E|]. unfold fetch_outcome in H.
  destruct (Fetcher.usable_key FRED_API_KEY) as [key|].
  - destruct H as (line & -> & Hdf). cbn [requests length].
    split; [now exists line|].
    split; [lia|]. intros Hne. exists key. split; [reflexivity|].
    split; [reflexivity|].
    destruct Hdf as [->|Hdf]; [discriminate|exact Hdf].
  - destruct H as (-> & ->). cbn [requests length].
    split; [now exists Fetcher.no_key_line|].
    split; [lia|]. discriminate.
Qed.

Lemma printed_app out1 out2 : printed (out1 ++ out2) = printed out1 ++ printed out2.
Proof.
  induction out1 as [|[line|url|t s e] out1 IH]; cbn; [reflexivity| | |];
    now rewrite IH.
Qed.

(** ** The startup and the [/calculator] endpoint *)

Section Availability.

Variable to_datetime : string -> result Timestamp.
Variable pow : float -> float -> float.
Variable strftime : Z -> string.
Variable float_str : float -> string.
Variable int_str : Z -> string.

(** With a frame loaded in each cache and one of them empty, every
    request is turned away, and nothing is done. *)
Lemma endpoint_unavailable sp cpi data st :
  df_empty sp || df_empty cpi = true ->
  calculate_returns_endpoint to_datetime pow strftime float_str int_str
    (Some sp) (Some cpi) data st = (Raised unavailable, st).
Proof.
  intros H. unfold calculate_returns_endpoint.
  cbn [not_loaded cache_empty orb]. now rewrite H.
Qed.

(** With two frames that are not empty, a request ends on a record or
    on an [HTTPException] with status 400. *)
Lemma endpoint_available sp cpi data st :
  df_empty sp || df_empty cpi = false ->
  exists r st',
    calculate_returns_endpoint to_datetime pow strftime float_str int_str
      (Some sp) (Some cpi) data st = (r, st')
    /\ forall e, r = Raised e -> exn_class e = HTTPException 400.
Proof.
  intros [Hsp Hcpi]%orb_false_iff.
  destruct (start_date data >=? end_date data) eqn:Hge.
  { unfold calculate_returns_endpoint.
    cbn [not_loaded cache_empty orb]. rewrite Hsp, Hcpi, Hge. cbn [orb].
    eexists _, _. split; [reflexivity|]. now intros e [= <-]. }
  assert (Hlt : start_date data < end_date data)
    by (rewrite Z.geb_leb in Hge; apply Z.leb_gt in Hge; lia).
  destruct (endpoint_run to_datetime pow strftime float_str int_str
              sp cpi data st Hsp Hcpi Hlt)
    as (r1 & st1 & d1 & _ & _ & _ & H).
  destruct (dict_get "error" d1) as [msg|].
  { eexists _, _. split; [exact H|]. now intros e [= <-]. }
  destruct H as (r2 & st2 & d2 & _ & _ & _ & H).
  destruct (dict_get "error" d2) as [msg|].
  - eexists _, _. split; [exact H|]. now intros e [= <-].
  - eexists _, _. split; [exact H|]. discriminate.
Qed.

End Availability.

(** X11.  Without a usable FRED key (the variable unset, or set to the
    empty string) the startup sends no request and stores an empty
    frame in each cache; from then on the endpoint answers every
    request with status 503 and does nothing else. *)
Theorem startup_without_key_is_unavailable
    (FRED_API_KEY : option string) (Json : Type)
    (requests_get : string -> Fetcher.answer (Fetcher.Response Json))
    (observations_frame : Json -> Fetcher.answer DataFrame)
    (to_datetime : string -> result Timestamp) (pow : float -> float -> float)
    (strftime : Z -> string)
    (float_str : float -> string) (int_str : Z -> string)
    (w : Fetcher.world) (data : CalculatorInput) (st : state) :
  Fetcher.usable_key FRED_API_KEY = None ->
  exists w',
    Main.startup_event FRED_API_KEY Json requests_get observations_frame w
    = (Fetcher.Done tt, w')
    /\ Fetcher.SP500_DATA_CACHE w' = Some []
    /\ Fetcher.CPI_DATA_CACHE w' = Some []
    /\ Fetcher.output w'
       = Fetcher.output w
         ++ [Fetcher.Out Main.loading_line; Fetcher.Out Fetcher.no_key_line;
             Fetcher.Out Fetcher.no_key_line; Fetcher.Out Main.failed_line]
    /\ calculate_returns_endpoint to_datetime pow strftime float_str int_str
         (Fetcher.SP500_DATA_CACHE w') (Fetcher.CPI_DATA_CACHE w') data st
       = (Raised unavailable, st).
Proof.
  intros Hkey. unfold Main.startup_event.
  destruct (load_data_caches_run FRED_API_KEY Json requests_get
              observations_frame w) as (sp & cpi & out1 & out2 & E & H1 & H2).
  unfold fetch_outcome in H1, H2. rewrite Hkey in H1, H2.
  destruct H1 as (-> & ->), H2 as (-> & ->).
  eexists. split; [exact E|]. cbn. repeat split; reflexivity.
Qed.

(** X11 with the variable set to the empty string. *)
Lemma startup_without_key_is_unavailable_witness :
  exists w',
    Main.startup_event (Some "") Outside.Json Outside.requests_get
      Outside.observations_frame Outside.w0 = (Fetcher.Done tt, w')
    /\ requests (Fetcher.output w') = []
    /\ calculate_returns_endpoint Iso.to_datetime Iso.pow Iso.strftime
         (fun _ => "") (fun _ => "")
         (Fetcher.SP500_DATA_CACHE w') (Fetcher.CPI_DATA_CACHE w')
         (mkCalculatorInput 18262 19723 1000) Demo.st0
       = (Raised unavailable, Demo.st0).
Proof.
  destruct (startup_without_key_is_unavailable (Some "") Outside.Json
              Outside.requests_get Outside.observations_frame
              Iso.to_datetime Iso.pow Iso.strftime (fun _ => "") (fun _ => "")
              Outside.w0 (mkCalculatorInput 18262 19723 1000) Demo.st0 eq_refl)
    as (w' & E & _ & _ & Hout & H503).
  exists w'. split; [exact E|]. split; [now rewrite Hout|exact H503].
Defined.

(** X12.  The last line the startup prints tells whether the endpoint
    will serve.  The startup never raises and ends on one of two lines.
    After [Data caches loaded successfully.] both requests went through
    and gave the frames now cached, and every request to the endpoint
    ends on a record or on status 400.  After the warning, every
    request is answered with status 503. *)
Theorem startup_line_tells_availability
    (FRED_API_KEY : option string) (Json : Type)
    (requests_get : string -> Fetcher.answer (Fetcher.Response Json))
    (observations_frame : Json -> Fetcher.answer DataFrame)
    (to_datetime : string -> result Timestamp) (pow : float -> float -> float)
    (strftime : Z -> string)
    (float_str : float -> string) (int_str : Z -> string)
    (w : Fetcher.world) :
  exists w' out line,
    Main.load_data_caches FRED_API_KEY Json requests_get observations_frame w
    = (Fetcher.Done tt, w')
    /\ Fetcher.output w' = Fetcher.output w ++ out ++ [Fetcher.Out line]
    /\ ((line = Main.loaded_line
         /\ (exists key sp cpi,
               Fetcher.usable_key FRED_API_KEY = Some key
               /\ Fetcher.SP500_DATA_CACHE w' = Some sp
               /\ Fetcher.CPI_DATA_CACHE w' = Some cpi
               /\ answered_with requests_get observations_frame
                    (Fetcher.fred_url "SP500" key) sp
               /\ answered_with requests_get observations_frame
                    (Fetcher.fred_url "CPIAUCSL" key) cpi)
         /\ forall data st, exists r st',
              calculate_returns_endpoint to_datetime pow strftime float_str int_str
                (Fetcher.SP500_DATA_CACHE w') (Fetcher.CPI_DATA_CACHE w') data st
              = (r, st')
              /\ forall e, r = Raised e -> exn_class e = HTTPException 400)
        \/ (line = Main.failed_line
            /\ forall data st,
                 calculate_returns_endpoint to_datetime pow strftime float_str int_str
                   (Fetcher.SP500_DATA_CACHE w') (Fetcher.CPI_DATA_CACHE w') data st
                 = (Raised unavailable, st))).
Proof.
  destruct (load_data_caches_run FRED_API_KEY Json requests_get
              observations_frame w) as (sp & cpi & out1 & out2 & E & H1 & H2).
  eexists _, ([Fetcher.Out Main.loading_line] ++ out1 ++ out2), _.
  split; [exact E|]. cbn [Fetcher.output Fetcher.SP500_DATA_CACHE Fetcher.CPI_DATA_CACHE].
  split; [now rewrite <- !app_assoc|].
  destruct (df_empty sp || df_empty cpi) eqn:Hempty.
  - right. split; [reflexivity|]. intros data st.
    now apply endpoint_unavailable.
  - left. split; [reflexivity|]. split.
    + apply orb_false_iff in Hempty as [Hsp Hcpi].
      unfold fetch_outcome in H1, H2.
      destruct (Fetcher.usable_key FRED_API_KEY) as [key|].
      * destruct H1 as (l1 & _ & [->|A1]); [discriminate|].
        destruct H2 as (l2 & _ & [->|A2]); [discriminate|].
        now exists key, sp, cpi.
      * destruct H1 as (-> & _). discriminate.
    + intros data st. now apply endpoint_available.
Qed.

(** X13.  With a usable key the startup sends two requests, for the
    series [SP500] and then for [CPIAUCSL], whatever they are answered:
    a failure of the first does not keep the second from being sent.
    It prints four lines. *)
Theorem startup_requests_both_series
    (FRED_API_KEY : option string) (Json : Type)
    (requests_get : string -> Fetcher.answer (Fetcher.Response Json))
    (observations_frame : Json -> Fetcher.answer DataFrame)
    (key : string) (w : Fetcher.world) :
  Fetcher.usable_key FRED_API_KEY = Some key ->
  exists w',
    Main.load_data_caches FRED_API_KEY Json requests_get observations_frame w
    = (Fetcher.Done tt, w')
    /\ requests (Fetcher.output w')
       = requests (Fetcher.output w)
         ++ [Fetcher.fred_url "SP500" key; Fetcher.fred_url "CPIAUCSL" key]
    /\ length (printed (Fetcher.output w'))
       = (length (printed (Fetcher.output w)) + 4)%nat.
Proof.
  intros Hkey.
  destruct (load_data_caches_run FRED_API_KEY Json requests_get
              observations_frame w) as (sp & cpi & out1 & out2 & E & H1 & H2).
  unfold fetch_outcome in H1, H2. rewrite Hkey in H1, H2.
  destruct H1 as (l1 & -> & _), H2 as (l2 & -> & _).
  eexists. split; [exact E|]. cbn [Fetcher.output].
  rewrite requests_app, printed_app, length_app. cbn. split; [reflexivity|lia].
Qed.

(** X13 against a server that answers 500 to everything: both requests
    are sent all the same, and both caches end up empty. *)
Lemma startup_requests_both_series_witness :
  exists w',
    Main.load_data_caches (Some Outside.key) Outside.Json Outside.server_down
      Outside.observations_frame Outside.w0 = (Fetcher.Done tt, w')
    /\ requests (Fetcher.output w')
       = [Fetcher.fred_url "SP500" Outside.key;
          Fetcher.fred_url "CPIAUCSL" Outside.key].
Proof.
  destruct (startup_requests_both_series (Some Outside.key) Outside.Json
              Outside.server_down Outside.observations_frame Outside.key
              Outside.w0 eq_refl) as (w' & E & Hreq & _).
  exists w'. split; [exact E|exact Hreq].
Defined.

(** * The OHLC fetch and the [/ohlc] endpoint *)

(** A branch of [fetch_ohlc_data] that gives up, after no call of
    [history] or after one. *)
Ltac gave_up_case :=
  cbv beta iota;
  cbn [Fetcher.SP500_DATA_CACHE Fetcher.CPI_DATA_CACHE Fetcher.output];
  rewrite <- ?app_assoc;
  eexists _, _; split; [reflexivity|]; right; split; [reflexivity|];
  split; [eexists; split; [reflexivity|];
          unfold fetched_line; rewrite <- ?app_assoc; discriminate
         |split; [cbn; lia|reflexivity]].

Section OhlcFacts.
Import Fetcher.

Variable Frame : Type.
Variable empty : Frame -> bool.
Variable pd_DataFrame : Frame.
Variable select_columns : Frame -> list string -> answer Frame.
Variable import_yfinance : answer unit.
Variable history : string -> string -> string -> answer Frame.
Variable to_datetime : string -> result Timestamp.
Variable add_one_day : Timestamp -> result Timestamp.
Variable ts_strftime : Timestamp -> string.

(** One call of [fetch_ohlc_data]: it returns the five columns of what
    [history] gave, or it gave up and returns [pd.DataFrame()]. *)
Lemma fetch_ohlc_data_cases ticker start stop w :
  exists f out,
    fetch_ohlc_data Frame empty pd_DataFrame select_columns import_yfinance
      history to_datetime add_one_day ts_strftime ticker start stop w
    = (Done f, after w out)
    /\ (ohlc_fetched empty select_columns import_yfinance history to_datetime
          add_one_day ts_strftime ticker start stop f out
        \/ (f = pd_DataFrame /\ ohlc_gave_up ticker out)).
Proof.
  unfold fetch_ohlc_data, after, ohlc_gave_up.
  assert (Himp : "Error: yfinance library not installed. Run 'pip install yfinance'"
                 <> fetched_line ticker) by (unfold fetched_line; discriminate).
  assert (Herr : forall s, "Error fetching OHLCV data for " +:+ s <> fetched_line ticker)
    by (intros s; unfold fetched_line; discriminate).
  assert (Hno : forall s, "No data found for " +:+ s <> fetched_line ticker)
    by (intros s; unfold fetched_line; discriminate).
  iorun.
  destruct import_yfinance as [[]|e] eqn:Eimp; [|destruct e; gave_up_case].
  destruct (to_datetime stop) as [end_dt|e] eqn:Eend; [|gave_up_case].
  destruct (add_one_day end_dt) as [next_dt|e] eqn:Enext; [|gave_up_case].
  destruct (history ticker start (ts_strftime next_dt)) as [hist|e] eqn:Ehist;
    [|destruct e; gave_up_case].
  destruct (empty hist) eqn:Eempty; [gave_up_case|].
  destruct (select_columns hist ohlc_columns) as [f|e] eqn:Esel;
    [|destruct e; gave_up_case].
  cbv beta iota. cbn [SP500_DATA_CACHE CPI_DATA_CACHE output].
  rewrite <- app_assoc.
  eexists _, _. split; [reflexivity|]. left.
  exists end_dt, next_dt, hist. repeat split; first [assumption|reflexivity].
Qed.

End OhlcFacts.

(** ** Records *)

Lemma record_get_set_eq k c r : Main.record_get k (Main.record_set k c r) = Some c.
Proof.
  induction r as [|[k' c'] r IH]; cbn.
  - now rewrite decide_True.
  - destruct (decide (k' = k)) as [->|Hne]; cbn.
    + now rewrite decide_True.
    + now rewrite decide_False.
Qed.

Lemma record_get_set_ne k k0 c r :
  k0 <> k -> Main.record_get k0 (Main.record_set k c r) = Main.record_get k0 r.
Proof.
  intros Hne. induction r as [|[k' c'] r IH]; cbn.
  - rewrite decide_False; [reflexivity|congruence].
  - destruct (decide (k' = k)) as [->|Hk]; cbn.
    + rewrite !decide_False; [reflexivity|congruence|congruence].
    + now rewrite IH.
Qed.

Lemma record_set_keys k c c0 r :
  Main.record_get k r = Some c0 ->
  map fst (Main.record_set k c r) = map fst r.
Proof.
  induction r as [|[k' c'] r IH]; cbn; [discriminate|].
  destruct (decide (k' = k)) as [->|Hk]; cbn; [reflexivity|].
  intros H. now rewrite IH.
Qed.

Section OhlcEndpointFacts.
Import Fetcher.

Variable Frame : Type.
Variable empty : Frame -> bool.
Variable pd_DataFrame : Frame.
Variable select_columns : Frame -> list string -> answer Frame.
Variable import_yfinance : answer unit.
Variable history : string -> string -> string -> answer Frame.
Variable to_datetime : string -> result Timestamp.
Variable add_one_day : Timestamp -> result Timestamp.
Variable ts_strftime : Timestamp -> string.
Variable strftime : Z -> string.
Variable to_records : Frame -> answer (list Main.record).
Variable no_strftime : value -> string.

Lemma format_date_done r r' :
  Main.format_date ts_strftime no_strftime r = Done r' ->
  date_is_text r' /\ same_but_date r r'.
Proof.
  unfold Main.format_date, date_is_text, same_but_date.
  destruct (Main.record_get "Date" r) as [[t|v]|] eqn:Edate; [|discriminate..].
  intros [= <-]. split; [|split].
  - eexists. apply record_get_set_eq.
  - now apply record_set_keys with (c0 := Main.CTimestamp t).
  - intros k Hk. now apply record_get_set_ne.
Qed.

Lemma format_dates_done rs rs' :
  Main.format_dates ts_strftime no_strftime rs = Done rs' ->
  Forall date_is_text rs' /\ Forall2 same_but_date rs rs'.
Proof.
  revert rs'. induction rs as [|r rs IH]; intros rs'; cbn [Main.format_dates].
  - intros [= <-]. split; constructor.
  - destruct (Main.format_date ts_strftime no_strftime r) as [r1|e] eqn:E1;
      [|discriminate].
    destruct (Main.format_dates ts_strftime no_strftime rs) as [rs1|e] eqn:E2;
      [|discriminate].
    intros [= <-]. destruct (format_date_done r r1 E1) as [Hd Hs].
    destruct (IH rs1 eq_refl) as [Hds Hss]. split; now constructor.
Qed.

(** The test of the range comes first. *)
Lemma ohlc_range_check data w :
  Main.end_date data <= Main.start_date data ->
  Main.get_ohlc_data_endpoint Frame empty pd_DataFrame select_columns
    import_yfinance history to_datetime add_one_day ts_strftime strftime
    to_records no_strftime data w
  = (Thrown (Exception (mkExn (HTTPException 400)
                          "Start date must be before end date.")), w).
Proof.
  intros Hle. unfold Main.get_ohlc_data_endpoint.
  assert (Hgeb : (Main.start_date data >=? Main.end_date data) = true)
    by (apply Z.geb_le; lia).
  now rewrite Hgeb.
Qed.

(** A request with a start date before the end date: the fetch, then
    the test of its frame. *)
Lemma get_ohlc_data_endpoint_run data w :
  Main.start_date data < Main.end_date data ->
  exists f out,
    fetch_ohlc_data Frame empty pd_DataFrame select_columns import_yfinance
      history to_datetime add_one_day ts_strftime (Main.ticker data)
      (strftime (Main.start_date data)) (strftime (Main.end_date data)) w
    = (Done f, after w out)
    /\ (ohlc_fetched empty select_columns import_yfinance history to_datetime
          add_one_day ts_strftime (Main.ticker data)
          (strftime (Main.start_date data)) (strftime (Main.end_date data)) f out
        \/ (f = pd_DataFrame /\ ohlc_gave_up (Main.ticker data) out))
    /\ Main.get_ohlc_data_endpoint Frame empty pd_DataFrame select_columns
         import_yfinance history to_datetime add_one_day ts_strftime strftime
         to_records no_strftime data w
       = (if empty f then Thrown (ohlc_not_found (Main.ticker data))
          else match to_records f with
               | Thrown e => Thrown e
               | Done rs =>
                   match Main.format_dates ts_strftime no_strftime rs with
                   | Thrown e => Thrown e
                   | Done rs' => Done (Main.mkOHLCResponse (Main.ticker data) rs')
                   end
               end,
          after w out).
Proof.
  intros Hlt.
  destruct (fetch_ohlc_data_cases Frame empty pd_DataFrame select_columns
              import_yfinance history to_datetime add_one_day ts_strftime
              (Main.ticker data) (strftime (Main.start_date data))
              (strftime (Main.end_date data)) w) as (f & out & E & H).
  exists f, out. split; [exact E|]. split; [exact H|].
  unfold Main.get_ohlc_data_endpoint.
  assert (Hgeb : (Main.start_date data >=? Main.end_date data) = false)
    by (rewrite Z.geb_leb; apply Z.leb_gt; lia).
  rewrite Hgeb. cbv zeta. unfold io_bind at 1. rewrite E.
  destruct (empty f); [reflexivity|]. iorun.
  destruct (to_records f) as [rs|e]; [|reflexivity].
  now destruct (Main.format_dates ts_strftime no_strftime rs).
Qed.

End OhlcEndpointFacts.

(** X14.  [fetch_ohlc_data] never raises, whatever [yfinance] and
    pandas do, a failed import included: it returns a frame, prints one
    line and calls [history] at most once.  The frame is not empty only
    if the fetch went through: the library was imported, [history] was
    asked for the range from the start date to the day after the end
    date and returned a frame that is not empty, of which the five
    columns are returned. *)
Theorem fetch_ohlc_data_never_raises
    (Frame : Type) (empty : Frame -> bool) (pd_DataFrame : Frame)
    (select_columns : Frame -> list string -> Fetcher.answer Frame)
    (import_yfinance : Fetcher.answer unit)
    (history : string -> string -> string -> Fetcher.answer Frame)
    (to_datetime : string -> result Timestamp)
    (add_one_day : Timestamp -> result Timestamp)
    (ts_strftime : Timestamp -> string)
    (ticker start stop : string) (w : Fetcher.world) :
  empty pd_DataFrame = true ->
  exists f out,
    Fetcher.fetch_ohlc_data Frame empty pd_DataFrame select_columns
      import_yfinance history to_datetime add_one_day ts_strftime
      ticker start stop w = (Fetcher.Done f, after w out)
    /\ length (printed out) = 1%nat
    /\ (length (histories out) <= 1)%nat
    /\ requests out = []
    /\ (empty f = false ->
        ohlc_fetched empty select_columns import_yfinance history to_datetime
          add_one_day ts_strftime ticker start stop f out).
Proof.
  intros Hempty.
  destruct (fetch_ohlc_data_cases Frame empty pd_DataFrame select_columns
              import_yfinance history to_datetime add_one_day ts_strftime
              ticker start stop w) as (f & out & E & H).
  exists f, out. split; [exact E|].
  destruct H as [Hok|(-> & (line & Hline & _) & Hhist & Hreq)].
  - pose proof Hok as (t & t' & hist & _ & _ & _ & _ & _ & _ & ->).
    cbn. repeat split; [lia|]. now intros _.
  - rewrite Hline. cbn [length]. repeat split; [exact Hhist|exact Hreq|congruence].
Qed.

(** X14 on the sample ticker. *)
Lemma fetch_ohlc_data_never_raises_witness :
  exists f out,
    Fetcher.fetch_ohlc_data Outside.Frame Outside.empty [] Outside.select_columns
      (Fetcher.Done tt) Outside.history Iso.to_datetime Outside.add_one_day
      Outside.ts_strftime "SPY" "2023-01-03" "2023-01-04" Outside.w0
    = (Fetcher.Done f, after Outside.w0 out)
    /\ histories out = [("SPY", "2023-01-03", "2023-01-05")]
    /\ Outside.empty f = false.
Proof.
  destruct (fetch_ohlc_data_never_raises Outside.Frame Outside.empty []
              Outside.select_columns (Fetcher.Done tt) Outside.history
              Iso.to_datetime Outside.add_one_day Outside.ts_strftime
              "SPY" "2023-01-03" "2023-01-04" Outside.w0 eq_refl)
    as (f & out & E & _).
  exists f, out. split; [exact E|].
  vm_compute in E. injection E as <- <-. split; reflexivity.
Defined.

(** X15.  A request whose start date is not before its end date is
    turned away with status 400 before anything is fetched: [yfinance]
    is not called and nothing is printed. *)
Theorem ohlc_invalid_range_fetches_nothing
    (Frame : Type) (empty : Frame -> bool) (pd_DataFrame : Frame)
    (select_columns : Frame -> list string -> Fetcher.answer Frame)
    (import_yfinance : Fetcher.answer unit)
    (history : string -> string -> string -> Fetcher.answer Frame)
    (to_datetime : string -> result Timestamp)
    (add_one_day : Timestamp -> result Timestamp)
    (ts_strftime : Timestamp -> string) (strftime : Z -> string)
    (to_records : Frame -> Fetcher.answer (list Main.record))
    (no_strftime : value -> string)
    (data : Main.OHLCInput) (w : Fetcher.world) :
  Main.end_date data <= Main.start_date data ->
  Main.get_ohlc_data_endpoint Frame empty pd_DataFrame select_columns
    import_yfinance history to_datetime add_one_day ts_strftime strftime
    to_records no_strftime data w
  = (Fetcher.Thrown
       (Fetcher.Exception
          (mkExn (HTTPException 400) "Start date must be before end date.")),
     w).
Proof.
  intros Hle. unfold Main.get_ohlc_data_endpoint.
  assert (Hgeb : (Main.start_date data >=? Main.end_date data) = true)
    by (apply Z.geb_le; lia).
  now rewrite Hgeb.
Qed.

Lemma ohlc_invalid_range_fetches_nothing_witness :
  Main.get_ohlc_data_endpoint Outside.Frame Outside.empty [] Outside.select_columns
    (Fetcher.Done tt) Outside.history Iso.to_datetime Outside.add_one_day
    Outside.ts_strftime Iso.strftime Outside.to_records Outside.no_strftime
    (Main.mkOHLCInput "SPY" 19361 19360) Outside.w0
  = (Fetcher.Thrown
       (Fetcher.Exception
          (mkExn (HTTPException 400) "Start date must be before end date.")),
     Outside.w0).
Proof.
  apply (ohlc_invalid_range_fetches_nothing Outside.Frame Outside.empty []
           Outside.select_columns (Fetcher.Done tt) Outside.history
           Iso.to_datetime Outside.add_one_day Outside.ts_strftime Iso.strftime
           Outside.to_records Outside.no_strftime
           (Main.mkOHLCInput "SPY" 19361 19360) Outside.w0).
  cbn. lia.
Defined.

(** X16.  Whatever goes wrong inside the fetch is answered with status
    404.  When a request with a start date before its end date ends on
    an exception, the exception is the [HTTPException] with status 404
    and the ticker in its detail, unless the fetch went through and the
    exception comes from turning its frame into records: a failed
    import of [yfinance], a date that does not parse, an exception of
    [history], an empty frame and a missing column all read [No OHLC
    data found]. *)
Theorem ohlc_exception_is_not_found_unless_fetched
    (Frame : Type) (empty : Frame -> bool) (pd_DataFrame : Frame)
    (select_columns : Frame -> list string -> Fetcher.answer Frame)
    (import_yfinance : Fetcher.answer unit)
    (history : string -> string -> string -> Fetcher.answer Frame)
    (to_datetime : string -> result Timestamp)
    (add_one_day : Timestamp -> result Timestamp)
    (ts_strftime : Timestamp -> string) (strftime : Z -> string)
    (to_records : Frame -> Fetcher.answer (list Main.record))
    (no_strftime : value -> string)
    (data : Main.OHLCInput) (w w' : Fetcher.world) (e : Fetcher.py_exception) :
  empty pd_DataFrame = true ->
  Main.start_date data < Main.end_date data ->
  Main.get_ohlc_data_endpoint Frame empty pd_DataFrame select_columns
    import_yfinance history to_datetime add_one_day ts_strftime strftime
    to_records no_strftime data w = (Fetcher.Thrown e, w') ->
  e = ohlc_not_found (Main.ticker data)
  \/ exists f out,
       ohlc_fetched empty select_columns import_yfinance history to_datetime
         add_one_day ts_strftime (Main.ticker data)
         (strftime (Main.start_date data)) (strftime (Main.end_date data)) f out
       /\ w' = after w out
       /\ (to_records f = Fetcher.Thrown e
           \/ exists rs, to_records f = Fetcher.Done rs
                /\ Main.format_dates ts_strftime no_strftime rs = Fetcher.Thrown e).
Proof.
  intros Hempty Hlt Hrun.
  destruct (get_ohlc_data_endpoint_run Frame empty pd_DataFrame select_columns
              import_yfinance history to_datetime add_one_day ts_strftime
              strftime to_records no_strftime data w Hlt)
    as (f & out & _ & Hfetch & E).
  rewrite E in Hrun. clear E.
  destruct (empty f) eqn:Ef.
  { left. now injection Hrun as <- _. }
  destruct Hfetch as [Hok|(-> & _)]; [|congruence].
  right. exists f, out. split; [exact Hok|].
  destruct (to_records f) as [rs|e0] eqn:Erec.
  - destruct (Main.format_dates ts_strftime no_strftime rs) as [rs'|e1] eqn:Efmt;
      [discriminate|].
    injection Hrun as <- <-. split; [reflexivity|]. right. now exists rs.
  - injection Hrun as <- <-. split; [reflexivity|]. now left.
Qed.

(** X16 with [yfinance] not installed: the request ends on the 404,
    after the one line of the failed import. *)
Lemma ohlc_exception_is_not_found_unless_fetched_witness :
  Main.get_ohlc_data_endpoint Outside.Frame Outside.empty [] Outside.select_columns
    (Fetcher.Thrown (Fetcher.ImportError "No module named 'yfinance'"))
    Outside.history Iso.to_datetime Outside.add_one_day
    Outside.ts_strftime Iso.strftime Outside.to_records Outside.no_strftime
    (Main.mkOHLCInput "SPY" 19360 19361) Outside.w0
  = (Fetcher.Thrown (ohlc_not_found "SPY"),
     after Outside.w0
       [Fetcher.Out "Error: yfinance library not installed. Run 'pip install yfinance'"])
  /\ (ohlc_not_found "SPY" = ohlc_not_found "SPY"
      \/ exists f out,
           ohlc_fetched Outside.empty Outside.select_columns
             (Fetcher.Thrown (Fetcher.ImportError "No module named 'yfinance'"))
             Outside.history Iso.to_datetime Outside.add_one_day
             Outside.ts_strftime "SPY" (Iso.strftime 19360) (Iso.strftime 19361) f out
           /\ after Outside.w0
                [Fetcher.Out "Error: yfinance library not installed. Run 'pip install yfinance'"]
              = after Outside.w0 out
           /\ (Outside.to_records f = Fetcher.Thrown (ohlc_not_found "SPY")
               \/ exists rs, Outside.to_records f = Fetcher.Done rs
                    /\ Main.format_dates Outside.ts_strftime Outside.no_strftime rs
                       = Fetcher.Thrown (ohlc_not_found "SPY"))).
Proof.
  split; [vm_compute; reflexivity|].
  apply (ohlc_exception_is_not_found_unless_fetched Outside.Frame Outside.empty []
           Outside.select_columns
           (Fetcher.Thrown (Fetcher.ImportError "No module named 'yfinance'"))
           Outside.history Iso.to_datetime Outside.add_one_day
           Outside.ts_strftime Iso.strftime Outside.to_records Outside.no_strftime
           (Main.mkOHLCInput "SPY" 19360 19361) Outside.w0);
    [reflexivity | cbn; lia | vm_compute; reflexivity].
Defined.

(** X17.  When a request is answered, the fetch went through, the
    answer names the ticker of the request and holds one record for
    each record of the fetched frame, in the same order and with the
    same entries, except that [Date] holds a string in every one of
    them. *)
Theorem ohlc_answer_dates_are_text
    (Frame : Type) (empty : Frame -> bool) (pd_DataFrame : Frame)
    (select_columns : Frame -> list string -> Fetcher.answer Frame)
    (import_yfinance : Fetcher.answer unit)
    (history : string -> string -> string -> Fetcher.answer Frame)
    (to_datetime : string -> result Timestamp)
    (add_one_day : Timestamp -> result Timestamp)
    (ts_strftime : Timestamp -> string) (strftime : Z -> string)
    (to_records : Frame -> Fetcher.answer (list Main.record))
    (no_strftime : value -> string)
    (data : Main.OHLCInput) (w w' : Fetcher.world) (answer : Main.OHLCResponse) :
  empty pd_DataFrame = true ->
  Main.get_ohlc_data_endpoint Frame empty pd_DataFrame select_columns
    import_yfinance history to_datetime add_one_day ts_strftime strftime
    to_records no_strftime data w = (Fetcher.Done answer, w') ->
  Main.start_date data < Main.end_date data
  /\ Main.response_ticker answer = Main.ticker data
  /\ Forall date_is_text (Main.response_data answer)
  /\ exists f out rs,
       ohlc_fetched empty select_columns import_yfinance history to_datetime
         add_one_day ts_strftime (Main.ticker data)
         (strftime (Main.start_date data)) (strftime (Main.end_date data)) f out
       /\ w' = after w out
       /\ to_records f = Fetcher.Done rs
       /\ Forall2 same_but_date rs (Main.response_data answer).
Proof.
  intros Hempty Hrun.
  assert (Hlt : Main.start_date data < Main.end_date data).
  { destruct (Z.lt_ge_cases (Main.start_date data) (Main.end_date data)) as [H|H];
      [exact H|].
    rewrite (ohlc_range_check Frame empty pd_DataFrame select_columns
               import_yfinance history to_datetime add_one_day ts_strftime
               strftime to_records no_strftime data w H) in Hrun.
    discriminate. }
  split; [exact Hlt|].
  destruct (get_ohlc_data_endpoint_run Frame empty pd_DataFrame select_columns
              import_yfinance history to_datetime add_one_day ts_strftime
              strftime to_records no_strftime data w Hlt)
    as (f & out & _ & Hfetch & E).
  rewrite E in Hrun. clear E.
  destruct (empty f) eqn:Ef; [discriminate|].
  destruct Hfetch as [Hok|(-> & _)]; [|congruence].
  destruct (to_records f) as [rs|e0] eqn:Erec; [|discriminate].
  destruct (Main.format_dates ts_strftime no_strftime rs) as [rs'|e1] eqn:Efmt;
    [|discriminate].
  injection Hrun as <- <-. cbn [Main.response_ticker Main.response_data].
  destruct (format_dates_done ts_strftime no_strftime rs rs' Efmt) as [Hd Hs].
  split; [reflexivity|]. split; [exact Hd|].
  now exists f, out, rs.
Qed.

(** X17 on the sample ticker: two records, dated 2023-01-03 and
    2023-01-04. *)
Lemma ohlc_answer_dates_are_text_witness :
  exists answer w',
    Main.get_ohlc_data_endpoint Outside.Frame Outside.empty [] Outside.select_columns
      (Fetcher.Done tt) Outside.history Iso.to_datetime Outside.add_one_day
      Outside.ts_strftime Iso.strftime Outside.to_records Outside.no_strftime
      (Main.mkOHLCInput "SPY" 19360 19361) Outside.w0
    = (Fetcher.Done answer, w')
    /\ map (Main.record_get "Date") (Main.response_data answer)
       = [Some (Main.CValue (VStr "2023-01-03"));
          Some (Main.CValue (VStr "2023-01-04"))]
    /\ Forall date_is_text (Main.response_data answer).
Proof.
  eexists _, _. split; [vm_compute; reflexivity|]. split; [reflexivity|].
  eapply (ohlc_answer_dates_are_text Outside.Frame Outside.empty []
            Outside.select_columns (Fetcher.Done tt) Outside.history
            Iso.to_datetime Outside.add_one_day Outside.ts_strftime Iso.strftime
            Outside.to_records Outside.no_strftime
            (Main.mkOHLCInput "SPY" 19360 19361) Outside.w0);
    [reflexivity | vm_compute; reflexivity].
Defined.

(** ** From the startup to an answer *)

(** With the sample server the startup caches the sample frames, and a
    request for 2020-2024 is answered with the record of the
    calculator. *)
Example scenario_startup :
  exists out,
    Main.startup_event (Some Outside.key) Outside.Json Outside.requests_get
      Outside.observations_frame Outside.w0
    = (Fetcher.Done tt, Fetcher.mkWorld (Some Demo.prices) (Some Demo.cpi) out)
    /\ printed out
       = [Main.loading_line; "Fetched SP500 data from FRED";
          "Fetched CPIAUCSL data from FRED"; Main.loaded_line]
    /\ calculate_returns_endpoint Iso.to_datetime Iso.pow Iso.strftime
         (fun _ => "") (fun _ => "") (Some Demo.prices) (Some Demo.cpi)
         (mkCalculatorInput 18262 19723 1000) Demo.st0
       = (Ok 0%nat, Demo.after_real).
Proof. eexists. vm_compute. repeat split; reflexivity. Qed.
